(** * doi-jekyll: a shallow embedding of the DOI registration workflow

    The repository ships the same workflow twice: as a stand-alone script
    ([src/doi-jekyll.py], module [Script] below) and as a package
    ([src/doijekyll/metadata.py] and [src/doijekyll/doijekyll.py], modules
    [Metadata] and [Packaged]).  Both are embedded, function by function,
    over a small model of the Python values they manipulate.

    Conventions.
    - A Python [str] is a Rocq [string] holding its UTF-8 bytes, so
      [title.encode()] is the identity on the representation.  A text
      that UTF-8 cannot encode is no value of this type; where that
      matters, for the title handed to [genDoi], module [Unicode] takes a
      [str] as the sequence of its code points.
    - A Python [dict] is an association list in insertion order; lookups
      take the first binding, [d[k] = v] replaces in place or appends.
    - A raised exception is the [Raise] branch of [result]; an uncaught one
      ends the process. *)

From Stdlib Require Import String Ascii List ZArith Lia Bool Arith.
From Stdlib Require Import Numbers.DecimalString.
Import ListNotations.
Local Open Scope list_scope.
Local Open Scope string_scope.

(* ===================================================================== *)
(** * Python values, dictionaries and exceptions *)
(* ===================================================================== *)

Module Py.

Unset Elimination Schemes.
(** The values a YAML front-matter or an override mapping is made of.
    Scalars other than strings and [None] play no part in the code paths
    embedded here. *)
Inductive value : Type :=
| VNone
| VStr (s : string)
| VList (l : list value)
| VDict (d : list (string * value)).
Set Elimination Schemes.

Definition dict : Type := list (string * value).

(** [d.get(k)], first binding of [k]. *)
Fixpoint lookup (k : string) (d : dict) : option value :=
  match d with
  | [] => None
  | (k', v) :: r => if String.eqb k k' then Some v else lookup k r
  end.

(** [k in d] *)
Definition has_key (k : string) (d : dict) : bool :=
  match lookup k d with Some _ => true | None => false end.

(** [d[k] = v]: an existing key keeps its position. *)
Fixpoint set_item (k : string) (v : value) (d : dict) : dict :=
  match d with
  | [] => [(k, v)]
  | (k', v') :: r =>
      if String.eqb k k' then (k', v) :: r else (k', v') :: set_item k v r
  end.

(** [d |= other] *)
Definition update (d other : dict) : dict :=
  fold_left (fun acc kv => set_item (fst kv) (snd kv) acc) other d.

(** Walk a path of keys through nested mappings. *)
Fixpoint lookup_path (p : list string) (v : value) : option value :=
  match p with
  | [] => Some v
  | k :: p' =>
      match v with
      | VDict d =>
          match lookup k d with
          | Some v' => lookup_path p' v'
          | None => None
          end
      | _ => None
      end
  end.

(** [isinstance(v, Mapping)] *)
Definition is_mapping (v : value) : bool :=
  match v with VDict _ => true | _ => false end.

(** Python truthiness, [if v:]. *)
Definition truthy (v : value) : bool :=
  match v with
  | VNone => false
  | VStr s => negb (String.eqb s "")
  | VList l => match l with [] => false | _ => true end
  | VDict d => match d with [] => false | _ => true end
  end.

Inductive exn : Type :=
| KeyError (key : string)
| AttributeError (what : string)
| TypeError (msg : string)
| NameError (name : string)
| OSError (path : string)
| OverflowError (msg : string)
| UnicodeEncodeError (reason : string)
| SystemExit (arg : option string).

Inductive result (A : Type) : Type :=
| Ok (a : A)
| Raise (e : exn).
Arguments Ok {A} a.
Arguments Raise {A} e.

Definition bind {A B} (r : result A) (f : A -> result B) : result B :=
  match r with Ok a => f a | Raise e => Raise e end.

(** [d[k]], raising [KeyError] when the key is missing. *)
Definition getitem (d : dict) (k : string) : result value :=
  match lookup k d with Some v => Ok v | None => Raise (KeyError k) end.

Definition raises {A} (r : result A) : Prop := exists e, r = Raise e.

(** ** Strings *)

Definition is_upper (c : ascii) : bool :=
  let n := nat_of_ascii c in ((65 <=? n) && (n <=? 90))%nat.

Definition lower_char (c : ascii) : ascii :=
  if is_upper c then ascii_of_nat (nat_of_ascii c + 32) else c.

(** [s.lower()], on ASCII letters.  Python also folds non-ASCII letters;
    none of them folds to a string of ASCII letters used by a lookup
    below, so the comparisons made by the code are unaffected. *)
Fixpoint lower (s : string) : string :=
  match s with
  | "" => ""
  | String c r => String (lower_char c) (lower r)
  end.

Definition rev_string (s : string) : string :=
  string_of_list_ascii (rev (list_ascii_of_string s)).

Fixpoint lstrip_char (c : ascii) (s : string) : string :=
  match s with
  | "" => ""
  | String a r => if Ascii.eqb a c then lstrip_char c r else s
  end.

(** [s.rstrip(c)] for a one-character argument. *)
Definition rstrip_char (c : ascii) (s : string) : string :=
  rev_string (lstrip_char c (rev_string s)).

(** [s[lo:hi]] for non-negative bounds. *)
Fixpoint drop (n : nat) (s : string) : string :=
  match n, s with
  | 0, _ => s
  | S n', String _ r => drop n' r
  | S _, "" => ""
  end.

Fixpoint take (n : nat) (s : string) : string :=
  match n, s with
  | S n', String c r => String c (take n' r)
  | _, _ => ""
  end.

Definition slice (lo hi : nat) (s : string) : string :=
  take (hi - lo) (drop lo s).

(** ASCII white space as [str.split()] sees it.  [str.split()] also
    separates at the white space beyond ASCII (U+0085, U+00A0, U+2003 and
    the like), which takes two or three bytes here and is left inside the
    words: [split_ws] is [str.split()] on ASCII text. *)
Definition is_space (c : ascii) : bool :=
  let n := nat_of_ascii c in
  (((9 <=? n) && (n <=? 13)) || ((28 <=? n) && (n <=? 32)))%nat.

Fixpoint split_ws_aux (cur : string) (s : string) : list string :=
  match s with
  | "" => match cur with "" => [] | _ => [rev_string cur] end
  | String c r =>
      if is_space c
      then match cur with
           | "" => split_ws_aux "" r
           | _ => rev_string cur :: split_ws_aux "" r
           end
      else split_ws_aux (String c cur) r
  end.

(** [s.split()] *)
Definition split_ws (s : string) : list string := split_ws_aux "" s.

Definition quote : string := String "034"%char "".
Definition newline : string := String "010"%char "".

End Py.

Import Py.

Declare Scope py_scope.
Notation "x <- c ;; k" := (Py.bind c (fun x => k))
  (at level 61, c at next level, right associativity) : py_scope.
Local Open Scope py_scope.

(* ===================================================================== *)
(** * base64.b64encode *)
(* ===================================================================== *)

Module Base64.

Definition alphabet : string :=
  "ABCDEFGHIJKLMNOPQRSTUVWXYZabcdefghijklmnopqrstuvwxyz0123456789+/".

(** The character of a 6-bit group. *)
Definition sextet (n : Z) : ascii :=
  match String.get (Z.to_nat (Z.land n 63)) alphabet with
  | Some c => c
  | None => "="%char
  end.

Definition byte (c : ascii) : Z := Z.of_nat (nat_of_ascii c).

(** Three input bytes make a 24-bit group and four output characters; a
    final group of one or two bytes is padded with [=]. *)
Fixpoint b64encode (s : string) : string :=
  match s with
  | "" => ""
  | String a "" =>
      let n := Z.shiftl (byte a) 16 in
      String (sextet (Z.shiftr n 18)) (String (sextet (Z.shiftr n 12)) "==")
  | String a (String b "") =>
      let n := Z.lor (Z.shiftl (byte a) 16) (Z.shiftl (byte b) 8) in
      String (sextet (Z.shiftr n 18)) (String (sextet (Z.shiftr n 12))
        (String (sextet (Z.shiftr n 6)) "="))
  | String a (String b (String c r)) =>
      let n := Z.lor (Z.lor (Z.shiftl (byte a) 16) (Z.shiftl (byte b) 8)) (byte c) in
      String (sextet (Z.shiftr n 18)) (String (sextet (Z.shiftr n 12))
        (String (sextet (Z.shiftr n 6)) (String (sextet n) (b64encode r))))
  end.

(** Characters that can occur in an encoding. *)
Definition is_b64_char (c : ascii) : bool :=
  existsb (Ascii.eqb c) (list_ascii_of_string (alphabet ++ "=")).

End Base64.

(* ===================================================================== *)
(** * The identifier generator (both entry points carry the same text) *)
(* ===================================================================== *)

(** [genDoi], src/doijekyll/doijekyll.py and src/doi-jekyll.py, on a title
    given by its UTF-8 bytes. *)
Definition genDoi (title base prefix : string) : string :=
  let b64 := Base64.b64encode title in
  let b64_short := slice 0 6 b64 in
  prefix ++ "/" ++ base ++ "-" ++ b64_short.

(** What the specification calls the first six characters. *)
Fixpoint first_chars (n : nat) (s : string) : string :=
  match n with
  | 0 => ""
  | S n' => match s with "" => "" | String c r => String c (first_chars n' r) end
  end.

(** ** Titles as sequences of code points *)

Module Unicode.

(** A Python [str]. *)
Definition str : Type := list N.

(** The code points U+D800 to U+DFFF; a [str] can hold them, UTF-8 has
    no encoding for them. *)
Definition is_surrogate (cp : N) : bool := ((55296 <=? cp) && (cp <=? 57343))%N.


Definition octet (n : N) : string := String (ascii_of_N n) "".

(** The one to four bytes of a code point. *)
Definition utf8 (cp : N) : string :=
  (if cp <? 128 then octet cp
   else if cp <? 2048 then octet (192 + cp / 64) ++ octet (128 + cp mod 64)
   else if cp <? 65536 then
     octet (224 + cp / 4096) ++ octet (128 + (cp / 64) mod 64) ++ octet (128 + cp mod 64)
   else
     octet (240 + cp / 262144) ++ octet (128 + (cp / 4096) mod 64)
       ++ octet (128 + (cp / 64) mod 64) ++ octet (128 + cp mod 64))%N.

(** [title.encode()], strict UTF-8. *)
Fixpoint encode (s : str) : result string :=
  match s with
  | [] => Ok ""
  | cp :: r =>
      if is_surrogate cp then Raise (UnicodeEncodeError "surrogates not allowed")
      else
        match encode r with
        | Ok bytes => Ok (utf8 cp ++ bytes)
        | Raise e => Raise e
        end
  end.

(** [b.decode()] for bytes that are ASCII characters, as the letters of a
    base64 text are. *)
Definition decode_ascii (b : string) : str := map N_of_ascii (list_ascii_of_string b).

(** [genDoi], src/doijekyll/doijekyll.py and src/doi-jekyll.py: the
    f-string joins the prefix, a slash (U+002F), the base, a dash (U+002D)
    and the decoded fragment. *)
Definition genDoi (title base prefix : str) : result str :=
  match encode title with
  | Ok bytes =>
      let b64 := Base64.b64encode bytes in
      let b64_short := slice 0 6 b64 in
      Ok (prefix ++ [47%N] ++ base ++ [45%N] ++ decode_ascii b64_short)%list
  | Raise e => Raise e
  end.

End Unicode.

(** ** Base64 as the standard words it *)

Module Base64Spec.

(** The eight bits of a byte, the most significant first. *)
Definition bits (c : ascii) : list bool :=
  let '(Ascii b0 b1 b2 b3 b4 b5 b6 b7) := c in [b7; b6; b5; b4; b3; b2; b1; b0].

(** The input as one stream of bits. *)
Fixpoint bit_stream (s : string) : list bool :=
  match s with
  | "" => []
  | String c r => (bits c ++ bit_stream r)%list
  end.

(** The number a group of bits denotes. *)
Definition number (g : list bool) : nat :=
  fold_left (fun n (b : bool) => 2 * n + (if b then 1 else 0)) g 0.

(** The letter of a group: its number is the index in the alphabet. *)
Definition letter (g : list bool) : ascii :=
  nth (number g) (list_ascii_of_string Base64.alphabet) "="%char.

(** The first [n] groups of six bits of a stream; a group the stream
    cannot fill is completed with zero bits. *)
Fixpoint groups (n : nat) (bs : list bool) : list (list bool) :=
  match n with
  | 0 => []
  | S n' => firstn 6 (bs ++ repeat false 6)%list :: groups n' (skipn 6 bs)
  end.

(** The bits of [n] bytes fill or touch [(8 n + 5) / 6] groups; the letters
    are followed by as many [=] as bytes are missing in the last group of
    three. *)
Definition encode (s : string) : string :=
  let n := String.length s in
  let letters := map letter (groups ((8 * n + 5) / 6) (bit_stream s)) in
  string_of_list_ascii (letters ++ repeat "="%char ((3 - n mod 3) mod 3))%list.

End Base64Spec.




(* ===================================================================== *)
(** * mergedeep.merge *)
(* ===================================================================== *)

Module MergeDeep.

(** Modelled from the spec: [merge] of the third-party package [mergedeep],
    which metadata.py imports and which is not part of src/.  The spec
    describes it as a recursive structural merge: nested mappings merge
    key by key, non-mapping leaves are overwritten by the later source.
    The keys of the source are visited in order; a key present on both
    sides with a mapping on both sides is merged in place, any other key
    of the source is assigned to the destination. *)
Fixpoint merge_into (src : value) (dst : dict) {struct src} : dict :=
  match src with
  | VDict s =>
      (fix each (l : list (string * value)) (dst : dict) {struct l} : dict :=
         match l with
         | [] => dst
         | (k, sv) :: rest =>
             let dst' :=
               match lookup k dst, sv with
               | Some (VDict d), VDict _ => set_item k (VDict (merge_into sv d)) dst
               | _, _ => set_item k sv dst
               end in
             each rest dst'
         end) s dst
  | _ => dst
  end.

(** [merge(destination, source)] on two mappings. *)
Definition merge (dst src : dict) : dict := merge_into (VDict src) dst.

(** One step of the loop over the keys of the source. *)
Definition merge_key (dst : dict) (k : string) (sv : value) : dict :=
  match lookup k dst, sv with
  | Some (VDict d), VDict s => set_item k (VDict (merge d s)) dst
  | _, _ => set_item k sv dst
  end.

(** Calling [merge] with a source of any type: iterating a non-empty
    string or list and subscripting it with its own elements is a type
    error, as is iterating [None].  The lists are those of [value]: a list
    of integers, whose elements can subscript it, is no value of this
    model. *)
Definition merge_call (dst : dict) (src : value) : result dict :=
  match src with
  | VDict s => Ok (merge dst s)
  | VList [] => Ok dst
  | VStr "" => Ok dst
  | VNone => Raise (TypeError "'NoneType' object is not iterable")
  | VStr _ => Raise (TypeError "string indices must be integers")
  | VList _ => Raise (TypeError "list indices must be integers or slices")
  end.

(** The override that sets the single leaf [v] at path [p]. *)
Fixpoint nest (p : list string) (v : value) : value :=
  match p with
  | [] => v
  | k :: p' => VDict [(k, nest p' v)]
  end.

End MergeDeep.

(* ===================================================================== *)
(** * Library functions the code calls *)
(* ===================================================================== *)

(** The date a parser returns. *)
Record datetime : Type := mkDate { year : nat; month : nat; day : nat }.

(** Pure functions of the libraries in use whose results the embedded code
    only passes along. *)
Class Externals : Type := {
  (** [str(v)] for a value that is not a string, as an f-string renders it *)
  str_other : value -> string;
  (** [dateparser.parse(s)], [None] when no date is recognised *)
  dateparser_parse : string -> option datetime;
  (** [PurePath(dir, name).with_suffix('.md')] *)
  purepath_md : string -> string -> result string;
  (** [xmltodict.unparse(record)] *)
  xmltodict_unparse : dict -> result string;
  (** [textwrap.dedent(text)] *)
  textwrap_dedent : string -> string
}.

(** [f'{v}'] *)
Definition fmt `{Externals} (v : value) : string :=
  match v with
  | VStr s => s
  | _ => str_other v
  end.

Definition dec (n : nat) : string := NilZero.string_of_uint (Nat.to_uint n).

Fixpoint zeros (n : nat) : string :=
  match n with 0 => "" | S n' => String "0"%char (zeros n') end.

(** Decimal, zero-padded to [w] characters. *)
Definition zpad (w n : nat) : string :=
  let s := dec n in zeros (w - String.length s) ++ s.

(** [d.strftime('%Y')]: the year in decimal as the C library of the
    platform the tool runs on prints it, without padding, so a year below
    1000 has fewer than four digits. *)
Definition strftime_Y (d : datetime) : string := dec (year d).

(** [d.strftime('%Y/%m/%d')]: month and day are padded to two digits, the
    year is not padded. *)
Definition strftime_Ymd (d : datetime) : string :=
  strftime_Y d ++ "/" ++ zpad 2 (month d) ++ "/" ++ zpad 2 (day d).

(** [dateparser.parse(v)] followed by a call of [strftime] on the result:
    a value that is not a string is rejected by the parser, an
    unrecognised string gives [None], which has no [strftime]. *)
Definition parse_date `{Externals} (v : value) : result datetime :=
  match v with
  | VStr s =>
      match dateparser_parse s with
      | Some d => Ok d
      | None => Raise (AttributeError "'NoneType' object has no attribute 'strftime'")
      end
  | _ => Raise (TypeError "Input type must be str")
  end.

(** [v.lower()] on a front-matter value. *)
Definition lower_value (v : value) : result string :=
  match v with
  | VStr s => Ok (lower s)
  | _ => Raise (AttributeError "lower")
  end.

(** [v.split()] on a front-matter value. *)
Definition split_value (v : value) : result value :=
  match v with
  | VStr s => Ok (VList (map VStr (split_ws s)))
  | _ => Raise (AttributeError "split")
  end.

(* ===================================================================== *)
(** * src/doijekyll/metadata.py *)
(* ===================================================================== *)

Module Metadata.
Section WithExternals.
Context `{Externals}.

(** The [match] of [parseLicense] on the lower-cased short name: the SPDX
    identifier and the URL of a known license. *)
Definition license_case (code : string) : option (string * string) :=
  if String.eqb code "mit" then
    Some ("MIT", "https://spdx.org/licenses/MIT.html")
  else if String.eqb code "cc0" then
    Some ("CC0-1.0", "https://creativecommons.org/publicdomain/zero/1.0/")
  else if String.eqb code "cc-by4" then
    Some ("CC-BY-4.0", "https://creativecommons.org/licenses/by/4.0/")
  else if String.eqb code "gpl3" then
    Some ("GPL-3.0-only", "https://opensource.org/licenses/GPL-3.0")
  else None.

(** The mapping [parseLicense] returns for a known license. *)
Definition rights_entry (license url : string) : value :=
  VDict [ ("@schemeURI", VStr "https://spdx.org/licenses/");
          ("@rightsIdentifierScheme", VStr "SPDX");
          ("@rightsIdentifier", VStr license);
          ("@rightsURI", VStr url) ].

(** [parseLicense].  metadata.py does not import [sys], so the
    [sys.exit()] of the default case raises [NameError]. *)
Definition parseLicense (data_post : dict) : result value :=
  if negb (has_key "license" data_post) then Ok VNone
  else
    v <- getitem data_post "license" ;;
    code <- lower_value v ;;
    match license_case code with
    | Some (license, url) => Ok (rights_entry license url)
    | None => Raise (NameError "sys")
    end.

Definition getMdSchema : dict :=
  [ ("@xmlns:xsi", VStr "http://www.w3.org/2001/XMLSchema-instance");
    ("@xmlns", VStr "http://datacite.org/schema/kernel-4");
    ("@xsi:schemaLocation",
     VStr "http://datacite.org/schema/kernel-4 http://schema.datacite.org/meta/kernel-4/metadata.xsd") ].

Definition getMdIdentifier (data_post : dict) : result dict :=
  doi <- getitem data_post "doi" ;;
  Ok [ ("identifier", VDict [ ("@identifierType", VStr "DOI"); ("#text", doi) ]) ].

Definition getMdCreators (data_blog data_author : dict) : result dict :=
  name <- getitem data_author "name" ;;
  first_name <- getitem data_author "first_name" ;;
  last_name <- getitem data_author "last_name" ;;
  orcid_id <- getitem data_author "orcid_id" ;;
  affiliation <- getitem data_blog "affiliation" ;;
  Ok [ ("creators", VDict [ ("creator", VDict [
         ("creatorName", VDict [ ("@nameType", VStr "Personal"); ("#text", name) ]);
         ("givenName", first_name);
         ("familyName", last_name);
         ("nameIdentifier", VDict [
            ("@nameIdentifierScheme", VStr "ORCID");
            ("@schemeURI", VStr "https://orcid.org");
            ("#text", VStr ("https://orcid.org/" ++ fmt orcid_id)) ]);
         ("affiliation", affiliation) ]) ]) ].

Definition getMdTitles (data_post : dict) : result dict :=
  title <- getitem data_post "title" ;;
  Ok [ ("titles", VDict [ ("title", VDict [ ("@xml:lang", VStr "en"); ("#text", title) ]) ]) ].

Definition getMdPublicationYear (data_post : dict) : result dict :=
  date <- getitem data_post "date" ;;
  d <- parse_date date ;;
  Ok [ ("publicationYear", VStr (strftime_Y d)) ].

Definition getMdPublisher (data_blog : dict) : result dict :=
  publisher <- getitem data_blog "publisher" ;;
  Ok [ ("publisher", publisher) ].

Definition getMdResourceType : dict :=
  [ ("resourceType", VDict [ ("@resourceTypeGeneral", VStr "Text"); ("#text", VStr "BlogPosting") ]) ].

Definition getMdLanguage : dict := [ ("language", VStr "en") ].

Definition getMdFormats : dict := [ ("formats", VDict [ ("format", VStr "HTML") ]) ].

Definition getMdVersion (data_post : dict) : result dict :=
  version <- (if has_key "version" data_post then getitem data_post "version"
              else Ok (VStr "1.0")) ;;
  Ok [ ("version", version) ].

Definition getMdRightsList (data_post : dict) : result dict :=
  rights <- parseLicense data_post ;;
  Ok [ ("rightsList", VDict [ ("rights", rights) ]) ].

Definition getMdSubjects (data_post : dict) : result dict :=
  tags <- getitem data_post "tags" ;;
  subject <- split_value tags ;;
  Ok [ ("subjects", VDict [ ("subject", subject) ]) ].

(** [getMdDescriptions]: the section it returns.  The line it prints on the
    way is [getMdDescriptions_stdout]. *)
Definition getMdDescriptions (data_post : dict) : result dict :=
  if negb (has_key "abstract" data_post) then Ok []
  else
    abstract <- getitem data_post "abstract" ;;
    Ok [ ("descriptions", VDict [ ("description", VDict [
           ("@descriptionType", VStr "Abstract"); ("#text", abstract) ]) ]) ].

(** What a call of [getMdDescriptions] prints; [note] is the text of the
    file at hand, the two files word it differently. *)
Definition getMdDescriptions_stdout (note : string) (data_post : dict) : list string :=
  if negb (has_key "abstract" data_post) then [note] else [].

Definition getMdRelToBlog (data_blog : dict) : result dict :=
  if has_key "doi" data_blog then
    doi <- getitem data_blog "doi" ;;
    Ok [ ("relatedIdentifiers", VDict [ ("relatedIdentifier", VDict [
           ("@relatedIdentifierType", VStr "DOI");
           ("@relationType", VStr "IsPartOf");
           ("#text", doi) ]) ]) ]
  else Ok [].

Definition addAdditionalMetadata (additional_metadata : value) : value :=
  if truthy additional_metadata then additional_metadata else VDict [].

(** [data |= section], where building the section can raise. *)
Definition ior (data : dict) (section : result dict) : result dict :=
  s <- section ;; Ok (update data s).

(** The fourteen sections of [assembleMetadata], before any override. *)
Definition fixed_sections (data_blog data_post data_author : dict) : result dict :=
  let data := update [] getMdSchema in
  data <- ior data (getMdIdentifier data_post) ;;
  data <- ior data (getMdCreators data_blog data_author) ;;
  data <- ior data (getMdTitles data_post) ;;
  data <- ior data (getMdPublicationYear data_post) ;;
  data <- ior data (getMdPublisher data_blog) ;;
  let data := update data getMdResourceType in
  let data := update data getMdLanguage in
  let data := update data getMdFormats in
  data <- ior data (getMdVersion data_post) ;;
  data <- ior data (getMdRightsList data_post) ;;
  data <- ior data (getMdSubjects data_post) ;;
  data <- ior data (getMdDescriptions data_post) ;;
  ior data (getMdRelToBlog data_blog).

(** The two override layers, in the order of the source. *)
Definition apply_overrides (data data_post : dict) (additional_metadata : value) : result dict :=
  data <- MergeDeep.merge_call data (addAdditionalMetadata additional_metadata) ;;
  if has_key "doi-additional-metadata" data_post then
    extra <- getitem data_post "doi-additional-metadata" ;;
    MergeDeep.merge_call data (addAdditionalMetadata extra)
  else Ok data.

Definition assembleMetadata (data_blog data_post data_author : dict)
    (additional_metadata : value) : result dict :=
  data <- fixed_sections data_blog data_post data_author ;;
  data <- apply_overrides data data_post additional_metadata ;;
  Ok [ ("resource", VDict data) ].

(** What a call of [assembleMetadata] prints.  The description builder is
    the only one that prints; it runs once the twelve sections before it
    are built, and the one section after it cannot raise. *)
Definition assembleMetadata_stdout (data_blog data_post data_author : dict) : list string :=
  match fixed_sections data_blog data_post data_author with
  | Ok _ => getMdDescriptions_stdout "METADATA: Note, no abstract given!" data_post
  | Raise _ => []
  end.

(** A call site binding the keyword arguments of [assembleMetadata]; the
    fourth parameter has no default. *)
Definition call_assembleMetadata (data_blog data_post data_author : dict)
    (additional_metadata : option value) : result dict :=
  match additional_metadata with
  | Some a => assembleMetadata data_blog data_post data_author a
  | None =>
      Raise (TypeError
        "assembleMetadata() missing 1 required positional argument: 'additional_metadata'")
  end.

End WithExternals.
End Metadata.

(* ===================================================================== *)
(** * The workflow: state, environment and the permalink pattern *)
(* ===================================================================== *)

Module Run.

(** A [requests.put] call. *)
Record request : Type := mkRequest {
  req_url : string;
  req_content_type : string;
  req_body : string;
  req_auth : string * string
}.

(** What the workflow reads of a response. *)
Record response : Type := mkResponse { ok : bool }.

(** The parsed command line. *)
Record args : Type := mkArgs {
  blogpost_name : string;
  authors_dir : string;
  author_file : option string;
  force : bool;
  user : option string;
  password : option string;
  skip_url : bool;
  dry_run : bool
}.

(** What a run finds outside the process: the parsed configuration file,
    the parsed post, the loader of author files, the registry, and the
    serializer with the file system behind it. *)
Record env : Type := mkEnv {
  yaml_config : value;
  post_file : dict;
  frontmatter_load : string -> result dict;
  requests_put : request -> result response;
  (** [frontmatter.dump(post, filename, sort_keys=False, width=float("inf"))]:
      the YAML emitter in use may refuse the infinite width, and opening or
      writing the file may fail *)
  frontmatter_dump : string -> dict -> result unit
}.

(** What a run changes: the in-memory post record (decoded from the post
    file), the requests sent, the files written and the lines printed. *)
Record world : Type := mkWorld {
  w_post : dict;
  w_requests : list request;
  w_written : list (string * dict);
  w_stdout : list string
}.

Definition initial (e : env) : world :=
  {| w_post := post_file e; w_requests := []; w_written := []; w_stdout := [] |}.

(** Computations that change the world and can raise. *)
Definition M (A : Type) : Type := world -> result A * world.

Definition ret {A} (a : A) : M A := fun w => (Ok a, w).

Definition raise {A} (e : exn) : M A := fun w => (Raise e, w).

Definition bindM {A B} (c : M A) (f : A -> M B) : M B :=
  fun w => match c w with
           | (Ok a, w') => f a w'
           | (Raise e, w') => (Raise e, w')
           end.

Definition lift {A} (r : result A) : M A := fun w => (r, w).

Definition print (line : string) : M unit :=
  fun w => (Ok tt, {| w_post := w_post w; w_requests := w_requests w;
                      w_written := w_written w; w_stdout := w_stdout w ++ [line] |}).

(** The lines a pure step printed on its way. *)
Definition print_lines (lines : list string) : M unit :=
  fun w => (Ok tt, {| w_post := w_post w; w_requests := w_requests w;
                      w_written := w_written w; w_stdout := w_stdout w ++ lines |}).

Definition read_post : M dict := fun w => (Ok (w_post w), w).

(** [raw_data_post[k] = v] *)
Definition post_setitem (k : string) (v : value) : M unit :=
  fun w => (Ok tt, {| w_post := set_item k v (w_post w); w_requests := w_requests w;
                      w_written := w_written w; w_stdout := w_stdout w |}).

(** [requests.put(...)]: the request leaves the process, then the registry
    answers or the transport raises. *)
Definition put (e : env) (r : request) : M response :=
  fun w => (requests_put e r,
            {| w_post := w_post w; w_requests := w_requests w ++ [r];
               w_written := w_written w; w_stdout := w_stdout w |}).

(** [frontmatter.dump(post, filename, ...)]: the record is serialized
    first and the file is written after that; a completed write is
    recorded, a failure leaves the record of writes as it was. *)
Definition dump (e : env) (filename : string) : M unit :=
  fun w => match frontmatter_dump e filename (w_post w) with
           | Ok _ =>
               (Ok tt, {| w_post := w_post w; w_requests := w_requests w;
                          w_written := w_written w ++ [(filename, w_post w)];
                          w_stdout := w_stdout w |})
           | Raise ex => (Raise ex, w)
           end.

(** Evaluating a name that no scope binds. *)
Definition unbound {A} (name : string) : M A := raise (NameError name).

(** ** The pattern of [genPermalink] *)

(** The ASCII digits.  In a [str] pattern [\d] also accepts the decimal
    digits of other scripts, which take two or more bytes here: the search
    below is the search of [re] on stems whose text up to the end of the
    leftmost ASCII dated prefix holds no such digit. *)
Definition is_digit (c : ascii) : bool :=
  let n := nat_of_ascii c in ((48 <=? n) && (n <=? 57))%nat.

Definition digit (s : string) : option string :=
  match s with
  | String c r => if is_digit c then Some r else None
  | "" => None
  end.

Definition dash (s : string) : option string :=
  match s with
  | String c r => if Ascii.eqb c "-"%char then Some r else None
  | "" => None
  end.

Definition and_then (o : option string) (k : string -> option string) : option string :=
  match o with Some r => k r | None => None end.

(** Greedy [\d{1,2}] followed by the rest [k] of the pattern: two digits
    are tried first, one digit on failure. *)
Definition digits_1_2 (k : string -> option string) (s : string) : option string :=
  match digit s with
  | None => None
  | Some r1 =>
      match and_then (digit r1) k with
      | Some r => Some r
      | None => k r1
      end
  end.

(** [(\d{4}-\d{1,2}-\d{1,2}-)] at the start of [s]; what follows group 1. *)
Definition date_prefix (s : string) : option string :=
  and_then (and_then (and_then (and_then (and_then (digit s) digit) digit) digit) dash)
    (digits_1_2 (fun r => and_then (dash r) (digits_1_2 dash))).

(** Group 2, a starred dot: a dot matches any character except a line feed. *)
Fixpoint dot_star (s : string) : string :=
  match s with
  | "" => ""
  | String c r => if Ascii.eqb c "010"%char then "" else String c (dot_star r)
  end.

(** [re.search(regex_filename, s)]: group 2 of the leftmost match. *)
Fixpoint re_search_group2 (s : string) : option string :=
  match date_prefix s with
  | Some r => Some (dot_star r)
  | None =>
      match s with
      | "" => None
      | String _ r => re_search_group2 r
      end
  end.

(** ** [PurePath(p).stem] *)

(** The text between the slashes of a path. *)
Fixpoint split_slash (cur : string) (p : string) : list string :=
  match p with
  | "" => [rev_string cur]
  | String c r =>
      if Ascii.eqb c "/"%char then rev_string cur :: split_slash "" r
      else split_slash (String c cur) r
  end.

(** The components a pure path keeps: empty ones (doubled or trailing
    slashes) and single dots are dropped. *)
Definition path_parts (p : string) : list string :=
  filter (fun c => negb (String.eqb c "") && negb (String.eqb c ".")) (split_slash "" p).

(** [PurePath(p).name]: the last component, empty for a path without one. *)
Definition path_name (p : string) : string := last (path_parts p) "".

(** [name.rfind('.')] *)
Fixpoint rfind_dot (i : nat) (s : string) : option nat :=
  match s with
  | "" => None
  | String c r =>
      match rfind_dot (S i) r with
      | Some j => Some j
      | None => if Ascii.eqb c "."%char then Some i else None
      end
  end.

(** The final component without its last suffix. *)
Definition stem (p : string) : string :=
  let name := path_name p in
  match rfind_dot 0 name with
  | Some i => if ((0 <? i) && (i <? String.length name - 1))%nat then take i name else name
  | None => name
  end.

End Run.

Import Run.
Notation "x <~ c ;; k" := (Run.bindM c (fun x => k))
  (at level 61, c at next level, right associativity) : py_scope.


(* ===================================================================== *)
(** * Functions that src/doi-jekyll.py and src/doijekyll/doijekyll.py share *)
(* ===================================================================== *)

Module Shared.
Section WithExternals.
Context `{Externals}.

Definition parseCredentials (username password : option string) : M (string * string) :=
  match username with
  | None =>
      _ <~ print "Please provide DataCite username (--user or  $DJ_DATACITE_USER)" ;;
      raise (SystemExit None)
  | Some u =>
      match password with
      | None =>
          _ <~ print "Please provide DataCite password (--password or $DJ_DATACITE_PASSWORD)" ;;
          raise (SystemExit None)
      | Some p => ret (u, p)
      end
  end.

(** [v[k]] for a string key on a value of any type. *)
Definition subscript (v : value) (k : string) : result value :=
  match v with
  | VDict d => getitem d k
  | VNone => Raise (TypeError "'NoneType' object is not subscriptable")
  | VStr _ => Raise (TypeError "string indices must be integers")
  | VList _ => Raise (TypeError "list indices must be integers or slices")
  end.

(** [collectBlogData], on the document [yaml.safe_load] returned. *)
Definition collectBlogData (all_yaml : value) : result dict :=
  doi_yaml <- subscript all_yaml "doi_jekyll" ;;
  match doi_yaml with
  | VDict d =>
      url <- subscript all_yaml "url" ;;
      Ok (set_item "url" url d)
  | _ => Raise (TypeError "object is not a mapping")
  end.

Definition collectAuthorData (e : env) (authorname : value) (a : args) : result dict :=
  let by_name :=
    name <- lower_value authorname ;;
    filename <- purepath_md (authors_dir a) name ;;
    frontmatter_load e filename in
  match author_file a with
  | Some f => if String.eqb f "" then by_name else frontmatter_load e f
  | None => by_name
  end.

(** The call [genDoi(title=..., base=..., prefix=...)] of [main] on
    front-matter and configuration values: only a string has [encode].  A
    string value holds the UTF-8 bytes of its text, so the titles of this
    type are the ones [encode] accepts; [Unicode.genDoi] is the function
    on every title. *)
Definition call_genDoi (title base prefix : value) : result string :=
  match title with
  | VStr t => Ok (genDoi t (fmt base) (fmt prefix))
  | _ => Raise (AttributeError "encode")
  end.

Definition registerMetadata (e : env) (data_blog : dict) (dj_data_xml : string)
    (doi : value) (user password : string) : M response :=
  provider_url <~ lift (getitem data_blog "provider_url") ;;
  put e {| req_url := fmt provider_url ++ "/metadata/" ++ fmt doi;
           req_content_type := "application/xml;charset=UTF-8";
           req_body := dj_data_xml;
           req_auth := (user, password) |}.

(** The margin of the payload lines in the source text. *)
Definition margin : string := "            ".

(** The payload of [registerUrl]: the three lines as the source indents
    them, the closing line joined to the last one, handed to
    [textwrap.dedent]. *)
Definition url_payload (doi : value) (url : string) : string :=
  textwrap_dedent
    (margin ++ "#Content-Type:text/plain;charset=UTF-8" ++ newline ++
     margin ++ "doi= " ++ fmt doi ++ newline ++
     margin ++ "url= " ++ url ++ "        ").

Definition registerUrl (genPermalink : dict -> string -> dict -> result string)
    (e : env) (data_blog : dict) (post_filename : string) (data_post : dict)
    (doi : value) (user password : string) : M response :=
  url <~ lift (genPermalink data_blog post_filename data_post) ;;
  provider_url <~ lift (getitem data_blog "provider_url") ;;
  put e {| req_url := fmt provider_url ++ "/doi/" ++ fmt doi;
           req_content_type := "text/plain;charset=UTF-8";
           req_body := url_payload doi url;
           req_auth := (user, password) |}.

Definition updateBlogpostMarkdown (e : env) (post_filename : string) (doi : value) : M unit :=
  _ <~ post_setitem "doi" (VStr ("https://doi.org/" ++ fmt doi)) ;;
  dump e post_filename.

(** [v.rstrip('/')] *)
Definition rstrip_value (v : value) : result string :=
  match v with
  | VStr s => Ok (rstrip_char "/"%char s)
  | _ => Raise (AttributeError "rstrip")
  end.

(** The message of the existing-DOI exit. *)
Definition doi_exists_message (doi : value) : string :=
  "DOI already exists for blog post (" ++ fmt doi ++ "). Launch with " ++
  quote ++ "-f" ++ quote ++ " to force overwrite.".

(** The steps of [main] up to the existing-DOI check, the same text in both
    files: credentials, the three documents, the check. *)
Definition prepare (e : env) (a : args) : M (string * string * dict * dict) :=
  creds <~ parseCredentials (user a) (password a) ;;
  raw_data_blog <~ lift (collectBlogData (yaml_config e)) ;;
  raw_data_post <~ read_post ;;
  authorname <~ lift (getitem raw_data_post "author") ;;
  raw_data_author <~ lift (collectAuthorData e authorname a) ;;
  _ <~ (if has_key "doi" raw_data_post && negb (force a) then
          doi <~ lift (getitem raw_data_post "doi") ;;
          raise (SystemExit (Some (doi_exists_message doi)))
        else ret tt) ;;
  ret (fst creds, snd creds, raw_data_blog, raw_data_author).

(** [raw_data_post['doi'] = genDoi(...)] *)
Definition assign_doi (raw_data_blog : dict) : M unit :=
  raw_data_post <~ read_post ;;
  title <~ lift (getitem raw_data_post "title") ;;
  base <~ lift (getitem raw_data_blog "suffix_base") ;;
  prefix <~ lift (getitem raw_data_blog "prefix") ;;
  doi <~ lift (call_genDoi title base prefix) ;;
  post_setitem "doi" (VStr doi).

(** The steps of [main] after the metadata record is assembled, the same
    text in both files.  The test after the metadata request reads
    [debug.ok], and no scope binds [debug]. *)
Definition register (genPermalink : dict -> string -> dict -> result string)
    (e : env) (a : args) (dc_user dc_password : string)
    (raw_data_blog dj_data_json : dict) : M nat :=
  dj_data_xml <~ lift (xmltodict_unparse dj_data_json) ;;
  _ <~ (if dry_run a then ret tt
        else
          raw_data_post <~ read_post ;;
          doi <~ lift (getitem raw_data_post "doi") ;;
          dj_regMd_result <~ registerMetadata e raw_data_blog dj_data_xml doi dc_user dc_password ;;
          debug <~ unbound "debug" ;;
          if negb (ok debug) then raise (SystemExit None) else ret tt) ;;
  _ <~ (if skip_url a || dry_run a then ret tt
        else
          raw_data_post <~ read_post ;;
          doi <~ lift (getitem raw_data_post "doi") ;;
          dj_regUrl_result <~ registerUrl genPermalink e raw_data_blog (blogpost_name a)
                                 raw_data_post doi dc_user dc_password ;;
          if negb (ok dj_regUrl_result) then raise (SystemExit None) else ret tt) ;;
  _ <~ (if dry_run a then ret tt
        else
          raw_data_post <~ read_post ;;
          doi <~ lift (getitem raw_data_post "doi") ;;
          updateBlogpostMarkdown e (blogpost_name a) doi) ;;
  raw_data_post <~ read_post ;;
  doi <~ lift (getitem raw_data_post "doi") ;;
  _ <~ print ("Successfully created " ++ fmt doi ++ " at DataCite!") ;;
  ret 0.

End WithExternals.
End Shared.

(* ===================================================================== *)
(** * src/doi-jekyll.py, the stand-alone script *)
(* ===================================================================== *)

Module Script.
Section WithExternals.
Context `{Externals}.

(** [parseLicense]; the script imports [sys], the default case exits. *)
Definition parseLicense (data_post : dict) : result value :=
  if negb (has_key "license" data_post) then Ok VNone
  else
    v <- getitem data_post "license" ;;
    code <- lower_value v ;;
    match Metadata.license_case code with
    | Some (license, url) => Ok (Metadata.rights_entry license url)
    | None => Raise (SystemExit None)
    end.

Definition getMdRightsList (data_post : dict) : result dict :=
  rights <- parseLicense data_post ;;
  Ok [ ("rightsList", VDict [ ("rights", rights) ]) ].

(** [assembleMetadata] of the script: three parameters, thirteen sections,
    no override layer.  The section builders other than the rights one
    carry the same text as those of metadata.py. *)
Definition assembleMetadata (data_blog data_post data_author : dict) : result dict :=
  let data := update [] Metadata.getMdSchema in
  data <- Metadata.ior data (Metadata.getMdIdentifier data_post) ;;
  data <- Metadata.ior data (Metadata.getMdCreators data_blog data_author) ;;
  data <- Metadata.ior data (Metadata.getMdTitles data_post) ;;
  data <- Metadata.ior data (Metadata.getMdPublicationYear data_post) ;;
  data <- Metadata.ior data (Metadata.getMdPublisher data_blog) ;;
  let data := update data Metadata.getMdResourceType in
  let data := update data Metadata.getMdLanguage in
  let data := update data Metadata.getMdFormats in
  data <- Metadata.ior data (Metadata.getMdVersion data_post) ;;
  data <- Metadata.ior data (getMdRightsList data_post) ;;
  data <- Metadata.ior data (Metadata.getMdSubjects data_post) ;;
  data <- Metadata.ior data (Metadata.getMdDescriptions data_post) ;;
  Ok [ ("resource", VDict data) ].

(** What a call of [assembleMetadata] prints.  The description builder is
    the last one, it prints its note where the post has no abstract, and it
    cannot raise: it runs exactly in the calls that return. *)
Definition assembleMetadata_stdout (data_blog data_post data_author : dict) : list string :=
  match assembleMetadata data_blog data_post data_author with
  | Ok _ => Metadata.getMdDescriptions_stdout "Note: No abstract given!" data_post
  | Raise _ => []
  end.

(** [genPermalink] of the script: group 2 of the search is the slug; a
    search without a match returns [None], which has no [group]. *)
Definition genPermalink (data_blog : dict) (post_filename : string) (data_post : dict)
    : result string :=
  url <- getitem data_blog "url" ;;
  url_base <- Shared.rstrip_value url ;;
  date <- getitem data_post "date" ;;
  post_date_raw <- parse_date date ;;
  let post_date_formatted := strftime_Ymd post_date_raw in
  let post_filename_base := stem post_filename in
  match re_search_group2 post_filename_base with
  | Some post_filename_clean =>
      Ok (url_base ++ "/" ++ post_date_formatted ++ "/" ++ post_filename_clean ++ ".html")
  | None => Raise (AttributeError "'NoneType' object has no attribute 'group'")
  end.

Definition main (e : env) (a : args) : M nat :=
  p <~ Shared.prepare e a ;;
  let '(dc_user, dc_password, raw_data_blog, raw_data_author) := p in
  _ <~ Shared.assign_doi raw_data_blog ;;
  raw_data_post <~ read_post ;;
  _ <~ print_lines (assembleMetadata_stdout raw_data_blog raw_data_post raw_data_author) ;;
  dj_data_json <~ lift (assembleMetadata raw_data_blog raw_data_post raw_data_author) ;;
  Shared.register genPermalink e a dc_user dc_password raw_data_blog dj_data_json.

End WithExternals.
End Script.

(* ===================================================================== *)
(** * src/doijekyll/doijekyll.py, the packaged entry point *)
(* ===================================================================== *)

Module Packaged.
Section WithExternals.
Context `{Externals}.

(** [genPermalink] of the package: the search is made and its result is
    not used; the slug is the constant ['asf']. *)
Definition genPermalink (data_blog : dict) (post_filename : string) (data_post : dict)
    : result string :=
  url <- getitem data_blog "url" ;;
  url_base <- Shared.rstrip_value url ;;
  date <- getitem data_post "date" ;;
  post_date_raw <- parse_date date ;;
  let post_date_formatted := strftime_Ymd post_date_raw in
  let post_filename_base := stem post_filename in
  let post_filename_matched := re_search_group2 post_filename_base in
  let post_filename_clean := "asf" in
  Ok (url_base ++ "/" ++ post_date_formatted ++ "/" ++ post_filename_clean ++ ".html").

(** [main] calls [metadata.assembleMetadata] with three keyword arguments. *)
Definition main (e : env) (a : args) : M nat :=
  p <~ Shared.prepare e a ;;
  let '(dc_user, dc_password, raw_data_blog, raw_data_author) := p in
  _ <~ Shared.assign_doi raw_data_blog ;;
  raw_data_post <~ read_post ;;
  dj_data_json <~ lift (Metadata.call_assembleMetadata raw_data_blog raw_data_post
                          raw_data_author None) ;;
  Shared.register genPermalink e a dc_user dc_password raw_data_blog dj_data_json.

End WithExternals.
End Packaged.

(* ===================================================================== *)
(** * Well-formed mappings and an environment for closed examples *)
(* ===================================================================== *)

(** Keys are pairwise distinct. *)
Fixpoint unique_keys (d : dict) : bool :=
  match d with
  | [] => true
  | (k, _) :: r => negb (has_key k r) && unique_keys r
  end.

(** A value as Python builds it: every mapping in it has distinct keys. *)
Fixpoint wf (v : value) : bool :=
  match v with
  | VDict d => unique_keys d && forallb (fun kv => wf (snd kv)) d
  | VList l => forallb wf l
  | _ => true
  end.

(** A path [q] leaves the path [p] at some key: neither extends the other. *)
Fixpoint diverge (p q : list string) : bool :=
  match p, q with
  | a :: p', b :: q' => if String.eqb a b then diverge p' q' else true
  | _, _ => false
  end.

(** Whether an override layer, as [addAdditionalMetadata] passes it on,
    binds the top-level key [k]. *)
Definition layer_binds `{Externals} (k : string) (layer : value) : bool :=
  match Metadata.addAdditionalMetadata layer with
  | VDict d => has_key k d
  | _ => false
  end.

(** Whether the post carries an embedded override that binds [k]. *)
Definition post_layer_binds `{Externals} (k : string) (data_post : dict) : bool :=
  match lookup "doi-additional-metadata" data_post with
  | Some layer => layer_binds k layer
  | None => false
  end.

(** Every character is a decimal digit. *)
Definition all_digits (s : string) : bool :=
  forallb is_digit (list_ascii_of_string s).

(** The dated prefix of a post's file name as the specification words it:
    a 4-digit year, a month and a day of one or two digits each, every
    part followed by a dash. *)
Definition dated_prefix (pre : string) : Prop :=
  exists y m d,
    pre = y ++ "-" ++ m ++ "-" ++ d ++ "-" /\
    all_digits y = true /\ String.length y = 4 /\
    all_digits m = true /\ (String.length m = 1 \/ String.length m = 2) /\
    all_digits d = true /\ (String.length d = 1 \/ String.length d = 2).

(** No line feed occurs in the string. *)
Definition line_free (s : string) : bool :=
  forallb (fun c => negb (Ascii.eqb c "010"%char)) (list_ascii_of_string s).

(** The string ends with a slash. *)
Definition ends_with_slash (s : string) : bool :=
  match rev_string s with
  | String c _ => Ascii.eqb c "/"%char
  | "" => false
  end.

(** The permalink composed of a base URL, a date as [strftime] prints it
    and a cleaned stem. *)
Definition permalink_of (base_url : string) (d : datetime) (cleaned_stem : string) : string :=
  base_url ++ "/" ++ strftime_Ymd d ++ "/" ++ cleaned_stem ++ ".html".

(** [datetime.MAXYEAR], 9999. *)
Definition MAXYEAR : nat := 9 * 1000 + 999.

(** The date as the specification lays it out: four digits, two, two. *)
Definition date_YYYY_MM_DD (d : datetime) : string :=
  zpad 4 (year d) ++ "/" ++ zpad 2 (month d) ++ "/" ++ zpad 2 (day d).

(** The permalink as the specification composes it. *)
Definition spec_permalink (base_url : string) (d : datetime) (cleaned_stem : string) : string :=
  base_url ++ "/" ++ date_YYYY_MM_DD d ++ "/" ++ cleaned_stem ++ ".html".

(** A computation that leaves the post record, the requests and the
    written files as they are. *)
Definition quiet {A} (c : M A) : Prop :=
  forall w r w', c w = (r, w') ->
    w_post w' = w_post w /\ w_requests w' = w_requests w /\ w_written w' = w_written w.

(** A computation that sends no request and writes no file. *)
Definition offline {A} (c : M A) : Prop :=
  forall w r w', c w = (r, w') ->
    w_requests w' = w_requests w /\ w_written w' = w_written w.

Module Sample.

Definition digit_val (c : ascii) : option nat :=
  if is_digit c then Some (nat_of_ascii c - 48) else None.

Fixpoint number (acc : nat) (s : string) : option nat :=
  match s with
  | "" => Some acc
  | String c r =>
      match digit_val c with
      | Some n => number (10 * acc + n) r
      | None => None
      end
  end.

(** A date parser that reads [YYYY-MM-DD] and nothing else. *)
Definition iso_date (s : string) : option datetime :=
  if (String.length s =? 10)%nat
     && String.eqb (slice 4 5 s) "-" && String.eqb (slice 7 8 s) "-" then
    match number 0 (slice 0 4 s), number 0 (slice 5 7 s), number 0 (slice 8 10 s) with
    | Some y, Some m, Some d => Some (mkDate y m d)
    | _, _, _ => None
    end
  else None.

Fixpoint lines (cur : string) (s : string) : list string :=
  match s with
  | "" => [rev_string cur]
  | String c r =>
      if Ascii.eqb c "010"%char then rev_string cur :: lines "" r
      else lines (String c cur) r
  end.

(** A dedent for texts whose lines share the margin of the payload. *)
Definition dedent (text : string) : string :=
  String.concat newline
    (map (fun l => if String.prefix Shared.margin l then drop 12 l else l) (lines "" text)).

#[local] Instance externals : Externals := {
  str_other := fun v => match v with VNone => "None" | _ => "" end;
  dateparser_parse := iso_date;
  purepath_md := fun dir name => Ok (dir ++ "/" ++ name ++ ".md");
  xmltodict_unparse := fun _ => Ok "<resource></resource>";
  textwrap_dedent := dedent
}.

(** The end-to-end scenario of the specification. *)
Definition blog : dict :=
  [ ("prefix", VStr "10.1234"); ("suffix_base", VStr "blog");
    ("provider_url", VStr "https://example.org"); ("publisher", VStr "Acme");
    ("affiliation", VStr "Acme Labs"); ("url", VStr "https://blog.acme.com") ].

Definition config : value :=
  VDict [ ("url", VStr "https://blog.acme.com");
          ("doi_jekyll", VDict
             [ ("prefix", VStr "10.1234"); ("suffix_base", VStr "blog");
               ("provider_url", VStr "https://example.org"); ("publisher", VStr "Acme");
               ("affiliation", VStr "Acme Labs") ]) ].

Definition post : dict :=
  [ ("title", VStr "Hello World"); ("date", VStr "2022-08-01");
    ("author", VStr "stephen"); ("tags", VStr "tech science");
    ("license", VStr "mit") ].

Definition author : dict :=
  [ ("name", VStr "Stephen King"); ("first_name", VStr "Stephen");
    ("last_name", VStr "King"); ("orcid_id", VStr "0000-0000-0000-0000") ].

(** The post once [main] has stored the generated identifier. *)
Definition post_with_doi : dict :=
  set_item "doi" (VStr (genDoi "Hello World" "blog" "10.1234")) post.

(** The same post without a license and without an abstract. *)
Definition post_unlicensed : dict :=
  [ ("title", VStr "Hello World"); ("date", VStr "2022-08-01");
    ("author", VStr "stephen"); ("tags", VStr "tech science");
    ("doi", VStr "10.1234/blog-SGVsbG") ].

Definition arguments (with_force is_dry_run : bool) : args :=
  {| blogpost_name := "_posts/2022-08-01-hello-world.md";
     authors_dir := "_authors";
     author_file := None;
     force := with_force;
     user := Some "user";
     password := Some "secret";
     skip_url := false;
     dry_run := is_dry_run |}.

(** A registry that answers every request with the given status. *)
Definition environment (the_post : dict) (status : bool) : env :=
  {| yaml_config := config;
     post_file := the_post;
     frontmatter_load := fun path =>
       if String.eqb path "_authors/stephen.md" then Ok author else Raise (OSError path);
     requests_put := fun _ => Ok (mkResponse status);
     frontmatter_dump := fun _ _ => Ok tt |}.

(** The record assembled for the unlicensed post, no override given. *)
Definition record_unlicensed : dict :=
  Eval vm_compute in
    match Metadata.assembleMetadata blog post_unlicensed author (VDict []) with
    | Ok r => r
    | Raise _ => []
    end.

(** An override that brings a descriptions section of its own. *)
Definition described : value :=
  VDict [ ("descriptions", VDict [ ("description", VDict
            [ ("@descriptionType", VStr "Abstract"); ("#text", VStr "An overview.") ]) ]) ].

(** A post without abstract that embeds the override above. *)
Definition post_described : dict :=
  (post_unlicensed ++ [ ("doi-additional-metadata", described) ])%list.

(** A post with an abstract that embeds the override above. *)
Definition post_redescribed : dict :=
  (post_unlicensed ++ [ ("abstract", VStr "The abstract of the post.");
                        ("doi-additional-metadata", described) ])%list.

(** A post with an abstract and no override. *)
Definition post_abstract : dict :=
  (post_unlicensed ++ [ ("abstract", VStr "The abstract of the post.") ])%list.

Definition record_abstract : dict :=
  Eval vm_compute in
    match Metadata.assembleMetadata blog post_abstract author VNone with
    | Ok r => r
    | Raise _ => []
    end.

(** The post of the scenario, identifier stored, embedding a version. *)
Definition post_versioned : dict :=
  (post_with_doi ++ [ ("doi-additional-metadata", VDict [ ("version", VStr "3.0") ]) ])%list.

(** The fixed sections of the scenario. *)
Definition fixed : dict :=
  Eval vm_compute in
    match Metadata.fixed_sections blog post_versioned author with
    | Ok r => r
    | Raise _ => []
    end.

End Sample.

(** The record [assembleMetadata] holds before the override layers, in
    the order the sections are inserted. *)
Definition fixed_record (doi creator title : value) (year : string)
    (publisher version rights subject : value) (descriptions related : dict) : dict :=
  ([ ("@xmlns:xsi", VStr "http://www.w3.org/2001/XMLSchema-instance");
     ("@xmlns", VStr "http://datacite.org/schema/kernel-4");
     ("@xsi:schemaLocation",
      VStr "http://datacite.org/schema/kernel-4 http://schema.datacite.org/meta/kernel-4/metadata.xsd");
     ("identifier", VDict [ ("@identifierType", VStr "DOI"); ("#text", doi) ]);
     ("creators", VDict [ ("creator", creator) ]);
     ("titles", VDict [ ("title", VDict [ ("@xml:lang", VStr "en"); ("#text", title) ]) ]);
     ("publicationYear", VStr year);
     ("publisher", publisher);
     ("resourceType", VDict [ ("@resourceTypeGeneral", VStr "Text"); ("#text", VStr "BlogPosting") ]);
     ("language", VStr "en");
     ("formats", VDict [ ("format", VStr "HTML") ]);
     ("version", version);
     ("rightsList", VDict [ ("rights", rights) ]);
     ("subjects", VDict [ ("subject", subject) ]) ] ++ descriptions ++ related)%list.

(* ===================================================================== *)
(** * The remaining functions of the two files *)
(* ===================================================================== *)

(** The levels of [logging], in the order of the list in [setLogging]. *)
Inductive log_level : Type := ERROR | WARNING | INFO | DEBUG.

Definition logging_levels : list log_level := [ERROR; WARNING; INFO; DEBUG].

(** [setLogging]: the level handed to [logging.basicConfig] for a count of
    [-v] flags; [None] stands for an index out of range. *)
Definition setLogging (verbose : nat) : option log_level :=
  nth_error logging_levels (Nat.min verbose (List.length logging_levels - 1)).

(** The class [extDict] of metadata.py: the three operators it adds to
    [dict], each a call of [merge]. *)
Module ExtDict.

(** [self & other], that is [merge({}, self, other)]. *)
Definition __and__ (self other : dict) : dict :=
  MergeDeep.merge (MergeDeep.merge [] self) other.

(** [other & self] for a plain [other], that is [merge({}, other, self)]. *)
Definition __rand__ (self other : dict) : dict :=
  MergeDeep.merge (MergeDeep.merge [] other) self.

(** [self &= other], that is [merge(self, other)]. *)
Definition __iand__ (self other : dict) : dict :=
  MergeDeep.merge self other.

End ExtDict.

(** More inputs for closed examples. *)
Module Scenario.

(** The blog of the scenario with an identifier of its own. *)
Definition blog_with_doi : dict :=
  (Sample.blog ++ [ ("doi", VStr "10.1234/blog") ])%list.

Definition record_in_blog : dict :=
  Eval vm_compute in
    match @Metadata.assembleMetadata Sample.externals
            blog_with_doi Sample.post_abstract Sample.author VNone with
    | Ok r => r
    | Raise _ => []
    end.

(** A post whose date no parser reads. *)
Definition post_undated : dict :=
  [ ("title", VStr "Hello World"); ("date", VStr "last summer");
    ("author", VStr "stephen"); ("tags", VStr "tech science");
    ("doi", VStr "10.1234/blog-SGVsbG") ].

(** A post under a license outside the table. *)
Definition post_apache : dict :=
  (Sample.post_unlicensed ++ [ ("license", VStr "Apache-2.0") ])%list.

End Scenario.

(** The keys every assembled record starts with, in order. *)
Definition canonical_keys : list string :=
  [ "@xmlns:xsi"; "@xmlns"; "@xsi:schemaLocation"; "identifier"; "creators"; "titles";
    "publicationYear"; "publisher"; "resourceType"; "language"; "formats"; "version";
    "rightsList"; "subjects" ].

(** An override layer that [merge] accepts: a mapping, or a value that
    [addAdditionalMetadata] replaces by the empty mapping. *)
Definition layer_ok `{Externals} (layer : value) : bool :=
  is_mapping (Metadata.addAdditionalMetadata layer).

(** Every byte of the string is an ASCII character. *)
Definition ascii_only (s : string) : bool :=
  forallb (fun c => (nat_of_ascii c <? 128)%nat) (list_ascii_of_string s).

(** No white space occurs in the string. *)
Definition space_free (s : string) : bool :=
  forallb (fun c => negb (is_space c)) (list_ascii_of_string s).

(** The string without its white space. *)
Fixpoint strip_spaces (s : string) : string :=
  match s with
  | "" => ""
  | String c r => if is_space c then strip_spaces r else String c (strip_spaces r)
  end.

(** No character of the string is a decimal digit. *)
Definition digit_free (s : string) : bool :=
  forallb (fun c => negb (is_digit c)) (list_ascii_of_string s).

(** No dash occurs in the string. *)
Definition dash_free (s : string) : bool :=
  forallb (fun c => negb (Ascii.eqb c "-"%char)) (list_ascii_of_string s).

(* ===================================================================== *)
(** * Sanity checks on concrete inputs *)
(* ===================================================================== *)

Example b64_hello : Base64.b64encode "Hello World" = "SGVsbG8gV29ybGQ=".
Proof. reflexivity. Qed.

Example genDoi_hello : genDoi "Hello World" "blog" "10.1234" = "10.1234/blog-SGVsbG".
Proof. reflexivity. Qed.

Example stem_trailing_slash : stem "_posts/2022-08-01-hello-world.md/" = "2022-08-01-hello-world".
Proof. reflexivity. Qed.

Example stem_dot_component : stem "_posts/./hello.md" = "hello" /\ stem "_posts/." = "_posts".
Proof. split; reflexivity. Qed.

Example strftime_early_year : strftime_Ymd (mkDate 999 1 1) = "999/01/01".
Proof. reflexivity. Qed.

Example utf8_ex :
  Unicode.encode [71; 114; 252; 223; 101]%N
  = Ok (String "G" (String "r" (String (ascii_of_nat 195) (String (ascii_of_nat 188)
         (String (ascii_of_nat 195) (String (ascii_of_nat 159) (String "e" ""))))))).
Proof. reflexivity. Qed.

Example base64_spec_hello : Base64Spec.encode "Hello World" = "SGVsbG8gV29ybGQ=".
Proof. reflexivity. Qed.

Example url_payload_ex :
  @Shared.url_payload Sample.externals (VStr "10.1234/blog-SGVsbG")
    "https://blog.acme.com/2022/08/01/hello-world.html"
  = "#Content-Type:text/plain;charset=UTF-8" ++ newline ++
    "doi= 10.1234/blog-SGVsbG" ++ newline ++
    "url= https://blog.acme.com/2022/08/01/hello-world.html        ".
Proof. reflexivity. Qed.

Example stem_ex : stem "_posts/2022-08-01-hello-world.md" = "2022-08-01-hello-world".
Proof. reflexivity. Qed.

Example re_search_ex : re_search_group2 "2022-08-01-hello-world" = Some "hello-world".
Proof. reflexivity. Qed.

Example re_search_none : re_search_group2 "hello-world" = None.
Proof. reflexivity. Qed.

(* ===================================================================== *)
(** * Dictionaries *)
(* ===================================================================== *)

Lemma lookup_set_same (k : string) (v : value) (d : dict) :
  lookup k (set_item k v d) = Some v.
Proof.
  induction d as [|[k' v'] r IH]; simpl.
  - now rewrite String.eqb_refl.
  - destruct (String.eqb k k') eqn:E; simpl; rewrite E; auto.
Qed.

Lemma lookup_set_other (k k' : string) (v : value) (d : dict) :
  k <> k' -> lookup k' (set_item k v d) = lookup k' d.
Proof.
  intros N. induction d as [|[k0 v0] r IH]; simpl.
  - destruct (String.eqb_spec k' k); congruence.
  - destruct (String.eqb_spec k k0) as [->|]; simpl.
    + destruct (String.eqb_spec k' k0); congruence.
    + now rewrite IH.
Qed.

Lemma has_key_set (k k' : string) (v : value) (d : dict) :
  has_key k' (set_item k v d) = String.eqb k k' || has_key k' d.
Proof.
  unfold has_key. destruct (String.eqb_spec k k') as [->|N].
  - now rewrite lookup_set_same.
  - now rewrite lookup_set_other.
Qed.

Lemma has_key_false (k : string) (d : dict) :
  has_key k d = false <-> lookup k d = None.
Proof. unfold has_key. destruct (lookup k d); split; congruence. Qed.

Lemma has_key_true (k : string) (d : dict) :
  has_key k d = true <-> exists v, lookup k d = Some v.
Proof.
  unfold has_key. destruct (lookup k d); split; try congruence; eauto.
  intros [v E]. discriminate.
Qed.

Lemma wf_lookup (k : string) (d : dict) (v : value) :
  wf (VDict d) = true -> lookup k d = Some v -> wf v = true.
Proof.
  simpl. intros W. apply andb_true_iff in W as [_ W].
  induction d as [|[k' v'] r IH]; simpl in *; [discriminate|].
  apply andb_true_iff in W as [W1 W2].
  destruct (String.eqb k k'); intros E; [congruence | auto].
Qed.

Lemma wf_unique (d : dict) : wf (VDict d) = true -> unique_keys d = true.
Proof. simpl. intros W. now apply andb_true_iff in W. Qed.

(* ===================================================================== *)
(** * The deep merge *)
(* ===================================================================== *)

Section MergeFacts.
Import MergeDeep.

Lemma merge_nil (dst : dict) : merge dst [] = dst.
Proof. reflexivity. Qed.

Lemma merge_cons (dst : dict) (k : string) (sv : value) (rest : dict) :
  merge dst ((k, sv) :: rest) = merge (merge_key dst k sv) rest.
Proof.
  unfold merge, merge_key. simpl.
  destruct (lookup k dst) as [[| | |d]|]; destruct sv; reflexivity.
Qed.

Lemma lookup_merge_key_other (dst : dict) (k k' : string) (sv : value) :
  k <> k' -> lookup k' (merge_key dst k sv) = lookup k' dst.
Proof.
  intros N. unfold merge_key.
  destruct (lookup k dst) as [[| | |d]|]; destruct sv; now apply lookup_set_other.
Qed.

Lemma lookup_merge_key_same (dst : dict) (k : string) (sv : value) :
  lookup k (merge_key dst k sv) =
  Some (match lookup k dst, sv with
        | Some (VDict d), VDict s => VDict (merge d s)
        | _, _ => sv
        end).
Proof.
  unfold merge_key.
  destruct (lookup k dst) as [[| | |d]|]; destruct sv; now rewrite lookup_set_same.
Qed.

(** A key the source does not bind keeps its value. *)
Lemma lookup_merge_absent (src dst : dict) (k : string) :
  lookup k src = None -> lookup k (merge dst src) = lookup k dst.
Proof.
  revert dst. induction src as [|[k' sv] rest IH]; intros dst E.
  - reflexivity.
  - rewrite merge_cons. simpl in E.
    destruct (String.eqb_spec k k') as [->|N]; [discriminate|].
    rewrite IH by assumption. apply lookup_merge_key_other. congruence.
Qed.

(** A key the source binds once gets the merged or the source's value. *)
Lemma lookup_merge_present (src dst : dict) (k : string) (sv : value) :
  unique_keys src = true -> lookup k src = Some sv ->
  lookup k (merge dst src) =
  Some (match lookup k dst, sv with
        | Some (VDict d), VDict s => VDict (merge d s)
        | _, _ => sv
        end).
Proof.
  revert dst. induction src as [|[k' v'] rest IH]; intros dst U E; [discriminate|].
  rewrite merge_cons. simpl in U, E.
  apply andb_true_iff in U as [U1 U2].
  destruct (String.eqb_spec k k') as [->|N].
  - injection E as ->.
    rewrite lookup_merge_absent.
    + apply lookup_merge_key_same.
    + apply has_key_false. now destruct (has_key k' rest).
  - rewrite (IH _ U2 E). rewrite lookup_merge_key_other by congruence. reflexivity.
Qed.

Lemma has_key_merge_key (dst : dict) (k k' : string) (sv : value) :
  has_key k' (merge_key dst k sv) = String.eqb k k' || has_key k' dst.
Proof.
  unfold merge_key.
  destruct (lookup k dst) as [[| | |d]|]; destruct sv; apply has_key_set.
Qed.

(** The keys of a merge are the keys of both sides. *)
Lemma has_key_merge (src dst : dict) (k : string) :
  has_key k (merge dst src) = has_key k dst || has_key k src.
Proof.
  revert dst. induction src as [|[k' sv] rest IH]; intros dst.
  - rewrite merge_nil. simpl. now rewrite orb_false_r.
  - rewrite merge_cons, IH, has_key_merge_key.
    assert (E : has_key k ((k', sv) :: rest) = String.eqb k' k || has_key k rest).
    { unfold has_key. simpl. rewrite (String.eqb_sym k k').
      now destruct (String.eqb k' k). }
    rewrite E. destruct (String.eqb k' k), (has_key k dst), (has_key k rest); reflexivity.
Qed.

(** Every leaf of the source is found in the merge, at the same path. *)
Lemma lookup_path_merge_leaf (p : list string) :
  forall (src dst : dict) (v : value),
    wf (VDict src) = true ->
    lookup_path p (VDict src) = Some v -> is_mapping v = false ->
    lookup_path p (VDict (merge dst src)) = Some v.
Proof.
  induction p as [|k p IH]; intros src dst v W E L.
  - simpl in E. injection E as <-. discriminate.
  - simpl in E. destruct (lookup k src) as [sv|] eqn:Ek; [|discriminate].
    simpl. rewrite (lookup_merge_present _ _ _ _ (wf_unique _ W) Ek).
    pose proof (wf_lookup _ _ _ W Ek) as Wsv.
    destruct (lookup k dst) as [[| | |d]|]; try assumption.
    destruct sv as [| | |s]; try assumption.
    now apply IH.
Qed.

(** Below a one-leaf override, a path that leaves the override finds nothing. *)
Lemma lookup_path_nest_diverge (p : list string) :
  forall (q : list string) (v : value),
    diverge p q = true -> lookup_path q (nest p v) = None.
Proof.
  induction p as [|a p IH]; intros [|b q] v D; simpl in D; try discriminate.
  simpl. rewrite (String.eqb_sym b a).
  destruct (String.eqb a b); [now apply IH | reflexivity].
Qed.

(** Merging a one-leaf override leaves every diverging path untouched. *)
Lemma lookup_path_merge_nest (p : list string) :
  forall (k : string) (q : list string) (dst : dict) (v : value),
    diverge (k :: p) q = true ->
    lookup_path q (VDict (merge dst [(k, nest p v)])) = lookup_path q (VDict dst).
Proof.
  induction p as [|k2 p IH]; intros k [|b q] dst v D; simpl in D; try discriminate.
  - destruct (String.eqb_spec k b) as [->|N]; [discriminate|].
    rewrite merge_cons, merge_nil. simpl.
    now rewrite lookup_merge_key_other.
  - rewrite merge_cons, merge_nil.
    destruct (String.eqb_spec k b) as [->|N].
    + cbn [lookup_path]. rewrite lookup_merge_key_same.
      cbn [nest].
      destruct (lookup b dst) as [[| | |d]|] eqn:Eb.
      * destruct q; [discriminate|]. 
        change (VDict [(k2, nest p v)]) with (nest (k2 :: p) v).
        now rewrite lookup_path_nest_diverge.
      * destruct q; [discriminate|].
        change (VDict [(k2, nest p v)]) with (nest (k2 :: p) v).
        now rewrite lookup_path_nest_diverge.
      * destruct q; [discriminate|].
        change (VDict [(k2, nest p v)]) with (nest (k2 :: p) v).
        now rewrite lookup_path_nest_diverge.
      * now apply IH.
      * change (VDict [(k2, nest p v)]) with (nest (k2 :: p) v).
        now apply lookup_path_nest_diverge.
    + simpl. now rewrite lookup_merge_key_other.
Qed.

End MergeFacts.

(* ===================================================================== *)
(** * The sections of the record *)
(* ===================================================================== *)

Section AssembleFacts.
Context `{Externals}.
Import Metadata.

Lemma bind_Ok {A B} (r : result A) (f : A -> result B) (b : B) :
  Py.bind r f = Ok b -> exists a, r = Ok a /\ f a = Ok b.
Proof. destruct r as [a|e]; simpl; intros E; [eauto | discriminate]. Qed.

Lemma ior_Ok (data : dict) (section : result dict) (data' : dict) :
  ior data section = Ok data' -> exists s, section = Ok s /\ data' = update data s.
Proof.
  unfold ior. intros E. apply bind_Ok in E as (s & -> & E).
  injection E as <-. eauto.
Qed.

(** Every section builder returns a mapping with one fixed key, or, for
    the two optional sections, possibly the empty mapping. *)
Ltac invert_binds E :=
  repeat (let x := fresh "x" in let Ex := fresh "E" x in
          apply bind_Ok in E as (x & Ex & E));
  try (injection E as <-).

Lemma getMdIdentifier_Ok (p s : dict) :
  getMdIdentifier p = Ok s ->
  exists doi, s = [("identifier", VDict [("@identifierType", VStr "DOI"); ("#text", doi)])].
Proof. unfold getMdIdentifier. intros E. invert_binds E. eauto. Qed.

Lemma getMdCreators_Ok (b a s : dict) :
  getMdCreators b a = Ok s -> exists creator, s = [("creators", VDict [("creator", creator)])].
Proof. unfold getMdCreators. intros E. invert_binds E. eauto. Qed.

Lemma getMdTitles_Ok (p s : dict) :
  getMdTitles p = Ok s ->
  exists title, s = [("titles", VDict [("title", VDict [("@xml:lang", VStr "en"); ("#text", title)])])].
Proof. unfold getMdTitles. intros E. invert_binds E. eauto. Qed.

Lemma getMdPublicationYear_Ok (p s : dict) :
  getMdPublicationYear p = Ok s -> exists year, s = [("publicationYear", VStr year)].
Proof. unfold getMdPublicationYear. intros E. invert_binds E. eauto. Qed.

Lemma getMdPublisher_Ok (b s : dict) :
  getMdPublisher b = Ok s -> exists publisher, s = [("publisher", publisher)].
Proof. unfold getMdPublisher. intros E. invert_binds E. eauto. Qed.

Lemma getMdVersion_Ok (p s : dict) :
  getMdVersion p = Ok s -> exists version, s = [("version", version)].
Proof. unfold getMdVersion. intros E. invert_binds E. eauto. Qed.

Lemma getMdRightsList_Ok (p s : dict) :
  getMdRightsList p = Ok s ->
  exists rights, parseLicense p = Ok rights /\ s = [("rightsList", VDict [("rights", rights)])].
Proof. unfold getMdRightsList. intros E. invert_binds E. eauto. Qed.

Lemma getMdSubjects_Ok (p s : dict) :
  getMdSubjects p = Ok s -> exists subject, s = [("subjects", VDict [("subject", subject)])].
Proof. unfold getMdSubjects. intros E. invert_binds E. eauto. Qed.

Lemma getMdDescriptions_Ok (p s : dict) :
  getMdDescriptions p = Ok s ->
  (has_key "abstract" p = false /\ s = []) \/
  (exists abstract, lookup "abstract" p = Some abstract /\
     s = [("descriptions", VDict [("description", VDict
            [("@descriptionType", VStr "Abstract"); ("#text", abstract)])])]).
Proof.
  unfold getMdDescriptions, getitem. destruct (has_key "abstract" p) eqn:K; simpl; intros E.
  - right. destruct (lookup "abstract" p); [|discriminate]. simpl in E. injection E as <-. eauto.
  - left. injection E as <-. auto.
Qed.

Lemma getMdRelToBlog_Ok (b s : dict) :
  getMdRelToBlog b = Ok s ->
  s = [] \/ exists related, s = [("relatedIdentifiers", related)].
Proof.
  unfold getMdRelToBlog. destruct (has_key "doi" b); intros E.
  - right. invert_binds E. eauto.
  - left. now injection E as <-.
Qed.

Lemma fixed_sections_shape (data_blog data_post data_author data : dict) :
  fixed_sections data_blog data_post data_author = Ok data ->
  exists doi creator title year publisher version rights subject descriptions related,
    parseLicense data_post = Ok rights /\
    getMdDescriptions data_post = Ok descriptions /\
    getMdRelToBlog data_blog = Ok related /\
    data = fixed_record doi creator title year publisher version rights subject
             descriptions related.
Proof.
  unfold fixed_sections. intros E.
  apply bind_Ok in E as (d1 & E1 & E). apply ior_Ok in E1 as (s1 & S1 & ->).
  apply bind_Ok in E as (d2 & E2 & E). apply ior_Ok in E2 as (s2 & S2 & ->).
  apply bind_Ok in E as (d3 & E3 & E). apply ior_Ok in E3 as (s3 & S3 & ->).
  apply bind_Ok in E as (d4 & E4 & E). apply ior_Ok in E4 as (s4 & S4 & ->).
  apply bind_Ok in E as (d5 & E5 & E). apply ior_Ok in E5 as (s5 & S5 & ->).
  apply bind_Ok in E as (d6 & E6 & E). apply ior_Ok in E6 as (s6 & S6 & ->).
  apply bind_Ok in E as (d7 & E7 & E). apply ior_Ok in E7 as (s7 & S7 & ->).
  apply bind_Ok in E as (d8 & E8 & E). apply ior_Ok in E8 as (s8 & S8 & ->).
  apply bind_Ok in E as (d9 & E9 & E). apply ior_Ok in E9 as (s9 & S9 & ->).
  apply ior_Ok in E as (s10 & S10 & ->).
  apply getMdIdentifier_Ok in S1 as (doi & ->).
  apply getMdCreators_Ok in S2 as (creator & ->).
  apply getMdTitles_Ok in S3 as (title & ->).
  apply getMdPublicationYear_Ok in S4 as (year & ->).
  apply getMdPublisher_Ok in S5 as (publisher & ->).
  apply getMdVersion_Ok in S6 as (version & ->).
  apply getMdRightsList_Ok in S7 as (rights & L & ->).
  apply getMdSubjects_Ok in S8 as (subject & ->).
  exists doi, creator, title, year, publisher, version, rights, subject, s9, s10.
  repeat split; try assumption.
  apply getMdDescriptions_Ok in S9 as [[_ ->]|(abstract & _ & ->)];
    apply getMdRelToBlog_Ok in S10 as [->|(related & ->)]; reflexivity.
Qed.
(** The fixed sections are built whenever the keys they read are there,
    the date is a string the parser accepts, the tags are a string and the
    license, if any, is known; the record then is the one displayed by
    [fixed_record]. *)
Lemma fixed_sections_total (data_blog data_post data_author : dict)
    (doi name first_name last_name orcid_id affiliation title publisher rights : value)
    (date tags : string) (d : datetime) :
  lookup "doi" data_post = Some doi ->
  lookup "name" data_author = Some name ->
  lookup "first_name" data_author = Some first_name ->
  lookup "last_name" data_author = Some last_name ->
  lookup "orcid_id" data_author = Some orcid_id ->
  lookup "affiliation" data_blog = Some affiliation ->
  lookup "title" data_post = Some title ->
  lookup "date" data_post = Some (VStr date) ->
  dateparser_parse date = Some d ->
  lookup "publisher" data_blog = Some publisher ->
  parseLicense data_post = Ok rights ->
  lookup "tags" data_post = Some (VStr tags) ->
  exists creator version descriptions related,
    fixed_sections data_blog data_post data_author
    = Ok (fixed_record doi creator title (strftime_Y d) publisher version rights
            (VList (map VStr (split_ws tags))) descriptions related) /\
    getMdDescriptions data_post = Ok descriptions /\
    getMdRelToBlog data_blog = Ok related.
Proof.
  intros Edoi En Ef El Eo Ea Et Ed Ep Epu Er Eta.
  assert (V : exists version, getMdVersion data_post = Ok [("version", version)]).
  { unfold getMdVersion, getitem, has_key.
    destruct (lookup "version" data_post); simpl; eauto. }
  destruct V as (version & V).
  assert (D : exists descriptions, getMdDescriptions data_post = Ok descriptions /\
                (descriptions = [] \/ exists x, descriptions = [("descriptions", x)])).
  { unfold getMdDescriptions, getitem, has_key.
    destruct (lookup "abstract" data_post); simpl; eauto. }
  destruct D as (descriptions & D & Dshape).
  assert (R : exists related, getMdRelToBlog data_blog = Ok related /\
                (related = [] \/ exists x, related = [("relatedIdentifiers", x)])).
  { unfold getMdRelToBlog, getitem, has_key.
    destruct (lookup "doi" data_blog); simpl; eauto. }
  destruct R as (related & R & Rshape).
  eexists _, version, descriptions, related. split; [|split; assumption].
  unfold fixed_sections, getMdIdentifier, getMdCreators, getMdTitles, getMdPublicationYear,
    getMdPublisher, getMdRightsList, getMdSubjects, getitem.
  rewrite Edoi, En, Ef, El, Eo, Ea, Et, Ed, Epu, Er, Eta, V, D, R.
  cbn [Py.bind ior parse_date split_value]. rewrite Ep. cbn [Py.bind].
  destruct Dshape as [->|(x & ->)]; destruct Rshape as [->|(y & ->)]; reflexivity.
Qed.

End AssembleFacts.

(* ===================================================================== *)
(** * The override layers *)
(* ===================================================================== *)

Section OverrideFacts.
Context `{Externals}.
Import Metadata MergeDeep.

(** A layer is merged only when [addAdditionalMetadata] hands on a mapping. *)
Lemma merge_call_layer_Ok (data data' : dict) (layer : value) :
  merge_call data (addAdditionalMetadata layer) = Ok data' ->
  exists s, addAdditionalMetadata layer = VDict s /\ data' = merge data s.
Proof.
  unfold addAdditionalMetadata.
  destruct layer as [|s|l|d]; simpl.
  - intros E. injection E as <-. eauto.
  - destruct s; simpl; intros E; [injection E as <-; eauto | discriminate].
  - destruct l; simpl; intros E; [injection E as <-; eauto | discriminate].
  - destruct d; simpl; intros E; injection E as <-; eauto.
Qed.

Lemma layer_of_dict (d : dict) : addAdditionalMetadata (VDict d) = VDict d.
Proof. now destruct d. Qed.

(** What the two layers do to the record when they are accepted. *)
Lemma apply_overrides_Ok (data data' data_post : dict) (additional_metadata : value) :
  apply_overrides data data_post additional_metadata = Ok data' ->
  exists a b,
    addAdditionalMetadata additional_metadata = VDict a /\
    data' = merge (merge data a) b /\
    (forall k, layer_binds k additional_metadata = has_key k a) /\
    (forall k, post_layer_binds k data_post = has_key k b).
Proof.
  unfold apply_overrides. intros E.
  apply bind_Ok in E as (d1 & E1 & E).
  apply merge_call_layer_Ok in E1 as (a & Ea & ->).
  unfold post_layer_binds, layer_binds. rewrite Ea.
  unfold has_key at 1, getitem in E.
  destruct (lookup "doi-additional-metadata" data_post) as [extra|]; simpl in E.
  - apply merge_call_layer_Ok in E as (b & Eb & ->).
    exists a, b. rewrite Eb. auto.
  - injection E as <-. exists a, []. rewrite merge_nil. auto.
Qed.

Lemma assembleMetadata_Ok (data_blog data_post data_author r : dict) (additional_metadata : value) :
  assembleMetadata data_blog data_post data_author additional_metadata = Ok r ->
  exists data0 a b,
    fixed_sections data_blog data_post data_author = Ok data0 /\
    r = [("resource", VDict (merge (merge data0 a) b))] /\
    (forall k, layer_binds k additional_metadata = has_key k a) /\
    (forall k, post_layer_binds k data_post = has_key k b).
Proof.
  unfold assembleMetadata. intros E.
  apply bind_Ok in E as (data0 & E0 & E).
  apply bind_Ok in E as (data & E1 & E).
  injection E as <-.
  apply apply_overrides_Ok in E1 as (a & b & _ & -> & Ka & Kb).
  exists data0, a, b. auto.
Qed.

(** Two merges keep the value of a key that neither layer binds, and keep
    every key of the record. *)
Lemma lookup_two_layers (data a b : dict) (k : string) :
  has_key k a = false -> has_key k b = false ->
  lookup k (merge (merge data a) b) = lookup k data.
Proof.
  intros Ka Kb. rewrite !lookup_merge_absent; auto; now apply has_key_false.
Qed.

Lemma has_key_two_layers (data a b : dict) (k : string) :
  has_key k (merge (merge data a) b) = has_key k data || has_key k a || has_key k b.
Proof. now rewrite !has_key_merge. Qed.

End OverrideFacts.

(* ===================================================================== *)
(** * The assembled record and its optional sections *)
(* ===================================================================== *)

Section Assembler.
Context `{Externals}.
Import Metadata MergeDeep.

Lemma parseLicense_absent (data_post : dict) :
  has_key "license" data_post = false -> parseLicense data_post = Ok VNone.
Proof. unfold parseLicense. now intros ->. Qed.

(** C1 fails on the code.  For a post without a [license] key the license
    resolver returns [None], as the claim says; but [getMdRightsList] wraps
    whatever the resolver returns, where the builders of the other
    optional sections ([getMdDescriptions], [getMdRelToBlog]) return the
    empty mapping.  So every record assembled for such a post does have a
    [rightsList] key under [resource], and unless an override layer binds
    [rightsList] its value is the malformed section that maps [rights] to
    [None]. *)
Theorem rights_section_without_license
    (data_blog data_post data_author r : dict) (additional_metadata : value) :
  has_key "license" data_post = false ->
  assembleMetadata data_blog data_post data_author additional_metadata = Ok r ->
  parseLicense data_post = Ok VNone /\
  exists data,
    r = [("resource", VDict data)] /\
    has_key "rightsList" data = true /\
    (layer_binds "rightsList" additional_metadata = false ->
     post_layer_binds "rightsList" data_post = false ->
     lookup "rightsList" data = Some (VDict [("rights", VNone)])).
Proof.
  intros L E. pose proof (parseLicense_absent _ L) as P. split; [exact P|].
  apply assembleMetadata_Ok in E as (data0 & a & b & F & -> & Ka & Kb).
  apply fixed_sections_shape in F
    as (doi & cr & ti & ye & pu & ve & ri & su & de & re & Pr & _ & _ & ->).
  rewrite P in Pr. injection Pr as <-.
  eexists. split; [reflexivity|]. split.
  - rewrite has_key_two_layers. reflexivity.
  - intros Na Nb. rewrite Ka in Na. rewrite Kb in Nb.
    rewrite lookup_two_layers by assumption. reflexivity.
Qed.

(** C9, as the code has it.  The fixed sections hold a [descriptions]
    entry exactly when the post has an [abstract]; the override layers can
    add one.  So for a post without [abstract] the record has a
    [descriptions] key exactly when an override layer binds it, and for a
    post with [abstract] the key is always there and, unless an override
    layer binds it, holds that abstract. *)
Theorem descriptions_section
    (data_blog data_post data_author r : dict) (additional_metadata : value) :
  assembleMetadata data_blog data_post data_author additional_metadata = Ok r ->
  exists data,
    r = [("resource", VDict data)] /\
    (has_key "abstract" data_post = false ->
     has_key "descriptions" data =
       layer_binds "descriptions" additional_metadata
       || post_layer_binds "descriptions" data_post) /\
    (forall abstract, lookup "abstract" data_post = Some abstract ->
       has_key "descriptions" data = true /\
       (layer_binds "descriptions" additional_metadata = false ->
        post_layer_binds "descriptions" data_post = false ->
        lookup "descriptions" data =
          Some (VDict [("description",
                        VDict [("@descriptionType", VStr "Abstract");
                               ("#text", abstract)])]))).
Proof.
  intros E.
  apply assembleMetadata_Ok in E as (data0 & a & b & F & -> & Ka & Kb).
  apply fixed_sections_shape in F
    as (doi & cr & ti & ye & pu & ve & ri & su & de & re & _ & D & R & ->).
  eexists. split; [reflexivity|].
  rewrite Ka, Kb, has_key_two_layers.
  apply getMdDescriptions_Ok in D as [[A ->]|(abstract & A & ->)];
    apply getMdRelToBlog_Ok in R as [->|(related & ->)].
  - split; [reflexivity|]. intros x Ex. apply has_key_false in A. congruence.
  - split; [reflexivity|]. intros x Ex. apply has_key_false in A. congruence.
  - split.
    + intros N. apply has_key_false in N. congruence.
    + intros x Ex. rewrite A in Ex. injection Ex as <-. split; [reflexivity|].
      intros Na Nb. rewrite lookup_two_layers by assumption. reflexivity.
  - split.
    + intros N. apply has_key_false in N. congruence.
    + intros x Ex. rewrite A in Ex. injection Ex as <-. split; [reflexivity|].
      intros Na Nb. rewrite lookup_two_layers by assumption. reflexivity.
Qed.

(** The script's [assembleMetadata] has no override layer: its record
    always has the rights section, and has a descriptions section exactly
    when the post has an abstract. *)
Lemma script_record_sections (data_blog data_post data_author r : dict) :
  Script.assembleMetadata data_blog data_post data_author = Ok r ->
  exists data,
    r = [("resource", VDict data)] /\
    has_key "rightsList" data = true /\
    has_key "descriptions" data = has_key "abstract" data_post.
Proof.
  unfold Script.assembleMetadata. intros E.
  apply bind_Ok in E as (d1 & E1 & E). apply ior_Ok in E1 as (s1 & S1 & ->).
  apply bind_Ok in E as (d2 & E2 & E). apply ior_Ok in E2 as (s2 & S2 & ->).
  apply bind_Ok in E as (d3 & E3 & E). apply ior_Ok in E3 as (s3 & S3 & ->).
  apply bind_Ok in E as (d4 & E4 & E). apply ior_Ok in E4 as (s4 & S4 & ->).
  apply bind_Ok in E as (d5 & E5 & E). apply ior_Ok in E5 as (s5 & S5 & ->).
  apply bind_Ok in E as (d6 & E6 & E). apply ior_Ok in E6 as (s6 & S6 & ->).
  apply bind_Ok in E as (d7 & E7 & E). apply ior_Ok in E7 as (s7 & S7 & ->).
  apply bind_Ok in E as (d8 & E8 & E). apply ior_Ok in E8 as (s8 & S8 & ->).
  apply bind_Ok in E as (d9 & E9 & E). apply ior_Ok in E9 as (s9 & S9 & ->).
  injection E as <-.
  apply getMdIdentifier_Ok in S1 as (doi & ->).
  apply getMdCreators_Ok in S2 as (creator & ->).
  apply getMdTitles_Ok in S3 as (title & ->).
  apply getMdPublicationYear_Ok in S4 as (year & ->).
  apply getMdPublisher_Ok in S5 as (publisher & ->).
  apply getMdVersion_Ok in S6 as (version & ->).
  unfold Script.getMdRightsList in S7. apply bind_Ok in S7 as (rights & _ & S7).
  injection S7 as <-.
  apply getMdSubjects_Ok in S8 as (subject & ->).
  eexists. split; [reflexivity|].
  apply getMdDescriptions_Ok in S9 as [[A ->]|(abstract & A & ->)].
  - rewrite A. split; reflexivity.
  - split; [reflexivity|]. unfold has_key at 2. rewrite A. reflexivity.
Qed.

(** C2.  When the fixed sections can be built and the two override
    layers are handed on as the mappings [a] (supplied by the caller) and
    [b] (embedded in the post), the record is the fixed sections merged
    with [a] first and with [b] second; every leaf of [b] is found in the
    record at its path, whatever [a] binds there; with [a] binding
    [version] to 2.0 and [b] binding it to 3.0 the record's [version] is
    3.0. *)
Theorem post_overrides_win
    (data_blog data_post data_author data a b : dict) (additional_metadata extra : value) :
  fixed_sections data_blog data_post data_author = Ok data ->
  addAdditionalMetadata additional_metadata = VDict a ->
  lookup "doi-additional-metadata" data_post = Some extra ->
  addAdditionalMetadata extra = VDict b ->
  wf (VDict b) = true ->
  let r := [("resource", VDict (merge (merge data a) b))] in
  assembleMetadata data_blog data_post data_author additional_metadata = Ok r /\
  (forall p v, lookup_path p (VDict b) = Some v -> is_mapping v = false ->
     lookup_path ("resource" :: p) (VDict r) = Some v) /\
  (a = [("version", VStr "2.0")] -> b = [("version", VStr "3.0")] ->
     lookup_path ["resource"; "version"] (VDict r) = Some (VStr "3.0")).
Proof.
  intros F A B X W r.
  assert (L : forall p v, lookup_path p (VDict b) = Some v -> is_mapping v = false ->
                lookup_path ("resource" :: p) (VDict r) = Some v).
  { intros p v E M. subst r. cbn [lookup_path lookup]. rewrite String.eqb_refl.
    now apply lookup_path_merge_leaf. }
  split; [|split].
  - unfold assembleMetadata, apply_overrides. rewrite F. cbn [Py.bind].
    rewrite A. cbn [merge_call Py.bind].
    unfold has_key, getitem. rewrite B. cbn [Py.bind].
    rewrite X. reflexivity.
  - exact L.
  - intros _ ->. apply L; reflexivity.
Qed.

End Assembler.

(** A one-leaf override holds its leaf at its path. *)
Lemma lookup_path_nest (p : list string) (v : value) :
  lookup_path p (MergeDeep.nest p v) = Some v.
Proof.
  induction p as [|k p IH]; simpl; [reflexivity|].
  now rewrite String.eqb_refl.
Qed.

Lemma lookup_path_cons (k : string) (p : list string) (d : dict) :
  lookup_path (k :: p) (VDict d) =
  match lookup k d with Some v' => lookup_path p v' | None => None end.
Proof. reflexivity. Qed.

(** Merging a one-leaf override sets the leaf. *)
Lemma lookup_path_merge_nest_leaf (p : list string) :
  forall (k : string) (dst : dict) (v : value),
    is_mapping v = false ->
    lookup_path (k :: p) (VDict (MergeDeep.merge dst [(k, MergeDeep.nest p v)])) = Some v.
Proof.
  induction p as [|k2 p IH]; intros k dst v M;
    rewrite merge_cons, merge_nil, lookup_path_cons, lookup_merge_key_same.
  - simpl. destruct (lookup k dst) as [[| | |d]|]; destruct v; try reflexivity; discriminate.
  - change (MergeDeep.nest (k2 :: p) v) with (VDict [(k2, MergeDeep.nest p v)]).
    destruct (lookup k dst) as [[| | |d]|];
      try (change (VDict [(k2, MergeDeep.nest p v)]) with (MergeDeep.nest (k2 :: p) v);
           apply lookup_path_nest).
    now apply IH.
Qed.

(** C8.  The deep merge keeps every key of the target; a key the override
    does not bind keeps its value; a key the override binds holds the
    key-by-key merge when both sides are mappings and the override's value
    otherwise; and an override that sets one nested leaf changes no path
    that leaves the path of that leaf, so the siblings of the leaf and of
    its ancestors are as in the target, while the leaf itself is set. *)
Theorem deep_merge_non_destructive :
  (forall dst src k, has_key k dst = true -> has_key k (MergeDeep.merge dst src) = true) /\
  (forall dst src k, has_key k src = false ->
     lookup k (MergeDeep.merge dst src) = lookup k dst) /\
  (forall dst src k sv, unique_keys src = true -> lookup k src = Some sv ->
     lookup k (MergeDeep.merge dst src) =
     Some (match lookup k dst, sv with
           | Some (VDict d), VDict s => VDict (MergeDeep.merge d s)
           | _, _ => sv
           end)) /\
  (forall dst k p v q, diverge (k :: p) q = true ->
     lookup_path q (VDict (MergeDeep.merge dst [(k, MergeDeep.nest p v)])) =
     lookup_path q (VDict dst)) /\
  (forall dst k p v, is_mapping v = false ->
     lookup_path (k :: p) (VDict (MergeDeep.merge dst [(k, MergeDeep.nest p v)])) = Some v).
Proof.
  repeat split.
  - intros dst src k K. rewrite has_key_merge, K. reflexivity.
  - intros dst src k K. apply lookup_merge_absent. now apply has_key_false.
  - intros dst src k sv U E. now apply lookup_merge_present.
  - intros dst k p v q D. now apply lookup_path_merge_nest.
  - intros dst k p v M. now apply lookup_path_merge_nest_leaf.
Qed.

(** At the scenario of the specification, minus the license: the record
    has a rights section, holding [None]. *)
Lemma unlicensed_post_keeps_rights_section :
  has_key "license" Sample.post_unlicensed = false /\
  exists data,
    @Metadata.assembleMetadata Sample.externals
      Sample.blog Sample.post_unlicensed Sample.author (VDict [])
    = Ok [("resource", VDict data)] /\
    has_key "rightsList" data = true /\
    lookup "rightsList" data = Some (VDict [("rights", VNone)]).
Proof.
  split; [reflexivity|].
  exists (match lookup "resource" Sample.record_unlicensed with
          | Some (VDict d) => d
          | _ => []
          end).
  repeat split; vm_compute; reflexivity.
Qed.

Lemma rights_section_without_license_witness :
  Metadata.parseLicense Sample.post_unlicensed = Ok VNone /\
  exists data,
    Sample.record_unlicensed = [("resource", VDict data)] /\
    has_key "rightsList" data = true /\
    (@layer_binds Sample.externals "rightsList" (VDict []) = false ->
     @post_layer_binds Sample.externals "rightsList" Sample.post_unlicensed = false ->
     lookup "rightsList" data = Some (VDict [("rights", VNone)])).
Proof.
  apply (@rights_section_without_license Sample.externals
           Sample.blog Sample.post_unlicensed Sample.author
           Sample.record_unlicensed (VDict [])).
  - reflexivity.
  - vm_compute. reflexivity.
Defined.

(** A post without abstract whose embedded override binds [descriptions]
    yields a record with a descriptions section; a post with an abstract
    and the same override yields a record whose description is the
    override's text. *)
Lemma override_brings_descriptions :
  (has_key "abstract" Sample.post_described = false /\
   exists data,
     @Metadata.assembleMetadata Sample.externals
       Sample.blog Sample.post_described Sample.author (VDict [])
     = Ok [("resource", VDict data)] /\
     has_key "descriptions" data = true) /\
  (lookup "abstract" Sample.post_redescribed = Some (VStr "The abstract of the post.") /\
   exists data,
     @Metadata.assembleMetadata Sample.externals
       Sample.blog Sample.post_redescribed Sample.author (VDict [])
     = Ok [("resource", VDict data)] /\
     lookup_path ["descriptions"; "description"; "#text"] (VDict data)
     = Some (VStr "An overview.")).
Proof.
  split; (split; [reflexivity|]).
  - eexists. split; [cbv; reflexivity|]. reflexivity.
  - eexists. split; [cbv; reflexivity|]. reflexivity.
Qed.

Lemma descriptions_section_witness :
  exists data,
    Sample.record_abstract = [("resource", VDict data)] /\
    lookup "descriptions" data =
      Some (VDict [("description",
                    VDict [("@descriptionType", VStr "Abstract");
                           ("#text", VStr "The abstract of the post.")])]).
Proof.
  destruct (@descriptions_section Sample.externals
              Sample.blog Sample.post_abstract Sample.author
              Sample.record_abstract VNone) as (data & E & _ & A).
  - vm_compute. reflexivity.
  - exists data. split; [exact E|].
    apply (A (VStr "The abstract of the post.")); reflexivity.
Defined.

Lemma post_overrides_win_witness :
  lookup_path ["resource"; "version"]
    (VDict [("resource",
             VDict (MergeDeep.merge
                      (MergeDeep.merge Sample.fixed [("version", VStr "2.0")])
                      [("version", VStr "3.0")]))])
  = Some (VStr "3.0").
Proof.
  refine (proj2 (proj2 (@post_overrides_win Sample.externals
            Sample.blog Sample.post_versioned Sample.author Sample.fixed
            [("version", VStr "2.0")] [("version", VStr "3.0")]
            (VDict [("version", VStr "2.0")]) (VDict [("version", VStr "3.0")])
            _ _ _ _ _)) eq_refl eq_refl).
  - vm_compute. reflexivity.
  - reflexivity.
  - reflexivity.
  - reflexivity.
  - reflexivity.
Defined.

(** Overriding [creators.creator.givenName] in the record of the scenario
    keeps [familyName] and sets [givenName]. *)
Lemma deep_merge_non_destructive_witness :
  let override := [("creators", MergeDeep.nest ["creator"; "givenName"] (VStr "Steve"))] in
  lookup_path ["creators"; "creator"; "familyName"]
    (VDict (MergeDeep.merge Sample.fixed override)) = Some (VStr "King") /\
  lookup_path ["creators"; "creator"; "givenName"]
    (VDict (MergeDeep.merge Sample.fixed override)) = Some (VStr "Steve") /\
  has_key "titles" (MergeDeep.merge Sample.fixed override) = true.
Proof.
  destruct deep_merge_non_destructive as (K & _ & _ & S & L).
  intros override. split; [|split].
  - unfold override. rewrite S; reflexivity.
  - unfold override. apply L. reflexivity.
  - apply K. reflexivity.
Defined.

(* ===================================================================== *)
(** * The identifier generator *)
(* ===================================================================== *)

Lemma take_first_chars (n : nat) (s : string) : take n s = first_chars n s.
Proof.
  revert s. induction n as [|n IH]; intros [|c r]; simpl; f_equal; auto.
Qed.

Lemma slice_first_chars (n : nat) (s : string) : slice 0 n s = first_chars n s.
Proof. unfold slice. rewrite Nat.sub_0_r. apply take_first_chars. Qed.

Lemma first_chars_length (n : nat) (s : string) :
  String.length (first_chars n s) = Nat.min n (String.length s).
Proof.
  revert s. induction n as [|n IH]; intros [|c r]; simpl; f_equal; auto.
Qed.

(** The encoding has four characters for every group of three bytes,
    the last group included. *)
Lemma b64encode_length (s : string) :
  String.length (Base64.b64encode s) = 4 * ((String.length s + 2) / 3).
Proof.
  assert (G : forall s,
             String.length (Base64.b64encode s) = 4 * ((String.length s + 2) / 3)
             /\ (forall a, String.length (Base64.b64encode (String a s))
                           = 4 * ((String.length (String a s) + 2) / 3))
             /\ (forall a b, String.length (Base64.b64encode (String a (String b s)))
                             = 4 * ((String.length (String a (String b s)) + 2) / 3))).
  { clear s. induction s as [|c r (I0 & I1 & I2)].
    - repeat split; intros; reflexivity.
    - split; [apply I1|]. split; [intros a; apply I2|].
      intros a b.
      change (Base64.b64encode (String a (String b (String c r))))
        with (let n := Z.lor (Z.lor (Z.shiftl (Base64.byte a) 16)
                                    (Z.shiftl (Base64.byte b) 8)) (Base64.byte c) in
              String (Base64.sextet (Z.shiftr n 18))
                (String (Base64.sextet (Z.shiftr n 12))
                   (String (Base64.sextet (Z.shiftr n 6))
                      (String (Base64.sextet n) (Base64.b64encode r))))).
      cbv zeta. cbn [String.length]. rewrite I0.
      replace (S (S (S (String.length r))) + 2) with (String.length r + 2 + 1 * 3) by lia.
      rewrite Nat.div_add by lia. lia. }
  apply G.
Qed.

Lemma sextet_in_alphabet (n : Z) : Base64.is_b64_char (Base64.sextet n) = true.
Proof.
  unfold Base64.sextet.
  assert (B : (Z.to_nat (Z.land n 63) < 64)%nat).
  { assert (0 <= Z.land n 63 < 64)%Z.
    { change 63%Z with (Z.ones 6). rewrite Z.land_ones by lia.
      apply Z.mod_pos_bound. reflexivity. }
    lia. }
  assert (A : forallb (fun i => Base64.is_b64_char
                         match String.get i Base64.alphabet with
                         | Some c => c
                         | None => "="%char
                         end) (seq 0 64) = true) by (vm_compute; reflexivity).
  rewrite forallb_forall in A. apply A. apply in_seq. lia.
Qed.

(** Every character of an encoding is a letter of the alphabet or the
    padding sign. *)
Lemma b64encode_chars (s : string) :
  forallb Base64.is_b64_char (list_ascii_of_string (Base64.b64encode s)) = true.
Proof.
  assert (G : forall s,
             forallb Base64.is_b64_char (list_ascii_of_string (Base64.b64encode s)) = true
             /\ (forall a, forallb Base64.is_b64_char
                             (list_ascii_of_string (Base64.b64encode (String a s))) = true)
             /\ (forall a b, forallb Base64.is_b64_char
                               (list_ascii_of_string
                                  (Base64.b64encode (String a (String b s)))) = true)).
  { clear s. induction s as [|c r (I0 & I1 & I2)].
    - repeat split; intros; cbn [Base64.b64encode list_ascii_of_string forallb];
        now rewrite ?sextet_in_alphabet.
    - split; [apply I1|]. split; [intros a; apply I2|].
      intros a b. cbn [Base64.b64encode list_ascii_of_string forallb].
      now rewrite !sextet_in_alphabet, I0. }
  apply G.
Qed.

(** ** The encoder against the standard *)

Lemma string_app_assoc (s1 s2 s3 : string) : (s1 ++ s2) ++ s3 = s1 ++ (s2 ++ s3).
Proof. induction s1 as [|c r IH]; simpl; [reflexivity | now rewrite IH]. Qed.




Lemma byte_shiftr_zero (c : ascii) (k : Z) :
  (8 <= k)%Z -> Z.shiftr (Base64.byte c) k = 0%Z.
Proof.
  intros K. unfold Base64.byte. rewrite Z.shiftr_div_pow2 by lia.
  apply Z.div_small. split; [lia|].
  assert (nat_of_ascii c < 256)%nat by apply nat_ascii_bounded.
  assert (2 ^ 8 <= 2 ^ k)%Z by (apply Z.pow_le_mono_r; lia).
  change (2 ^ 8)%Z with 256%Z in *. lia.
Qed.
















Lemma forallb_first_chars (f : ascii -> bool) (n : nat) (s : string) :
  forallb f (list_ascii_of_string s) = true ->
  forallb f (list_ascii_of_string (first_chars n s)) = true.
Proof.
  revert s. induction n as [|n IH]; intros [|c r]; simpl; try reflexivity.
  intros E. apply andb_true_iff in E as [E1 E2]. now rewrite E1, IH.
Qed.






Section Identifier.
Context `{Externals}.


End Identifier.



(* ===================================================================== *)
(** * The license resolver *)
(* ===================================================================== *)

(** C4.  On a post whose [license] is the string [s], both copies of
    [parseLicense] return the entry of the SPDX identifier and URL that
    the lower-cased [s] selects among [mit], [cc0], [cc-by4] and [gpl3];
    for every other [s] neither returns: the script raises [SystemExit],
    the package, whose module does not import [sys], raises [NameError]. *)
Theorem license_table (data_post : dict) (s : string) :
  lookup "license" data_post = Some (VStr s) ->
  let known license url :=
    Metadata.parseLicense data_post = Ok (Metadata.rights_entry license url) /\
    Script.parseLicense data_post = Ok (Metadata.rights_entry license url) /\
    Metadata.rights_entry license url <> VNone /\
    lookup_path ["@rightsIdentifier"] (Metadata.rights_entry license url) = Some (VStr license) /\
    lookup_path ["@rightsURI"] (Metadata.rights_entry license url) = Some (VStr url) in
  (lower s = "mit" -> known "MIT" "https://spdx.org/licenses/MIT.html") /\
  (lower s = "cc0" -> known "CC0-1.0" "https://creativecommons.org/publicdomain/zero/1.0/") /\
  (lower s = "cc-by4" -> known "CC-BY-4.0" "https://creativecommons.org/licenses/by/4.0/") /\
  (lower s = "gpl3" -> known "GPL-3.0-only" "https://opensource.org/licenses/GPL-3.0") /\
  (lower s <> "mit" -> lower s <> "cc0" -> lower s <> "cc-by4" -> lower s <> "gpl3" ->
   Metadata.parseLicense data_post = Raise (NameError "sys") /\
   Script.parseLicense data_post = Raise (SystemExit None)).
Proof.
  intros L. cbv zeta.
  assert (K : has_key "license" data_post = true) by (unfold has_key; now rewrite L).
  assert (P : Metadata.parseLicense data_post =
              match Metadata.license_case (lower s) with
              | Some (license, url) => Ok (Metadata.rights_entry license url)
              | None => Raise (NameError "sys")
              end).
  { unfold Metadata.parseLicense, getitem. rewrite K, L. reflexivity. }
  assert (Q : Script.parseLicense data_post =
              match Metadata.license_case (lower s) with
              | Some (license, url) => Ok (Metadata.rights_entry license url)
              | None => Raise (SystemExit None)
              end).
  { unfold Script.parseLicense, getitem. rewrite K, L. reflexivity. }
  rewrite P, Q. clear P Q.
  split; [|split; [|split; [|split]]].
  - intros ->. repeat split; discriminate.
  - intros ->. repeat split; discriminate.
  - intros ->. repeat split; discriminate.
  - intros ->. repeat split; discriminate.
  - intros N1 N2 N3 N4. unfold Metadata.license_case.
    destruct (String.eqb_spec (lower s) "mit"); [contradiction|].
    destruct (String.eqb_spec (lower s) "cc0"); [contradiction|].
    destruct (String.eqb_spec (lower s) "cc-by4"); [contradiction|].
    destruct (String.eqb_spec (lower s) "gpl3"); [contradiction|].
    split; reflexivity.
Qed.

Lemma license_table_witness :
  Metadata.parseLicense [("license", VStr "MIT")]
    = Ok (Metadata.rights_entry "MIT" "https://spdx.org/licenses/MIT.html") /\
  Metadata.parseLicense [("license", VStr "Gpl3")]
    = Ok (Metadata.rights_entry "GPL-3.0-only" "https://opensource.org/licenses/GPL-3.0") /\
  Metadata.parseLicense [("license", VStr "apache")] = Raise (NameError "sys") /\
  Script.parseLicense [("license", VStr "apache")] = Raise (SystemExit None).
Proof.
  split; [|split].
  - apply (proj1 (license_table [("license", VStr "MIT")] "MIT" eq_refl)). reflexivity.
  - apply (proj1 (proj2 (proj2 (proj2
      (license_table [("license", VStr "Gpl3")] "Gpl3" eq_refl))))). reflexivity.
  - apply (proj2 (proj2 (proj2 (proj2
      (license_table [("license", VStr "apache")] "apache" eq_refl)))));
      discriminate.
Defined.

(* ===================================================================== *)
(** * The permalink deriver *)
(* ===================================================================== *)

Lemma rev_string_involutive (s : string) : rev_string (rev_string s) = s.
Proof.
  unfold rev_string.
  now rewrite list_ascii_of_string_of_list_ascii, rev_involutive,
    string_of_list_ascii_of_string.
Qed.

(** A base URL that does not end with a slash is used as it is. *)
Lemma rstrip_no_slash (s : string) :
  ends_with_slash s = false -> rstrip_char "/"%char s = s.
Proof.
  unfold ends_with_slash, rstrip_char. intros E.
  destruct (rev_string s) as [|c r] eqn:R.
  - simpl. rewrite <- R. apply rev_string_involutive.
  - simpl. rewrite E. rewrite <- R. apply rev_string_involutive.
Qed.

Lemma dot_star_line_free (s : string) : line_free s = true -> dot_star s = s.
Proof.
  unfold line_free. induction s as [|c r IH]; simpl; [reflexivity|].
  intros E. apply andb_true_iff in E as [E1 E2].
  destruct (Ascii.eqb c "010"%char); [discriminate|]. now rewrite IH.
Qed.

Lemma re_search_unfold (s : string) :
  re_search_group2 s =
  match date_prefix s with
  | Some r => Some (dot_star r)
  | None => match s with "" => None | String _ r => re_search_group2 r end
  end.
Proof. destruct s; reflexivity. Qed.

Lemma digit_cons (c : ascii) (r : string) :
  is_digit c = true -> digit (String c r) = Some r.
Proof. simpl. now intros ->. Qed.

Lemma digit_dash (r : string) : digit (String "-"%char r) = None.
Proof. reflexivity. Qed.

Lemma dash_cons (r : string) : dash (String "-"%char r) = Some r.
Proof. reflexivity. Qed.

Lemma dash_digit (c : ascii) (r : string) :
  is_digit c = true -> dash (String c r) = None.
Proof.
  simpl. destruct (Ascii.eqb_spec c "-"%char) as [->|]; [discriminate|reflexivity].
Qed.

(** One or two digits followed by a dash are consumed by the greedy
    quantifier together with what the rest of the pattern accepts. *)
Lemma digits_1_2_dash (k : string -> option string) (m rest : string) :
  all_digits m = true -> (String.length m = 1 \/ String.length m = 2) ->
  digits_1_2 (fun r => and_then (dash r) k) (m ++ String "-"%char rest) = k rest.
Proof.
  intros D [L|L].
  - destruct m as [|a [|b m]]; try discriminate.
    unfold all_digits in D. simpl in D. apply andb_true_iff in D as [Da _].
    unfold digits_1_2. cbn [append]. rewrite (digit_cons _ _ Da), digit_dash.
    cbn [and_then]. now rewrite dash_cons.
  - destruct m as [|a [|b [|c m]]]; try discriminate.
    unfold all_digits in D. simpl in D.
    apply andb_true_iff in D as [Da D]. apply andb_true_iff in D as [Db _].
    unfold digits_1_2. cbn [append].
    rewrite (digit_cons _ _ Da), (digit_cons _ _ Db).
    cbn [and_then]. rewrite dash_cons. cbn [and_then].
    destruct (k rest); [reflexivity|].
    now rewrite (dash_digit _ _ Db).
Qed.

Lemma digits_1_2_ext (k k' : string -> option string) (s : string) :
  (forall r, k r = k' r) -> digits_1_2 k s = digits_1_2 k' s.
Proof.
  intros E. unfold digits_1_2. destruct (digit s) as [r1|]; [|reflexivity].
  rewrite (E r1). destruct (digit r1) as [r2|]; cbn [and_then]; [|reflexivity].
  now rewrite (E r2).
Qed.

Lemma and_then_Some (o : option string) : and_then o Some = o.
Proof. now destruct o. Qed.

(** The pattern accepts a dated prefix and leaves what follows it. *)
Lemma date_prefix_accepts (pre rest : string) :
  dated_prefix pre -> date_prefix (pre ++ rest) = Some rest.
Proof.
  intros (y & m & d & -> & Dy & Ly & Dm & Lm & Dd & Ld).
  destruct y as [|a [|b [|c [|e [|f y]]]]]; try discriminate.
  unfold all_digits in Dy. simpl in Dy.
  apply andb_true_iff in Dy as [Da Dy]. apply andb_true_iff in Dy as [Db Dy].
  apply andb_true_iff in Dy as [Dc Dy]. apply andb_true_iff in Dy as [De _].
  unfold date_prefix. cbn [append].
  rewrite (digit_cons _ _ Da). cbn [and_then].
  rewrite (digit_cons _ _ Db). cbn [and_then].
  rewrite (digit_cons _ _ Dc). cbn [and_then].
  rewrite (digit_cons _ _ De). cbn [and_then].
  rewrite dash_cons. cbn [and_then].
  rewrite !string_app_assoc. cbn [append].
  rewrite (digits_1_2_dash (digits_1_2 dash) m _ Dm Lm).
  rewrite string_app_assoc. cbn [append].
  rewrite (digits_1_2_ext dash (fun r => and_then (dash r) Some))
    by (intros r; now rewrite and_then_Some).
  now rewrite (digits_1_2_dash Some d _ Dd Ld).
Qed.

(** A year of four digits is printed as the specification lays it out. *)
Lemma four_digit_year (d : datetime) :
  1000 <= year d <= MAXYEAR -> strftime_Ymd d = date_YYYY_MM_DD d.
Proof.
  intros Y. unfold strftime_Ymd, date_YYYY_MM_DD, strftime_Y. f_equal.
  assert (A : forallb (fun n => String.eqb (dec n) (zpad 4 n)) (seq 1000 (9 * 1000)) = true)
    by (vm_compute; reflexivity).
  rewrite forallb_forall in A. apply String.eqb_eq, A, in_seq.
  unfold MAXYEAR in Y. lia.
Qed.

(** The permalink, written out. *)
Lemma permalink_of_parts (base_url : string) (d : datetime) (cleaned_stem : string) :
  permalink_of base_url d cleaned_stem
  = base_url ++ "/" ++ dec (year d) ++ "/" ++ zpad 2 (month d) ++ "/" ++ zpad 2 (day d)
      ++ "/" ++ cleaned_stem ++ ".html".
Proof. unfold permalink_of, strftime_Ymd, strftime_Y. now rewrite !string_app_assoc. Qed.

Section Permalink.
Context `{Externals}.

(** C5, as the code has it.  For a file name whose stem is a dated
    prefix followed by a slug, a base URL string and a post date the parser
    accepts, [genPermalink] of the script returns the permalink composed
    of the base URL without its trailing slashes, the date as [strftime]
    prints it (the year in decimal without padding, month and day in two
    digits) and the slug up to its first line feed; so for a base URL that
    does not end with a slash, a slug without line feed and a year of four
    digits it returns the permalink the specification composes. *)
Theorem script_permalink
    (data_blog data_post : dict) (post_filename url date : string) (d : datetime)
    (pre slug : string) :
  lookup "url" data_blog = Some (VStr url) ->
  lookup "date" data_post = Some (VStr date) ->
  dateparser_parse date = Some d ->
  stem post_filename = pre ++ slug ->
  dated_prefix pre ->
  Script.genPermalink data_blog post_filename data_post
    = Ok (rstrip_char "/"%char url ++ "/" ++
          dec (year d) ++ "/" ++ zpad 2 (month d) ++ "/" ++ zpad 2 (day d) ++ "/" ++
          dot_star slug ++ ".html") /\
  (ends_with_slash url = false -> line_free slug = true -> 1000 <= year d <= MAXYEAR ->
   Script.genPermalink data_blog post_filename data_post
     = Ok (spec_permalink url d slug)).
Proof.
  intros U D P S Q.
  assert (G : Script.genPermalink data_blog post_filename data_post
              = Ok (permalink_of (rstrip_char "/"%char url) d (dot_star slug))).
  { unfold Script.genPermalink, getitem. rewrite U, D. cbn [Py.bind Shared.rstrip_value parse_date].
    rewrite P. cbn [Py.bind]. rewrite S, re_search_unfold, (date_prefix_accepts _ _ Q).
    reflexivity. }
  split.
  - now rewrite G, permalink_of_parts.
  - intros E L Y. rewrite G, (rstrip_no_slash _ E), (dot_star_line_free _ L).
    unfold permalink_of, spec_permalink. now rewrite (four_digit_year _ Y).
Qed.

(** The package's [genPermalink] does not look at the file name. *)
Lemma packaged_permalink_ignores_filename (data_blog data_post : dict) (f1 f2 : string) :
  Packaged.genPermalink data_blog f1 data_post = Packaged.genPermalink data_blog f2 data_post.
Proof. reflexivity. Qed.

End Permalink.

Lemma script_permalink_witness :
  @Script.genPermalink Sample.externals Sample.blog "2022-08-01-hello-world.md" Sample.post
  = Ok "https://blog.acme.com/2022/08/01/hello-world.html".
Proof.
  refine (proj2 (@script_permalink Sample.externals Sample.blog Sample.post
            "2022-08-01-hello-world.md" "https://blog.acme.com" "2022-08-01"
            (mkDate 2022 8 1) "2022-08-01-" "hello-world" _ _ _ _ _) eq_refl eq_refl _);
    try reflexivity.
  - exists "2022", "08", "01". repeat split; try reflexivity; right; reflexivity.
  - cbn [year]. unfold MAXYEAR. lia.
Defined.

(** Four inputs at which the permalink is not the one the specification
    composes of the base URL, the date and the stripped stem: a base URL
    ending with a slash, a stem holding a line feed and a post dated
    before the year 1000, given to the script, and the example of the
    specification, given to the package. *)
Lemma permalink_deviations :
  let d := mkDate 2022 8 1 in
  let slashed := [("url", VStr "https://blog.acme.com/")] in
  let broken := "2022-08-01-hello" ++ newline ++ "world.md" in
  let old := [("date", VStr "0999-01-01")] in
  (@Script.genPermalink Sample.externals slashed "2022-08-01-hello-world.md" Sample.post
   = Ok "https://blog.acme.com/2022/08/01/hello-world.html" /\
   @Script.genPermalink Sample.externals slashed "2022-08-01-hello-world.md" Sample.post
   <> Ok (spec_permalink "https://blog.acme.com/" d "hello-world")) /\
  (stem broken = "2022-08-01-" ++ "hello" ++ newline ++ "world" /\
   @Script.genPermalink Sample.externals Sample.blog broken Sample.post
   = Ok "https://blog.acme.com/2022/08/01/hello.html" /\
   @Script.genPermalink Sample.externals Sample.blog broken Sample.post
   <> Ok (spec_permalink "https://blog.acme.com" d ("hello" ++ newline ++ "world"))) /\
  (@Script.genPermalink Sample.externals Sample.blog "0999-01-01-hello-world.md" old
   = Ok "https://blog.acme.com/999/01/01/hello-world.html" /\
   spec_permalink "https://blog.acme.com" (mkDate 999 1 1) "hello-world"
   = "https://blog.acme.com/0999/01/01/hello-world.html") /\
  (@Packaged.genPermalink Sample.externals
     Sample.blog "2022-08-01-hello-world.md" Sample.post
   = Ok "https://blog.acme.com/2022/08/01/asf.html" /\
   @Packaged.genPermalink Sample.externals
     Sample.blog "2022-08-01-hello-world.md" Sample.post
   <> Ok (spec_permalink "https://blog.acme.com" d "hello-world")).
Proof.
  repeat split; try (vm_compute; reflexivity); intros E; vm_compute in E; discriminate E.
Qed.

(* ===================================================================== *)
(** * Runs of the workflow *)
(* ===================================================================== *)

Lemma bindM_Ok {A B} (c : M A) (f : A -> M B) (w w' : world) (b : B) :
  bindM c f w = (Ok b, w') ->
  exists a w1, c w = (Ok a, w1) /\ f a w1 = (Ok b, w').
Proof.
  unfold bindM. destruct (c w) as [[a|ex] w1]; intros E; [eauto | discriminate].
Qed.

Lemma bindM_Raise {A B} (c : M A) (f : A -> M B) (w w' : world) (ex : exn) :
  c w = (Raise ex, w') -> bindM c f w = (Raise ex, w').
Proof. unfold bindM. now intros ->. Qed.

Lemma bindM_run {A B} (c : M A) (f : A -> M B) (w w1 : world) (a : A) :
  c w = (Ok a, w1) -> bindM c f w = f a w1.
Proof. unfold bindM. now intros ->. Qed.

Lemma quiet_ret {A} (a : A) : quiet (ret a).
Proof. intros w r w' E. injection E as <- <-. auto. Qed.

Lemma quiet_raise {A} (ex : exn) : quiet (@raise A ex).
Proof. intros w r w' E. injection E as <- <-. auto. Qed.

Lemma quiet_lift {A} (x : result A) : quiet (lift x).
Proof. intros w r w' E. injection E as <- <-. auto. Qed.

Lemma quiet_print (line : string) : quiet (print line).
Proof. intros w r w' E. injection E as <- <-. auto. Qed.

Lemma quiet_read_post : quiet read_post.
Proof. intros w r w' E. injection E as <- <-. auto. Qed.

Lemma quiet_bind {A B} (c : M A) (f : A -> M B) :
  quiet c -> (forall a, quiet (f a)) -> quiet (bindM c f).
Proof.
  intros Qc Qf w r w'. unfold bindM.
  destruct (c w) as [[a|ex] w1] eqn:E; intros R.
  - destruct (Qc _ _ _ E) as (P1 & P2 & P3).
    destruct (Qf a _ _ _ R) as (Q1 & Q2 & Q3). repeat split; congruence.
  - injection R as <- <-. eapply Qc, E.
Qed.

Lemma quiet_offline {A} (c : M A) : quiet c -> offline c.
Proof. intros Q w r w' E. destruct (Q _ _ _ E) as (_ & ? & ?). auto. Qed.

Lemma offline_post_setitem (k : string) (v : value) : offline (post_setitem k v).
Proof. intros w r w' E. injection E as <- <-. auto. Qed.

Lemma offline_bind {A B} (c : M A) (f : A -> M B) :
  offline c -> (forall a, offline (f a)) -> offline (bindM c f).
Proof.
  intros Qc Qf w r w'. unfold bindM.
  destruct (c w) as [[a|ex] w1] eqn:E; intros R.
  - destruct (Qc _ _ _ E) as (P1 & P2).
    destruct (Qf a _ _ _ R) as (Q1 & Q2). split; congruence.
  - injection R as <- <-. eapply Qc, E.
Qed.

Create HintDb run.
#[local] Hint Resolve quiet_ret quiet_raise quiet_lift quiet_print quiet_read_post
  offline_post_setitem quiet_offline : run.

Section Workflow.
Context `{Externals}.

Lemma quiet_parseCredentials (u p : option string) : quiet (Shared.parseCredentials u p).
Proof.
  unfold Shared.parseCredentials. destruct u; [destruct p|];
    auto with run; apply quiet_bind; auto with run.
Qed.

Lemma quiet_prepare (e : env) (a : args) : quiet (Shared.prepare e a).
Proof.
  unfold Shared.prepare.
  repeat (apply quiet_bind; [auto using quiet_parseCredentials with run | intros ?]);
    auto with run.
  destruct (has_key "doi" _ && negb (force a)); auto with run.
  apply quiet_bind; auto with run.
Qed.

Lemma offline_assign_doi (blog : dict) : offline (Shared.assign_doi blog).
Proof.
  unfold Shared.assign_doi.
  repeat (apply offline_bind; [auto with run | intros ?]); auto with run.
Qed.

(** When the steps before the check succeed, nothing was printed. *)
Lemma prepare_Ok (e : env) (a : args) (w w' : world) x :
  Shared.prepare e a w = (Ok x, w') ->
  w' = w /\ (has_key "doi" (w_post w) && negb (force a) = false).
Proof.
  unfold Shared.prepare, Shared.parseCredentials, bindM, lift, ret, raise, read_post, print.
  intros E.
  destruct (user a) as [u|]; [destruct (password a) as [p|]|]; try discriminate E.
  destruct (Shared.collectBlogData (yaml_config e)) as [blog|]; try discriminate E.
  destruct (getitem (w_post w) "author") as [an|]; try discriminate E.
  destruct (Shared.collectAuthorData e an a) as [au|]; try discriminate E.
  destruct (has_key "doi" (w_post w) && negb (force a)).
  - destruct (getitem (w_post w) "doi"); discriminate E.
  - injection E as <- <-. auto.
Qed.

(** With an identifier in the post and no force flag the steps up to the
    check never succeed. *)
Lemma prepare_existing_doi (e : env) (a : args) (w : world) :
  has_key "doi" (w_post w) = true -> force a = false ->
  exists ex w', Shared.prepare e a w = (Raise ex, w').
Proof.
  intros K F. destruct (Shared.prepare e a w) as [[x|ex] w'] eqn:P; [|eauto].
  apply prepare_Ok in P as [_ P]. rewrite K, F in P. discriminate.
Qed.

(** C7.  When the post already has a [doi] key and the force flag is
    absent, a run of either entry point ends in an exception with no
    request sent, no file written and the post record as it was loaded;
    when the credentials are given and the three documents load, that
    exception is the exit carrying the message that the DOI exists. *)
Theorem existing_doi_aborts (e : env) (a : args) :
  has_key "doi" (post_file e) = true -> force a = false ->
  (forall r w,
     Script.main e a (initial e) = (r, w) \/ Packaged.main e a (initial e) = (r, w) ->
     raises r /\ w_requests w = [] /\ w_written w = [] /\ w_post w = post_file e) /\
  (forall u p blog an au doi,
     user a = Some u -> password a = Some p ->
     Shared.collectBlogData (yaml_config e) = Ok blog ->
     lookup "author" (post_file e) = Some an ->
     Shared.collectAuthorData e an a = Ok au ->
     lookup "doi" (post_file e) = Some doi ->
     let stop := (Raise (SystemExit (Some (Shared.doi_exists_message doi))), initial e) in
     Script.main e a (initial e) = stop /\ Packaged.main e a (initial e) = stop).
Proof.
  intros K F. split.
  - destruct (prepare_existing_doi e a (initial e) K F) as (ex & w' & P).
    destruct (quiet_prepare e a _ _ _ P) as (Q1 & Q2 & Q3).
    intros r w [E|E]; unfold Script.main, Packaged.main in E;
      rewrite (bindM_Raise _ _ _ _ _ P) in E; injection E as <- <-;
      (split; [eexists; reflexivity | auto]).
  - intros u p blog an au doi U P B A L D stop.
    assert (R : Shared.prepare e a (initial e)
                = (Raise (SystemExit (Some (Shared.doi_exists_message doi))), initial e)).
    { unfold Shared.prepare, Shared.parseCredentials, bindM, lift, ret, raise, read_post,
        getitem.
      rewrite U, P, B. cbn [w_post initial]. rewrite A, L, K, F, D. reflexivity. }
    unfold Script.main, Packaged.main.
    split; apply bindM_Raise; exact R.
Qed.

(** C10.  No run of the packaged entry point returns, sends a request or
    writes a file; a run that passes the credential and existing-DOI
    checks, on a post with a string [title] and a configuration with
    [suffix_base] and [prefix], stores the generated identifier in the post
    record and stops at the call of [assembleMetadata], which lacks the
    fourth argument. *)
Theorem packaged_main_stops_at_assembly (e : env) (a : args) :
  (forall r w, Packaged.main e a (initial e) = (r, w) ->
     raises r /\ w_requests w = [] /\ w_written w = []) /\
  (forall u p blog au w1 title base prefix,
     Shared.prepare e a (initial e) = (Ok (u, p, blog, au), w1) ->
     lookup "title" (post_file e) = Some (VStr title) ->
     lookup "suffix_base" blog = Some base ->
     lookup "prefix" blog = Some prefix ->
     Packaged.main e a (initial e) =
     (Raise (TypeError
        "assembleMetadata() missing 1 required positional argument: 'additional_metadata'"),
      {| w_post := set_item "doi" (VStr (genDoi title (fmt base) (fmt prefix))) (post_file e);
         w_requests := []; w_written := []; w_stdout := [] |})).
Proof.
  split.
  - intros r w. unfold Packaged.main.
    destruct (Shared.prepare e a (initial e)) as [[[[[u p] blog] au]|ex] w1] eqn:P.
    + rewrite (bindM_run _ _ _ _ _ P).
      destruct (quiet_prepare e a _ _ _ P) as (_ & Q2 & Q3).
      cbn [initial w_requests w_written] in Q2, Q3.
      destruct (Shared.assign_doi blog w1) as [[[]|ex] w2] eqn:A;
        destruct (offline_assign_doi blog _ _ _ A) as (O2 & O3).
      * rewrite (bindM_run _ _ _ _ _ A). unfold bindM, read_post, lift. simpl.
        intros E. injection E as <- <-.
        split; [eexists; reflexivity|]. split; congruence.
      * rewrite (bindM_Raise _ _ _ _ _ A). intros E. injection E as <- <-.
        split; [eexists; reflexivity|]. split; congruence.
    + rewrite (bindM_Raise _ _ _ _ _ P). intros E. injection E as <- <-.
      destruct (quiet_prepare e a _ _ _ P) as (_ & Q2 & Q3).
      split; [eexists; reflexivity|]. auto.
  - intros u p blog au w1 title base prefix P T B X.
    pose proof (prepare_Ok _ _ _ _ _ P) as [-> _].
    unfold Packaged.main. rewrite (bindM_run _ _ _ _ _ P).
    unfold Shared.assign_doi, bindM, read_post, lift, post_setitem, getitem.
    cbn [w_post initial]. rewrite T, B, X. reflexivity.
Qed.

(** What the registration steps do when the run is not a dry run. *)
Lemma register_not_dry gp (e : env) (a : args) (u p : string) (blog json : dict)
    (w w' : world) (r : result nat) :
  dry_run a = false ->
  Shared.register gp e a u p blog json w = (r, w') ->
  raises r /\ w_written w' = w_written w /\
  (w_requests w' = w_requests w \/
   exists rq, w_requests w' = (w_requests w ++ [rq])%list /\
     forall resp, requests_put e rq = Ok resp -> r = Raise (NameError "debug")).
Proof.
  intros D. unfold Shared.register, Shared.registerMetadata, bindM, lift, put, unbound,
    raise, read_post. rewrite D.
  destruct (xmltodict_unparse json) as [xml|ex].
  2:{ intros E. injection E as <- <-. split; [eexists; reflexivity|]. auto. }
  destruct (getitem (w_post w) "doi") as [doi|ex].
  2:{ intros E. injection E as <- <-. split; [eexists; reflexivity|]. auto. }
  destruct (getitem blog "provider_url") as [url|ex].
  2:{ intros E. injection E as <- <-. split; [eexists; reflexivity|]. auto. }
  match goal with
  | |- context [requests_put e ?rq] => set (q := rq)
  end.
  destruct (requests_put e q) as [resp|ex] eqn:R; intros E; injection E as <- <-;
    (split; [eexists; reflexivity|]); (split; [reflexivity|]);
    right; exists q; (split; [reflexivity|]); intros resp' E'; congruence.
Qed.

(** C6, as the code has it.  In a run of the script that is not a dry run
    the status of the metadata response is never read: the test names
    [debug], which nothing binds.  Such a run never returns and writes no
    file; it sends at most the metadata request, and once the registry
    has answered that request, with whatever status, the run ends with
    [NameError]. *)
Theorem script_stops_after_metadata_request (e : env) (a : args) :
  dry_run a = false ->
  forall r w, Script.main e a (initial e) = (r, w) ->
    raises r /\ w_written w = [] /\
    (w_requests w = [] \/
     exists rq, w_requests w = [rq] /\
       forall resp, requests_put e rq = Ok resp -> r = Raise (NameError "debug")).
Proof.
  intros D r w. unfold Script.main.
  destruct (Shared.prepare e a (initial e)) as [[[[[u p] blog] au]|ex] w1] eqn:P;
    destruct (quiet_prepare e a _ _ _ P) as (_ & Q2 & Q3);
    cbn [initial w_requests w_written] in Q2, Q3.
  2:{ rewrite (bindM_Raise _ _ _ _ _ P). intros E. injection E as <- <-.
      split; [eexists; reflexivity|]. auto. }
  rewrite (bindM_run _ _ _ _ _ P).
  destruct (Shared.assign_doi blog w1) as [[[]|ex] w2] eqn:A;
    destruct (offline_assign_doi blog _ _ _ A) as (O2 & O3).
  2:{ rewrite (bindM_Raise _ _ _ _ _ A). intros E. injection E as <- <-.
      split; [eexists; reflexivity|]. split; [congruence|]. left. congruence. }
  rewrite (bindM_run _ _ _ _ _ A). unfold bindM at 1, read_post at 1.
  unfold bindM at 1, print_lines at 1.
  match goal with |- context [bindM (lift _) _ ?w0] => set (w3 := w0) end.
  assert (P2 : w_requests w3 = w_requests w2) by reflexivity.
  assert (P3 : w_written w3 = w_written w2) by reflexivity.
  clearbody w3.
  unfold bindM at 1, lift at 1.
  destruct (Script.assembleMetadata blog (w_post w2) au) as [json|ex].
  2:{ intros E. injection E as <- <-.
      split; [eexists; reflexivity|]. split; [congruence|]. left. congruence. }
  intros E. apply (register_not_dry _ _ _ _ _ _ _ _ _ _ D) in E as (R1 & R2 & R3).
  split; [exact R1|]. split; [congruence|].
  destruct R3 as [R3|(rq & R3 & R4)].
  - left. congruence.
  - right. exists rq. split; [|exact R4]. rewrite R3, P2, O2, Q2. reflexivity.
Qed.

End Workflow.

Lemma existing_doi_aborts_witness :
  @Script.main Sample.externals
    (Sample.environment Sample.post_with_doi true) (Sample.arguments false false)
    (initial (Sample.environment Sample.post_with_doi true))
  = (Raise (SystemExit (Some
       ("DOI already exists for blog post (10.1234/blog-SGVsbG). Launch with "
        ++ quote ++ "-f" ++ quote ++ " to force overwrite."))),
     initial (Sample.environment Sample.post_with_doi true)).
Proof.
  refine (proj1 (proj2 (@existing_doi_aborts Sample.externals
            (Sample.environment Sample.post_with_doi true) (Sample.arguments false false)
            eq_refl eq_refl)
          "user" "secret" Sample.blog (VStr "stephen") Sample.author
          (VStr "10.1234/blog-SGVsbG") eq_refl eq_refl _ eq_refl _ eq_refl));
    vm_compute; reflexivity.
Defined.

Lemma packaged_main_stops_at_assembly_witness :
  @Packaged.main Sample.externals
    (Sample.environment Sample.post true) (Sample.arguments false false)
    (initial (Sample.environment Sample.post true))
  = (Raise (TypeError
       "assembleMetadata() missing 1 required positional argument: 'additional_metadata'"),
     {| w_post := Sample.post_with_doi; w_requests := []; w_written := []; w_stdout := [] |}).
Proof.
  refine (proj2 (@packaged_main_stops_at_assembly Sample.externals
            (Sample.environment Sample.post true) (Sample.arguments false false))
          "user" "secret" Sample.blog Sample.author
          (initial (Sample.environment Sample.post true))
          "Hello World" (VStr "blog") (VStr "10.1234") _ eq_refl eq_refl eq_refl).
  vm_compute. reflexivity.
Defined.

(** The failing run of C6: the scenario of the specification, not a dry
    run, a registry that answers every request with an ok status. *)
Lemma script_stops_after_metadata_request_witness :
  exists r w,
    @Script.main Sample.externals
      (Sample.environment Sample.post true) (Sample.arguments false false)
      (initial (Sample.environment Sample.post true)) = (r, w) /\
    r = Raise (NameError "debug") /\
    w_written w = [] /\
    List.length (w_requests w) = 1.
Proof.
  destruct (@Script.main Sample.externals
              (Sample.environment Sample.post true) (Sample.arguments false false)
              (initial (Sample.environment Sample.post true))) as [r w] eqn:E.
  exists r, w. split; [reflexivity|].
  destruct (@script_stops_after_metadata_request Sample.externals
              (Sample.environment Sample.post true) (Sample.arguments false false)
              eq_refl r w E) as (_ & W & Q).
  vm_compute in E. injection E as <- <-.
  repeat split.
Defined.

(* ===================================================================== *)
(** * Further properties of the deep merge and of [extDict] *)
(* ===================================================================== *)

Lemma has_key_app (k : string) (d1 d2 : dict) :
  has_key k (d1 ++ d2)%list = has_key k d1 || has_key k d2.
Proof.
  unfold has_key. induction d1 as [|[k' v] r IH]; simpl; [reflexivity|].
  destruct (String.eqb k k'); [reflexivity | exact IH].
Qed.

Lemma set_item_fresh (k : string) (v : value) (d : dict) :
  has_key k d = false -> set_item k v d = (d ++ [(k, v)])%list.
Proof.
  unfold has_key. induction d as [|[k' v'] r IH]; simpl; [reflexivity|].
  destruct (String.eqb k k'); [discriminate|]. intros E. now rewrite IH.
Qed.

Lemma keys_set_item (k : string) (v : value) (d : dict) :
  map fst (set_item k v d) =
  if has_key k d then map fst d else (map fst d ++ [k])%list.
Proof.
  unfold has_key. induction d as [|[k' v'] r IH]; simpl; [reflexivity|].
  destruct (String.eqb k k'); simpl; [reflexivity|].
  rewrite IH. now destruct (lookup k r).
Qed.

Lemma keys_merge_key (dst : dict) (k : string) (sv : value) :
  map fst (MergeDeep.merge_key dst k sv) =
  if has_key k dst then map fst dst else (map fst dst ++ [k])%list.
Proof.
  unfold MergeDeep.merge_key.
  destruct (lookup k dst) as [[| | |d]|] eqn:E; destruct sv; apply keys_set_item.
Qed.

Lemma merge_key_fresh (dst : dict) (k : string) (sv : value) :
  has_key k dst = false -> MergeDeep.merge_key dst k sv = (dst ++ [(k, sv)])%list.
Proof.
  intros K. unfold MergeDeep.merge_key.
  rewrite (proj1 (has_key_false _ _) K). now apply set_item_fresh.
Qed.

(** X1.  Merging a mapping with distinct keys into a record that binds none
    of them appends it as it is, so merging into the empty record copies
    the source, order included. *)
Theorem merge_disjoint_appends (src dst : dict) :
  unique_keys src = true ->
  (forall k, has_key k src = true -> has_key k dst = false) ->
  MergeDeep.merge dst src = (dst ++ src)%list.
Proof.
  revert dst. induction src as [|[k v] r IH]; intros dst U D.
  - rewrite merge_nil. now rewrite app_nil_r.
  - rewrite merge_cons. simpl in U. apply andb_true_iff in U as [U1 U2].
    assert (Kd : has_key k dst = false).
    { apply D. unfold has_key. simpl. now rewrite String.eqb_refl. }
    rewrite (merge_key_fresh _ _ _ Kd), IH; [now rewrite <- app_assoc | exact U2 |].
    intros k' K'. rewrite has_key_app.
    assert (N : k' <> k).
    { intros ->. rewrite K' in U1. discriminate. }
    replace (has_key k' [(k, v)]) with false.
    + rewrite orb_false_r. apply D. unfold has_key in *. simpl.
      destruct (String.eqb_spec k' k); [contradiction | exact K'].
    + unfold has_key. simpl. now destruct (String.eqb_spec k' k).
Qed.

Lemma merge_disjoint_appends_witness :
  MergeDeep.merge [] Sample.fixed = Sample.fixed.
Proof.
  apply (merge_disjoint_appends Sample.fixed []); [reflexivity|].
  intros k _. reflexivity.
Defined.

(** X2.  A merge keeps the keys of the target in their order and appends,
    in the order of the source, the keys the target did not bind. *)
Theorem merge_keeps_key_order (src dst : dict) :
  unique_keys src = true ->
  map fst (MergeDeep.merge dst src) =
  (map fst dst ++ filter (fun k => negb (has_key k dst)) (map fst src))%list.
Proof.
  revert dst. induction src as [|[k v] r IH]; intros dst U.
  - rewrite merge_nil. simpl. now rewrite app_nil_r.
  - rewrite merge_cons. simpl in U. apply andb_true_iff in U as [U1 U2].
    rewrite (IH _ U2), keys_merge_key. cbn [map fst filter].
    assert (F : filter (fun k0 => negb (has_key k0 (MergeDeep.merge_key dst k v))) (map fst r)
                = filter (fun k0 => negb (has_key k0 dst)) (map fst r)).
    { apply filter_ext_in. intros k' I. rewrite has_key_merge_key.
      destruct (String.eqb_spec k k') as [<-|N]; [|reflexivity].
      exfalso. apply in_map_iff in I as ([k0 v0] & E0 & I). simpl in E0. subst k0.
      assert (has_key k r = true).
      { clear -I. unfold has_key. induction r as [|[k1 v1] r IH]; [destruct I|].
        simpl. destruct (String.eqb k k1) eqn:E; [reflexivity|].
        destruct I as [I|I]; [injection I as -> _; now rewrite String.eqb_refl in E | auto]. }
      rewrite H in U1. discriminate. }
    rewrite F. destruct (has_key k dst); simpl; [reflexivity|].
    now rewrite <- app_assoc.
Qed.

Lemma merge_keeps_key_order_witness :
  map fst (MergeDeep.merge Sample.fixed
             [("version", VStr "2.0"); ("alternateIdentifiers", VNone)])
  = (canonical_keys ++ ["alternateIdentifiers"])%list.
Proof.
  rewrite (merge_keeps_key_order
             [("version", VStr "2.0"); ("alternateIdentifiers", VNone)] Sample.fixed eq_refl).
  reflexivity.
Defined.

(** X3.  For a mapping with distinct keys, the operator [&] of [extDict]
    gives the mapping that [&=] leaves in its left operand. *)
Theorem extDict_and_is_iand (self other : dict) :
  unique_keys self = true ->
  ExtDict.__and__ self other = ExtDict.__iand__ self other.
Proof.
  intros U. unfold ExtDict.__and__, ExtDict.__iand__.
  rewrite (merge_disjoint_appends self [] U); [reflexivity|]. intros; reflexivity.
Qed.

Lemma extDict_and_is_iand_witness :
  ExtDict.__and__ Sample.author [("name", VStr "S. King")]
  = ExtDict.__iand__ Sample.author [("name", VStr "S. King")].
Proof. apply extDict_and_is_iand. reflexivity. Defined.

(** X4.  [setLogging] never indexes outside its list of levels: a count of
    0, 1 or 2 selects ERROR, WARNING or INFO and every count from 3 on
    selects DEBUG. *)
Theorem setLogging_in_range (verbose : nat) :
  exists level, setLogging verbose = Some level /\
    (verbose = 0 -> level = ERROR) /\ (verbose = 1 -> level = WARNING) /\
    (verbose = 2 -> level = INFO) /\ (3 <= verbose -> level = DEBUG).
Proof.
  unfold setLogging. cbn [logging_levels List.length Nat.sub].
  destruct (Nat.le_gt_cases 3 verbose) as [G|G].
  - rewrite (Nat.min_r verbose 3 G). exists DEBUG.
    repeat split; intros; try lia; reflexivity.
  - destruct verbose as [|[|[|n]]]; [| | |lia]; cbn; eexists;
      (split; [reflexivity|]); repeat split; intros; try lia; try discriminate; reflexivity.
Qed.

(** Induction over values that reaches the members of lists and mappings. *)
Lemma value_nested_ind (P : value -> Prop) :
  P VNone -> (forall s, P (VStr s)) ->
  (forall l, Forall P l -> P (VList l)) ->
  (forall d, Forall (fun kv => P (snd kv)) d -> P (VDict d)) ->
  forall v, P v.
Proof.
  intros HN HS HL HD. fix F 1. intros [|s|l|d].
  - exact HN.
  - apply HS.
  - apply HL. revert l. fix G 1. intros [|x r].
    + constructor.
    + constructor; [apply F | apply G].
  - apply HD. revert d. fix G 1. intros [|[k x] r].
    + constructor.
    + constructor; [apply F | apply G].
Qed.

Lemma set_item_same (k : string) (v : value) (d : dict) :
  lookup k d = Some v -> set_item k v d = d.
Proof.
  induction d as [|[k' v'] r IH]; simpl; [discriminate|].
  destruct (String.eqb_spec k k') as [->|N]; intros E.
  - now injection E as ->.
  - now rewrite IH.
Qed.

Lemma lookup_in_unique (k : string) (v : value) (d : dict) :
  unique_keys d = true -> In (k, v) d -> lookup k d = Some v.
Proof.
  induction d as [|[k' v'] r IH]; simpl; [contradiction|].
  intros U I. apply andb_true_iff in U as [U1 U2].
  destruct I as [I|I].
  - injection I as -> ->. now rewrite String.eqb_refl.
  - destruct (String.eqb_spec k k') as [->|N]; [|auto].
    unfold has_key in U1. rewrite (IH U2 I) in U1. discriminate.
Qed.

(** Merging a well-formed mapping into itself changes nothing. *)
Lemma merge_self (v : value) :
  wf v = true -> forall s, v = VDict s -> MergeDeep.merge s s = s.
Proof.
  induction v as [|t|l _|d IH] using value_nested_ind; intros W s E; try discriminate.
  injection E as <-.
  assert (G : forall l, (forall k x, In (k, x) l -> In (k, x) d) ->
                MergeDeep.merge d l = d).
  { induction l as [|[k x] r IHl]; intros Sub; [apply merge_nil|].
    rewrite merge_cons.
    assert (I : In (k, x) d) by (apply Sub; now left).
    pose proof (lookup_in_unique _ _ _ (wf_unique _ W) I) as Lk.
    assert (MergeDeep.merge_key d k x = d) as ->.
    { unfold MergeDeep.merge_key. rewrite Lk.
      destruct x as [| | |ss]; try (now apply set_item_same).
      rewrite Forall_forall in IH. specialize (IH _ I). simpl in IH.
      rewrite (IH (wf_lookup _ _ _ W Lk) ss eq_refl). now apply set_item_same. }
    apply IHl. intros k' x' I'. apply Sub. now right. }
  apply G. auto.
Qed.

(** A second merge of the same well-formed override changes nothing. *)
Lemma merge_twice (v : value) :
  wf v = true -> forall s, v = VDict s ->
  forall dst, MergeDeep.merge (MergeDeep.merge dst s) s = MergeDeep.merge dst s.
Proof.
  induction v as [|t|l _|d IH] using value_nested_ind; intros W s E dst; try discriminate.
  injection E as <-.
  set (m := MergeDeep.merge dst d).
  assert (G : forall l, (forall k x, In (k, x) l -> In (k, x) d) ->
                MergeDeep.merge m l = m).
  { induction l as [|[k x] r IHl]; intros Sub; [apply merge_nil|].
    rewrite merge_cons.
    assert (I : In (k, x) d) by (apply Sub; now left).
    pose proof (lookup_in_unique _ _ _ (wf_unique _ W) I) as Lk.
    pose proof (lookup_merge_present d dst k x (wf_unique _ W) Lk) as Lm.
    fold m in Lm.
    assert (MergeDeep.merge_key m k x = m) as ->.
    { unfold MergeDeep.merge_key. rewrite Lm.
      rewrite Forall_forall in IH. specialize (IH _ I). simpl in IH.
      pose proof (wf_lookup _ _ _ W Lk) as Wx.
      destruct (lookup k dst) as [[| | |dd]|]; destruct x as [| | |ss];
        try (now apply set_item_same).
      - rewrite (merge_self _ Wx ss eq_refl). now apply set_item_same.
      - rewrite (merge_self _ Wx ss eq_refl). now apply set_item_same.
      - rewrite (merge_self _ Wx ss eq_refl). now apply set_item_same.
      - rewrite (IH Wx ss eq_refl dd). now apply set_item_same.
      - rewrite (merge_self _ Wx ss eq_refl). now apply set_item_same. }
    apply IHl. intros k' x' I'. apply Sub. now right. }
  apply G. auto.
Qed.

(** X5.  The deep merge is idempotent in its source: merging a well-formed
    override a second time leaves the record as the first merge made it,
    and merging a well-formed mapping into itself leaves it unchanged. *)
Theorem merge_idempotent (dst src : dict) :
  wf (VDict src) = true ->
  MergeDeep.merge (MergeDeep.merge dst src) src = MergeDeep.merge dst src /\
  MergeDeep.merge src src = src.
Proof.
  intros W. split.
  - now apply (merge_twice (VDict src)).
  - now apply (merge_self (VDict src)).
Qed.

Lemma merge_idempotent_witness :
  let override := [("creators", MergeDeep.nest ["creator"; "givenName"] (VStr "Steve"))] in
  MergeDeep.merge (MergeDeep.merge Sample.fixed override) override
  = MergeDeep.merge Sample.fixed override.
Proof.
  intros override.
  apply (proj1 (merge_idempotent Sample.fixed override eq_refl)).
Defined.

(* ===================================================================== *)
(** * Further properties of the assembler *)
(* ===================================================================== *)

Lemma keys_merge_extend (src dst : dict) :
  exists added, map fst (MergeDeep.merge dst src) = (map fst dst ++ added)%list.
Proof.
  revert dst. induction src as [|[k v] r IH]; intros dst.
  - exists []. rewrite merge_nil. now rewrite app_nil_r.
  - rewrite merge_cons. destruct (IH (MergeDeep.merge_key dst k v)) as (added & ->).
    rewrite keys_merge_key. destruct (has_key k dst); [eauto|].
    exists (k :: added). now rewrite <- app_assoc.
Qed.

Section AssemblerMore.
Context `{Externals}.
Import Metadata MergeDeep.

(** The ten sections that read their input, and the record they make. *)
Lemma fixed_sections_parts (data_blog data_post data_author data : dict) :
  fixed_sections data_blog data_post data_author = Ok data ->
  exists s1 s2 s3 s4 s5 s6 s7 s8 s9 s10,
    getMdIdentifier data_post = Ok s1 /\
    getMdCreators data_blog data_author = Ok s2 /\
    getMdTitles data_post = Ok s3 /\
    getMdPublicationYear data_post = Ok s4 /\
    getMdPublisher data_blog = Ok s5 /\
    getMdVersion data_post = Ok s6 /\
    getMdRightsList data_post = Ok s7 /\
    getMdSubjects data_post = Ok s8 /\
    getMdDescriptions data_post = Ok s9 /\
    getMdRelToBlog data_blog = Ok s10 /\
    data = update (update (update (update (update (update (update (update (update
             (update (update (update (update (update [] getMdSchema) s1) s2) s3) s4) s5)
             getMdResourceType) getMdLanguage) getMdFormats) s6) s7) s8) s9) s10.
Proof.
  unfold fixed_sections. intros E.
  apply bind_Ok in E as (d1 & E1 & E). apply ior_Ok in E1 as (s1 & S1 & ->).
  apply bind_Ok in E as (d2 & E2 & E). apply ior_Ok in E2 as (s2 & S2 & ->).
  apply bind_Ok in E as (d3 & E3 & E). apply ior_Ok in E3 as (s3 & S3 & ->).
  apply bind_Ok in E as (d4 & E4 & E). apply ior_Ok in E4 as (s4 & S4 & ->).
  apply bind_Ok in E as (d5 & E5 & E). apply ior_Ok in E5 as (s5 & S5 & ->).
  apply bind_Ok in E as (d6 & E6 & E). apply ior_Ok in E6 as (s6 & S6 & ->).
  apply bind_Ok in E as (d7 & E7 & E). apply ior_Ok in E7 as (s7 & S7 & ->).
  apply bind_Ok in E as (d8 & E8 & E). apply ior_Ok in E8 as (s8 & S8 & ->).
  apply bind_Ok in E as (d9 & E9 & E). apply ior_Ok in E9 as (s9 & S9 & ->).
  apply ior_Ok in E as (s10 & S10 & ->).
  exists s1, s2, s3, s4, s5, s6, s7, s8, s9, s10. repeat split; assumption.
Qed.

Lemma script_sections_parts (data_blog data_post data_author r : dict) :
  Script.assembleMetadata data_blog data_post data_author = Ok r ->
  exists s1 s2 s3 s4 s5 s6 s7 s8 s9,
    getMdIdentifier data_post = Ok s1 /\
    getMdCreators data_blog data_author = Ok s2 /\
    getMdTitles data_post = Ok s3 /\
    getMdPublicationYear data_post = Ok s4 /\
    getMdPublisher data_blog = Ok s5 /\
    getMdVersion data_post = Ok s6 /\
    Script.getMdRightsList data_post = Ok s7 /\
    getMdSubjects data_post = Ok s8 /\
    getMdDescriptions data_post = Ok s9 /\
    r = [("resource", VDict
          (update (update (update (update (update (update (update (update (update
             (update (update (update (update [] getMdSchema) s1) s2) s3) s4) s5)
             getMdResourceType) getMdLanguage) getMdFormats) s6) s7) s8) s9))].
Proof.
  unfold Script.assembleMetadata. intros E.
  apply bind_Ok in E as (d1 & E1 & E). apply ior_Ok in E1 as (s1 & S1 & ->).
  apply bind_Ok in E as (d2 & E2 & E). apply ior_Ok in E2 as (s2 & S2 & ->).
  apply bind_Ok in E as (d3 & E3 & E). apply ior_Ok in E3 as (s3 & S3 & ->).
  apply bind_Ok in E as (d4 & E4 & E). apply ior_Ok in E4 as (s4 & S4 & ->).
  apply bind_Ok in E as (d5 & E5 & E). apply ior_Ok in E5 as (s5 & S5 & ->).
  apply bind_Ok in E as (d6 & E6 & E). apply ior_Ok in E6 as (s6 & S6 & ->).
  apply bind_Ok in E as (d7 & E7 & E). apply ior_Ok in E7 as (s7 & S7 & ->).
  apply bind_Ok in E as (d8 & E8 & E). apply ior_Ok in E8 as (s8 & S8 & ->).
  apply bind_Ok in E as (d9 & E9 & E). apply ior_Ok in E9 as (s9 & S9 & ->).
  injection E as <-.
  exists s1, s2, s3, s4, s5, s6, s7, s8, s9. repeat split; assumption.
Qed.

Lemma getMdRelToBlog_cases (data_blog s : dict) :
  getMdRelToBlog data_blog = Ok s ->
  (has_key "doi" data_blog = false /\ s = []) \/
  (exists doi, lookup "doi" data_blog = Some doi /\
     s = [("relatedIdentifiers", VDict [("relatedIdentifier", VDict
            [("@relatedIdentifierType", VStr "DOI"); ("@relationType", VStr "IsPartOf");
             ("#text", doi)])])]).
Proof.
  unfold getMdRelToBlog, getitem. destruct (has_key "doi" data_blog) eqn:K; intros E.
  - right. destruct (lookup "doi" data_blog); [|discriminate].
    simpl in E. injection E as <-. eauto.
  - left. injection E as <-. auto.
Qed.

Lemma getMdVersion_cases (data_post s : dict) :
  getMdVersion data_post = Ok s ->
  s = [("version", match lookup "version" data_post with
                   | Some v => v
                   | None => VStr "1.0"
                   end)].
Proof.
  unfold getMdVersion, getitem, has_key.
  destruct (lookup "version" data_post); simpl; intros E; now injection E as <-.
Qed.

(** The fixed sections with the optional ones spelled out. *)
Lemma fixed_sections_detail (data_blog data_post data_author data : dict) :
  fixed_sections data_blog data_post data_author = Ok data ->
  map fst data =
    (canonical_keys
     ++ (if has_key "abstract" data_post then ["descriptions"] else [])
     ++ (if has_key "doi" data_blog then ["relatedIdentifiers"] else []))%list /\
  lookup "version" data =
    Some (match lookup "version" data_post with Some v => v | None => VStr "1.0" end) /\
  lookup "relatedIdentifiers" data =
    match lookup "doi" data_blog with
    | Some doi =>
        Some (VDict [("relatedIdentifier", VDict
                [("@relatedIdentifierType", VStr "DOI"); ("@relationType", VStr "IsPartOf");
                 ("#text", doi)])])
    | None => None
    end.
Proof.
  intros E.
  apply fixed_sections_parts in E
    as (s1 & s2 & s3 & s4 & s5 & s6 & s7 & s8 & s9 & s10 &
        S1 & S2 & S3 & S4 & S5 & S6 & S7 & S8 & S9 & S10 & ->).
  apply getMdIdentifier_Ok in S1 as (doi & ->).
  apply getMdCreators_Ok in S2 as (creator & ->).
  apply getMdTitles_Ok in S3 as (title & ->).
  apply getMdPublicationYear_Ok in S4 as (year & ->).
  apply getMdPublisher_Ok in S5 as (publisher & ->).
  apply getMdVersion_cases in S6 as ->.
  apply getMdRightsList_Ok in S7 as (rights & _ & ->).
  apply getMdSubjects_Ok in S8 as (subject & ->).
  apply getMdDescriptions_Ok in S9 as [[A ->]|(abstract & A & ->)];
    apply getMdRelToBlog_cases in S10 as [[B ->]|(bdoi & B & ->)];
    try (rewrite A); try (rewrite (proj1 (has_key_false _ _) B));
    try (unfold has_key at 1; rewrite A); try (unfold has_key; rewrite B);
    try (rewrite B); repeat split; reflexivity.
Qed.

(** X6.  The fourteen canonical keys open every assembled record, in the
    order of insertion; the descriptions and related-identifier sections
    follow when the post has an abstract and the blog a DOI; the override
    layers change no position and only append keys. *)
Theorem assembled_key_order
    (data_blog data_post data_author r : dict) (additional_metadata : value) :
  assembleMetadata data_blog data_post data_author additional_metadata = Ok r ->
  exists data added,
    r = [("resource", VDict data)] /\
    map fst data =
      (canonical_keys
       ++ (if has_key "abstract" data_post then ["descriptions"] else [])
       ++ (if has_key "doi" data_blog then ["relatedIdentifiers"] else [])
       ++ added)%list.
Proof.
  intros E. apply assembleMetadata_Ok in E as (data0 & a & b & F & -> & _ & _).
  apply fixed_sections_detail in F as (K & _ & _).
  destruct (keys_merge_extend a data0) as (add1 & E1).
  destruct (keys_merge_extend b (merge data0 a)) as (add2 & E2).
  exists (merge (merge data0 a) b), (add1 ++ add2)%list. split; [reflexivity|].
  rewrite E2, E1, K. now rewrite <- !app_assoc.
Qed.

(** X7.  Unless an override layer binds [version], the record's version is
    the post's [version], or 1.0 when the post has none. *)
Theorem version_defaults_to_1_0
    (data_blog data_post data_author r : dict) (additional_metadata : value) :
  assembleMetadata data_blog data_post data_author additional_metadata = Ok r ->
  layer_binds "version" additional_metadata = false ->
  post_layer_binds "version" data_post = false ->
  lookup_path ["resource"; "version"] (VDict r) =
  Some (match lookup "version" data_post with Some v => v | None => VStr "1.0" end).
Proof.
  intros E Na Nb. apply assembleMetadata_Ok in E as (data0 & a & b & F & -> & Ka & Kb).
  apply fixed_sections_detail in F as (_ & V & _).
  rewrite Ka in Na. rewrite Kb in Nb.
  cbn [lookup_path lookup]. rewrite String.eqb_refl.
  rewrite lookup_two_layers by assumption. now rewrite V.
Qed.

(** X8.  Unless an override layer binds [relatedIdentifiers], the record
    has that section exactly when the blog configuration has a [doi], and
    the section then links the post to that DOI as IsPartOf. *)
Theorem related_identifier_iff_blog_doi
    (data_blog data_post data_author r : dict) (additional_metadata : value) :
  assembleMetadata data_blog data_post data_author additional_metadata = Ok r ->
  layer_binds "relatedIdentifiers" additional_metadata = false ->
  post_layer_binds "relatedIdentifiers" data_post = false ->
  lookup_path ["resource"; "relatedIdentifiers"] (VDict r) =
  match lookup "doi" data_blog with
  | Some doi =>
      Some (VDict [("relatedIdentifier", VDict
              [("@relatedIdentifierType", VStr "DOI"); ("@relationType", VStr "IsPartOf");
               ("#text", doi)])])
  | None => None
  end.
Proof.
  intros E Na Nb. apply assembleMetadata_Ok in E as (data0 & a & b & F & -> & Ka & Kb).
  apply fixed_sections_detail in F as (_ & _ & R).
  rewrite Ka in Na. rewrite Kb in Nb.
  cbn [lookup_path lookup]. rewrite String.eqb_refl.
  rewrite lookup_two_layers by assumption. rewrite R.
  now destruct (lookup "doi" data_blog).
Qed.

End AssemblerMore.

Lemma assembled_key_order_witness :
  exists data added,
    Sample.record_abstract = [("resource", VDict data)] /\
    map fst data = (canonical_keys ++ ["descriptions"] ++ [] ++ added)%list.
Proof.
  apply (@assembled_key_order Sample.externals
           Sample.blog Sample.post_abstract Sample.author Sample.record_abstract VNone).
  vm_compute. reflexivity.
Defined.

Lemma version_defaults_to_1_0_witness :
  lookup_path ["resource"; "version"] (VDict Sample.record_abstract) = Some (VStr "1.0").
Proof.
  apply (@version_defaults_to_1_0 Sample.externals
           Sample.blog Sample.post_abstract Sample.author Sample.record_abstract VNone);
    vm_compute; reflexivity.
Defined.

Lemma related_identifier_iff_blog_doi_witness :
  lookup_path ["resource"; "relatedIdentifiers"] (VDict Scenario.record_in_blog)
  = Some (VDict [("relatedIdentifier", VDict
            [("@relatedIdentifierType", VStr "DOI"); ("@relationType", VStr "IsPartOf");
             ("#text", VStr "10.1234/blog")])]).
Proof.
  refine (eq_trans (@related_identifier_iff_blog_doi Sample.externals
                      Scenario.blog_with_doi Sample.post_abstract Sample.author
                      Scenario.record_in_blog VNone _ _ _) _);
    vm_compute; reflexivity.
Defined.

Section AssemblerErrors.
Context `{Externals}.
Import Metadata MergeDeep.

Lemma merge_call_layer_ok (data : dict) (layer : value) :
  layer_ok layer = true ->
  exists s, addAdditionalMetadata layer = VDict s /\
            merge_call data (addAdditionalMetadata layer) = Ok (merge data s).
Proof.
  unfold layer_ok. destruct (addAdditionalMetadata layer) as [| | |s]; try discriminate.
  intros _. exists s. auto.
Qed.

(** X9.  [assembleMetadata] returns a record whenever the post has [doi],
    [title], a [date] string the parser accepts and a [tags] string, the
    author has its four keys, the blog has [affiliation] and [publisher],
    the license is absent or known, and each override layer is a mapping
    or a value [addAdditionalMetadata] replaces by the empty mapping. *)
Theorem assembleMetadata_returns (data_blog data_post data_author : dict)
    (additional_metadata doi name first_name last_name orcid_id affiliation title
       publisher rights : value)
    (date tags : string) (d : datetime) :
  lookup "doi" data_post = Some doi ->
  lookup "name" data_author = Some name ->
  lookup "first_name" data_author = Some first_name ->
  lookup "last_name" data_author = Some last_name ->
  lookup "orcid_id" data_author = Some orcid_id ->
  lookup "affiliation" data_blog = Some affiliation ->
  lookup "title" data_post = Some title ->
  lookup "date" data_post = Some (VStr date) ->
  dateparser_parse date = Some d ->
  lookup "publisher" data_blog = Some publisher ->
  parseLicense data_post = Ok rights ->
  lookup "tags" data_post = Some (VStr tags) ->
  layer_ok additional_metadata = true ->
  (forall extra, lookup "doi-additional-metadata" data_post = Some extra ->
                 layer_ok extra = true) ->
  exists data,
    assembleMetadata data_blog data_post data_author additional_metadata
    = Ok [("resource", VDict data)].
Proof.
  intros Edoi En Ef El Eo Ea Et Ed Ep Epu Er Eta La Lb.
  destruct (fixed_sections_total _ _ _ _ _ _ _ _ _ _ _ _ _ _ _
              Edoi En Ef El Eo Ea Et Ed Ep Epu Er Eta)
    as (creator & version & descriptions & related & F & _ & _).
  set (base := fixed_record doi creator title (strftime_Y d) publisher version rights
                 (VList (map VStr (split_ws tags))) descriptions related) in *.
  destruct (merge_call_layer_ok base _ La) as (a & _ & Ma).
  unfold assembleMetadata, apply_overrides. rewrite F. cbn [Py.bind]. rewrite Ma.
  cbn [Py.bind]. unfold has_key at 1, getitem.
  destruct (lookup "doi-additional-metadata" data_post) as [extra|] eqn:X.
  - destruct (merge_call_layer_ok (merge base a) _ (Lb _ eq_refl)) as (b & _ & Mb).
    cbn [Py.bind]. rewrite Mb. eexists. reflexivity.
  - eexists. reflexivity.
Qed.

(** X10.  A post without [doi] makes both copies of [assembleMetadata] raise
    [KeyError] for [doi], whatever else the inputs hold: the identifier
    has to be stored in the post before the record is assembled. *)
Theorem assembly_needs_the_identifier
    (data_blog data_post data_author : dict) (additional_metadata : value) :
  lookup "doi" data_post = None ->
  assembleMetadata data_blog data_post data_author additional_metadata
    = Raise (KeyError "doi") /\
  Script.assembleMetadata data_blog data_post data_author = Raise (KeyError "doi").
Proof.
  intros E.
  unfold assembleMetadata, fixed_sections, Script.assembleMetadata, ior, getMdIdentifier,
    getitem.
  rewrite E. split; reflexivity.
Qed.

(** X11.  A post whose [date] the parser does not recognise makes both
    copies of [assembleMetadata] raise; no record is returned. *)
Theorem unparseable_date_is_fatal
    (data_blog data_post data_author : dict) (additional_metadata : value) (date : string) :
  lookup "date" data_post = Some (VStr date) ->
  dateparser_parse date = None ->
  raises (assembleMetadata data_blog data_post data_author additional_metadata) /\
  raises (Script.assembleMetadata data_blog data_post data_author).
Proof.
  intros D P.
  assert (Y : forall s, getMdPublicationYear data_post <> Ok s).
  { intros s. unfold getMdPublicationYear, getitem. rewrite D. simpl. rewrite P. discriminate. }
  split.
  - destruct (assembleMetadata _ _ _ _) as [r|ex] eqn:E; [|eexists; reflexivity].
    apply assembleMetadata_Ok in E as (data0 & _ & _ & F & _).
    apply fixed_sections_parts in F as (? & ? & ? & s4 & ? & ? & ? & ? & ? & ? &
                                        _ & _ & _ & S4 & _).
    now destruct (Y s4).
  - destruct (Script.assembleMetadata _ _ _) as [r|ex] eqn:E; [|eexists; reflexivity].
    apply script_sections_parts in E as (? & ? & ? & s4 & ? & ? & ? & ? & ? &
                                         _ & _ & _ & S4 & _).
    now destruct (Y s4).
Qed.

(** X12.  A post whose [license] is a string outside the table makes both
    copies of [assembleMetadata] raise; no record is returned. *)
Theorem unknown_license_is_fatal
    (data_blog data_post data_author : dict) (additional_metadata : value) (s : string) :
  lookup "license" data_post = Some (VStr s) ->
  license_case (lower s) = None ->
  raises (assembleMetadata data_blog data_post data_author additional_metadata) /\
  raises (Script.assembleMetadata data_blog data_post data_author).
Proof.
  intros L C.
  assert (K : has_key "license" data_post = true) by (unfold has_key; now rewrite L).
  assert (Y : forall x, getMdRightsList data_post <> Ok x).
  { intros x. unfold getMdRightsList, parseLicense, getitem. rewrite K, L. simpl.
    rewrite C. discriminate. }
  assert (Z : forall x, Script.getMdRightsList data_post <> Ok x).
  { intros x. unfold Script.getMdRightsList, Script.parseLicense, getitem. rewrite K, L.
    simpl. rewrite C. discriminate. }
  split.
  - destruct (assembleMetadata _ _ _ _) as [r|ex] eqn:E; [|eexists; reflexivity].
    apply assembleMetadata_Ok in E as (data0 & _ & _ & F & _).
    apply fixed_sections_parts in F as (? & ? & ? & ? & ? & ? & s7 & ? & ? & ? &
                                        _ & _ & _ & _ & _ & _ & S7 & _).
    now destruct (Y s7).
  - destruct (Script.assembleMetadata _ _ _) as [r|ex] eqn:E; [|eexists; reflexivity].
    apply script_sections_parts in E as (? & ? & ? & ? & ? & ? & s7 & ? & ? &
                                         _ & _ & _ & _ & _ & _ & S7 & _).
    now destruct (Z s7).
Qed.

(** X13.  An override that is a non-empty string makes [assembleMetadata]
    raise [TypeError] once the fixed sections are built, and an override
    that is [None], the empty string, the empty list or the empty mapping
    is ignored: the record is the one assembled with the empty mapping. *)
Theorem override_must_be_a_mapping
    (data_blog data_post data_author data : dict) :
  fixed_sections data_blog data_post data_author = Ok data ->
  (forall c s, exists msg,
     assembleMetadata data_blog data_post data_author (VStr (String c s))
     = Raise (TypeError msg)) /\
  (forall additional_metadata,
     In additional_metadata [VNone; VStr ""; VList []; VDict []] ->
     assembleMetadata data_blog data_post data_author additional_metadata
     = assembleMetadata data_blog data_post data_author (VDict [])).
Proof.
  intros F. split.
  - intros c s. unfold assembleMetadata, apply_overrides, addAdditionalMetadata.
    rewrite F. eexists. reflexivity.
  - intros am [<-|[<-|[<-|[<-|[]]]]]; reflexivity.
Qed.

(** X14.  For a blog without [doi], a post without embedded override and an
    absent or empty [additional_metadata], the package's assembler returns
    a record exactly when the script's does, and the same one. *)
Theorem package_assembler_extends_script
    (data_blog data_post data_author r : dict) (additional_metadata : value) :
  has_key "doi" data_blog = false ->
  has_key "doi-additional-metadata" data_post = false ->
  truthy additional_metadata = false ->
  (assembleMetadata data_blog data_post data_author additional_metadata = Ok r <->
   Script.assembleMetadata data_blog data_post data_author = Ok r).
Proof.
  intros B X T.
  assert (R : forall x, getMdRightsList data_post = Ok x <->
                        Script.getMdRightsList data_post = Ok x).
  { intros x. unfold getMdRightsList, Script.getMdRightsList, parseLicense,
      Script.parseLicense.
    destruct (negb (has_key "license" data_post)); [reflexivity|].
    destruct (getitem data_post "license") as [v|]; [|reflexivity]. cbn [Py.bind].
    destruct (lower_value v) as [c|]; [|reflexivity]. cbn [Py.bind].
    destruct (license_case c) as [[? ?]|]; [reflexivity|]. split; discriminate. }
  assert (Rel : getMdRelToBlog data_blog = Ok []).
  { unfold getMdRelToBlog. now rewrite B. }
  split; intros E.
  - unfold assembleMetadata, apply_overrides, addAdditionalMetadata in E.
    rewrite T, X in E. apply bind_Ok in E as (data0 & F & E).
    cbn [merge_call Py.bind] in E. rewrite merge_nil in E. injection E as <-.
    apply fixed_sections_parts in F
      as (s1 & s2 & s3 & s4 & s5 & s6 & s7 & s8 & s9 & s10 &
          S1 & S2 & S3 & S4 & S5 & S6 & S7 & S8 & S9 & S10 & ->).
    rewrite Rel in S10. injection S10 as <-. apply R in S7.
    unfold Script.assembleMetadata.
    rewrite S1, S2, S3, S4, S5, S6, S7, S8, S9. reflexivity.
  - apply script_sections_parts in E
      as (s1 & s2 & s3 & s4 & s5 & s6 & s7 & s8 & s9 &
          S1 & S2 & S3 & S4 & S5 & S6 & S7 & S8 & S9 & ->).
    apply R in S7.
    unfold assembleMetadata, apply_overrides, addAdditionalMetadata, fixed_sections.
    rewrite T, X, S1, S2, S3, S4, S5, S6, S7, S8, S9, Rel. reflexivity.
Qed.

End AssemblerErrors.

Lemma assembleMetadata_returns_witness :
  exists data,
    @Metadata.assembleMetadata Sample.externals
      Sample.blog Sample.post_versioned Sample.author (VStr "")
    = Ok [("resource", VDict data)].
Proof.
  apply (@assembleMetadata_returns Sample.externals
           Sample.blog Sample.post_versioned Sample.author (VStr "")
           (VStr "10.1234/blog-SGVsbG") (VStr "Stephen King") (VStr "Stephen") (VStr "King")
           (VStr "0000-0000-0000-0000") (VStr "Acme Labs") (VStr "Hello World")
           (VStr "Acme")
           (Metadata.rights_entry "MIT" "https://spdx.org/licenses/MIT.html")
           "2022-08-01" "tech science" (mkDate 2022 8 1));
    try reflexivity.
  intros extra E. vm_compute in E. injection E as <-. reflexivity.
Defined.

Lemma assembly_needs_the_identifier_witness :
  @Metadata.assembleMetadata Sample.externals Sample.blog Sample.post Sample.author VNone
  = Raise (KeyError "doi").
Proof.
  apply (@assembly_needs_the_identifier Sample.externals
           Sample.blog Sample.post Sample.author VNone).
  reflexivity.
Defined.

Lemma unparseable_date_is_fatal_witness :
  raises (@Metadata.assembleMetadata Sample.externals
            Sample.blog Scenario.post_undated Sample.author VNone).
Proof.
  apply (@unparseable_date_is_fatal Sample.externals
           Sample.blog Scenario.post_undated Sample.author VNone "last summer");
    reflexivity.
Defined.

Lemma unknown_license_is_fatal_witness :
  raises (@Script.assembleMetadata Sample.externals
            Sample.blog Scenario.post_apache Sample.author).
Proof.
  apply (@unknown_license_is_fatal Sample.externals
           Sample.blog Scenario.post_apache Sample.author VNone "Apache-2.0");
    reflexivity.
Defined.

Lemma override_must_be_a_mapping_witness :
  exists msg,
    @Metadata.assembleMetadata Sample.externals
      Sample.blog Sample.post_versioned Sample.author (VStr "version=2.0")
    = Raise (TypeError msg).
Proof.
  apply (proj1 (@override_must_be_a_mapping Sample.externals
                  Sample.blog Sample.post_versioned Sample.author Sample.fixed
                  ltac:(vm_compute; reflexivity))).
Defined.

Lemma package_assembler_extends_script_witness :
  @Script.assembleMetadata Sample.externals
    Sample.blog Sample.post_unlicensed Sample.author
  = Ok Sample.record_unlicensed.
Proof.
  apply (@package_assembler_extends_script Sample.externals
           Sample.blog Sample.post_unlicensed Sample.author Sample.record_unlicensed
           (VDict [])); reflexivity.
Defined.

(* ===================================================================== *)
(** * Subjects, identifiers and permalinks *)
(* ===================================================================== *)

Lemma list_ascii_app (s1 s2 : string) :
  list_ascii_of_string (s1 ++ s2) = (list_ascii_of_string s1 ++ list_ascii_of_string s2)%list.
Proof. induction s1 as [|c r IH]; simpl; [reflexivity | now rewrite IH]. Qed.

Lemma string_of_list_app (l1 l2 : list ascii) :
  string_of_list_ascii (l1 ++ l2) = string_of_list_ascii l1 ++ string_of_list_ascii l2.
Proof. induction l1 as [|c r IH]; simpl; [reflexivity | now rewrite IH]. Qed.

Lemma rev_string_cons (c : ascii) (s : string) :
  rev_string (String c s) = rev_string s ++ String c "".
Proof. unfold rev_string. simpl. now rewrite string_of_list_app. Qed.

Lemma rev_string_snoc (c : ascii) (s : string) :
  rev_string (s ++ String c "") = String c (rev_string s).
Proof.
  unfold rev_string. rewrite list_ascii_app. simpl. now rewrite rev_app_distr.
Qed.

Lemma space_free_app (s1 s2 : string) :
  space_free (s1 ++ s2) = space_free s1 && space_free s2.
Proof. unfold space_free. now rewrite list_ascii_app, forallb_app. Qed.

Lemma string_app_nil (s : string) : s ++ "" = s.
Proof. induction s as [|c r IH]; simpl; [reflexivity | now rewrite IH]. Qed.

Lemma split_ws_aux_tokens (s : string) :
  forall cur, space_free (rev_string cur) = true ->
    Forall (fun t => t <> "" /\ space_free t = true) (split_ws_aux cur s) /\
    String.concat "" (split_ws_aux cur s) = rev_string cur ++ strip_spaces s.
Proof.
  induction s as [|c r IH]; intros cur F.
  - simpl. destruct cur as [|a cur'] eqn:E.
    + split; [constructor | reflexivity].
    + split.
      * constructor; [|constructor]. split; [|exact F].
        rewrite rev_string_cons. destruct (rev_string cur'); discriminate.
      * simpl. now rewrite string_app_nil.
  - cbn [split_ws_aux strip_spaces]. destruct (is_space c) eqn:S.
    + destruct (IH "" eq_refl) as (I1 & I2).
      destruct cur as [|a cur'] eqn:E.
      * split; [exact I1 | exact I2].
      * split.
        -- constructor; [|exact I1]. split; [|exact F].
           rewrite rev_string_cons. destruct (rev_string cur'); discriminate.
        -- cbn [String.concat]. destruct (split_ws_aux "" r) as [|t ts] eqn:T.
           ++ simpl in I2. rewrite <- I2. now rewrite string_app_nil.
           ++ rewrite I2. reflexivity.
    + assert (F' : space_free (rev_string (String c cur)) = true).
      { rewrite rev_string_cons, space_free_app, F. unfold space_free. simpl.
        now rewrite S. }
      destruct (IH (String c cur) F') as (I1 & I2). split; [exact I1|].
      rewrite I2, rev_string_cons, string_app_assoc. reflexivity.
Qed.

(** X15.  For [tags] written in ASCII the subjects section holds the
    white-space separated words of [tags]: no keyword is empty or holds
    white space, and together they are the characters of [tags] that are
    not white space; without [tags] the builder raises [KeyError], and
    [tags] that are not a string have no [split]. *)
Theorem subjects_are_the_words_of_tags (data_post : dict) :
  (lookup "tags" data_post = None ->
   Metadata.getMdSubjects data_post = Raise (KeyError "tags")) /\
  (forall tags, lookup "tags" data_post = Some tags -> (forall s, tags <> VStr s) ->
   Metadata.getMdSubjects data_post = Raise (AttributeError "split")) /\
  (forall tags, lookup "tags" data_post = Some (VStr tags) -> ascii_only tags = true ->
   exists words,
     Metadata.getMdSubjects data_post
       = Ok [("subjects", VDict [("subject", VList (map VStr words))])] /\
     Forall (fun t => t <> "" /\ space_free t = true) words /\
     String.concat "" words = strip_spaces tags).
Proof.
  unfold Metadata.getMdSubjects, getitem. split; [|split].
  - now intros ->.
  - intros tags -> N. destruct tags; try reflexivity. now destruct (N s).
  - intros tags -> _. exists (split_ws tags). split; [reflexivity|].
    apply (split_ws_aux_tokens tags "" eq_refl).
Qed.

Lemma subjects_are_the_words_of_tags_witness :
  exists words,
    Metadata.getMdSubjects [("tags", VStr "  tech   science ")]
      = Ok [("subjects", VDict [("subject", VList (map VStr words))])] /\
    words = ["tech"; "science"].
Proof.
  destruct (proj2 (proj2 (subjects_are_the_words_of_tags
              [("tags", VStr "  tech   science ")])) "  tech   science " eq_refl eq_refl)
    as (words & E & _ & _).
  exists words. split; [exact E|].
  vm_compute in E. injection E as E. 
  assert (L : forall l1 l2, map VStr l1 = map VStr l2 -> l1 = l2).
  { induction l1 as [|x l1 IH]; intros [|y l2] M; try discriminate; [reflexivity|].
    simpl in M. injection M as -> M. now rewrite (IH _ M). }
  symmetry. now apply L.
Defined.


(** The first two characters of an encoding depend on its first two bytes. *)
Lemma b64_two_of_two (d e : ascii) (r : string) :
  first_chars 2 (Base64.b64encode (String d (String e r)))
  = first_chars 2 (Base64.b64encode (String d (String e ""))).
Proof.
  destruct r as [|f r]; [reflexivity|].
  cbn [Base64.b64encode first_chars]. cbv zeta.
  rewrite !Z.shiftr_lor, !(byte_shiftr_zero f) by lia.
  now rewrite !Z.lor_0_r.
Qed.

(** X16.  Titles of five bytes or more that agree on their first five bytes
    get the same identifier, whatever follows. *)
Theorem genDoi_reads_five_bytes (t1 t2 base prefix : string) :
  5 <= String.length t1 -> 5 <= String.length t2 ->
  first_chars 5 t1 = first_chars 5 t2 ->
  genDoi t1 base prefix = genDoi t2 base prefix.
Proof.
  intros L1 L2 E.
  destruct t1 as [|a1 [|b1 [|c1 [|d1 [|e1 r1]]]]]; simpl in L1; try lia.
  destruct t2 as [|a2 [|b2 [|c2 [|d2 [|e2 r2]]]]]; simpl in L2; try lia.
  simpl in E. injection E as -> -> -> -> ->.
  unfold genDoi. rewrite !slice_first_chars.
  assert (G : forall r, first_chars 6 (Base64.b64encode
                (String a2 (String b2 (String c2 (String d2 (String e2 r))))))
              = first_chars 6 (Base64.b64encode
                (String a2 (String b2 (String c2 (String d2 (String e2 ""))))))).
  { intros r.
    change (Base64.b64encode (String a2 (String b2 (String c2 (String d2 (String e2 r))))))
      with (let n := Z.lor (Z.lor (Z.shiftl (Base64.byte a2) 16)
                             (Z.shiftl (Base64.byte b2) 8)) (Base64.byte c2) in
            String (Base64.sextet (Z.shiftr n 18))
              (String (Base64.sextet (Z.shiftr n 12))
                 (String (Base64.sextet (Z.shiftr n 6))
                    (String (Base64.sextet n)
                       (Base64.b64encode (String d2 (String e2 r))))))).
    cbv zeta. cbn [first_chars].
    change (match Base64.b64encode (String d2 (String e2 r)) with
            | "" => ""
            | String c r0 =>
                String c match r0 with "" => "" | String c0 _ => String c0 "" end
            end) with (first_chars 2 (Base64.b64encode (String d2 (String e2 r)))).
    rewrite b64_two_of_two. reflexivity. }
  now rewrite (G r1), (G r2).
Qed.

Lemma genDoi_reads_five_bytes_witness :
  genDoi "Hello World" "blog" "10.1234" = genDoi "Hello there, again" "blog" "10.1234".
Proof. apply genDoi_reads_five_bytes; [simpl; lia | simpl; lia | reflexivity]. Defined.

(** X17.  The fragment [genDoi] appends after the dash is made of letters of
    the base64 alphabet, which has [+] and [/], and of the padding sign;
    it is empty for the empty title, has four characters for a title of
    one to three bytes and six for any longer title. *)
Theorem doi_fragment_shape (title base prefix : string) :
  exists fragment,
    genDoi title base prefix = prefix ++ "/" ++ base ++ "-" ++ fragment /\
    forallb Base64.is_b64_char (list_ascii_of_string fragment) = true /\
    (title = "" -> fragment = "") /\
    (1 <= String.length title <= 3 -> String.length fragment = 4) /\
    (4 <= String.length title -> String.length fragment = 6).
Proof.
  exists (first_chars 6 (Base64.b64encode title)).
  split; [unfold genDoi; now rewrite slice_first_chars|].
  split; [apply forallb_first_chars, b64encode_chars|].
  split; [now intros ->|].
  rewrite first_chars_length, b64encode_length. split; intros L.
  - destruct title as [|a [|b [|c [|d r]]]]; simpl in L; try lia; reflexivity.
  - assert (2 <= (String.length title + 2) / 3) by (apply Nat.div_le_lower_bound; lia).
    lia.
Qed.

Lemma date_prefix_needs_digit (c : ascii) (r : string) :
  is_digit c = false -> date_prefix (String c r) = None.
Proof. intros D. unfold date_prefix, digit. now rewrite D. Qed.

Lemma date_prefix_needs_dash (s : string) :
  dash_free s = true -> date_prefix s = None.
Proof.
  unfold dash_free, date_prefix. intros F.
  destruct s as [|a s]; [reflexivity|]. cbn [digit]. destruct (is_digit a); [|reflexivity].
  destruct s as [|b s]; [reflexivity|]. cbn [and_then digit].
  destruct (is_digit b); [|reflexivity].
  destruct s as [|c s]; [reflexivity|]. cbn [and_then digit].
  destruct (is_digit c); [|reflexivity].
  destruct s as [|d s]; [reflexivity|]. cbn [and_then digit].
  destruct (is_digit d); [|reflexivity].
  destruct s as [|e s]; [reflexivity|]. cbn [and_then dash].
  simpl in F. do 4 (apply andb_true_iff in F as [_ F]).
  apply andb_true_iff in F as [F _].
  destruct (Ascii.eqb e "-"%char); [discriminate | reflexivity].
Qed.

Lemma dash_free_tail (c : ascii) (s : string) :
  dash_free (String c s) = true -> dash_free s = true.
Proof. unfold dash_free. simpl. intros F. now apply andb_true_iff in F as [_ F]. Qed.

(** A stem without any dash holds no match of the pattern. *)
Lemma re_search_needs_dash (s : string) :
  dash_free s = true -> re_search_group2 s = None.
Proof.
  induction s as [|c r IH]; intros F.
  - reflexivity.
  - rewrite re_search_unfold, (date_prefix_needs_dash _ F).
    apply IH. now apply dash_free_tail in F.
Qed.

(** The search skips text without digits that precedes a dated prefix. *)
Lemma re_search_skips (junk pre slug : string) :
  digit_free junk = true -> dated_prefix pre ->
  re_search_group2 (junk ++ pre ++ slug) = Some (dot_star slug).
Proof.
  intros F Q. induction junk as [|c r IH].
  - simpl. now rewrite re_search_unfold, (date_prefix_accepts _ _ Q).
  - unfold digit_free in F. simpl in F. apply andb_true_iff in F as [F1 F2].
    cbn [append]. rewrite re_search_unfold, date_prefix_needs_digit.
    + now apply IH.
    + now destruct (is_digit c).
Qed.

Lemma lstrip_not_slash (s : string) :
  match lstrip_char "/"%char s with
  | String c _ => Ascii.eqb c "/"%char = false
  | "" => True
  end.
Proof.
  induction s as [|c r IH]; simpl; [exact I|].
  destruct (Ascii.eqb c "/"%char) eqn:E; [exact IH | exact E].
Qed.

Lemma rstrip_snoc_slash (u : string) :
  rstrip_char "/"%char (u ++ "/") = rstrip_char "/"%char u.
Proof. unfold rstrip_char. now rewrite rev_string_snoc. Qed.

Lemma rstrip_result_no_slash (u : string) :
  ends_with_slash (rstrip_char "/"%char u) = false.
Proof.
  unfold ends_with_slash, rstrip_char. rewrite rev_string_involutive.
  pose proof (lstrip_not_slash (rev_string u)) as L.
  now destruct (lstrip_char "/"%char (rev_string u)).
Qed.

Section PermalinkMore.
Context `{Externals}.

(** X18.  For a file name whose stem holds no dash the pattern finds no
    match: the script's [genPermalink] raises [AttributeError], while the
    package's returns the base URL without its trailing slashes, the date
    as [strftime] prints it and the fixed slug [asf]. *)
Theorem undated_file_name
    (data_blog data_post : dict) (post_filename url date : string) (d : datetime) :
  lookup "url" data_blog = Some (VStr url) ->
  lookup "date" data_post = Some (VStr date) ->
  dateparser_parse date = Some d ->
  dash_free (stem post_filename) = true ->
  Script.genPermalink data_blog post_filename data_post
    = Raise (AttributeError "'NoneType' object has no attribute 'group'") /\
  Packaged.genPermalink data_blog post_filename data_post
    = Ok (rstrip_char "/"%char url ++ "/" ++
          dec (year d) ++ "/" ++ zpad 2 (month d) ++ "/" ++ zpad 2 (day d) ++ "/asf.html").
Proof.
  intros U D P F. unfold Script.genPermalink, Packaged.genPermalink, getitem.
  rewrite U, D. cbn [Py.bind Shared.rstrip_value parse_date]. rewrite P. cbn [Py.bind].
  rewrite (re_search_needs_dash _ F). split; [reflexivity|].
  cbv zeta. fold (permalink_of (rstrip_char "/"%char url) d "asf").
  now rewrite permalink_of_parts.
Qed.

(** X19.  The pattern is searched, not anchored: ASCII text without digits
    in front of the dated prefix is dropped from the permalink together
    with the prefix. *)
Theorem permalink_drops_text_before_the_date
    (data_blog data_post : dict) (post_filename url date : string) (d : datetime)
    (junk pre slug : string) :
  lookup "url" data_blog = Some (VStr url) ->
  lookup "date" data_post = Some (VStr date) ->
  dateparser_parse date = Some d ->
  stem post_filename = junk ++ pre ++ slug ->
  ascii_only junk = true ->
  digit_free junk = true ->
  dated_prefix pre ->
  Script.genPermalink data_blog post_filename data_post
    = Ok (rstrip_char "/"%char url ++ "/" ++
          dec (year d) ++ "/" ++ zpad 2 (month d) ++ "/" ++ zpad 2 (day d) ++ "/" ++
          dot_star slug ++ ".html").
Proof.
  intros U D P S _ F Q. unfold Script.genPermalink, getitem.
  rewrite U, D. cbn [Py.bind Shared.rstrip_value parse_date]. rewrite P. cbn [Py.bind].
  rewrite S, (re_search_skips _ _ _ F Q). cbv zeta.
  fold (permalink_of (rstrip_char "/"%char url) d (dot_star slug)).
  now rewrite permalink_of_parts.
Qed.

(** X20.  A slash at the end of the configured base URL does not change the
    permalink of either copy, and the base the permalink starts with never
    ends with a slash. *)
Theorem permalink_ignores_trailing_slash
    (blog1 blog2 data_post : dict) (post_filename url : string) :
  lookup "url" blog1 = Some (VStr url) ->
  lookup "url" blog2 = Some (VStr (url ++ "/")) ->
  Script.genPermalink blog2 post_filename data_post
    = Script.genPermalink blog1 post_filename data_post /\
  Packaged.genPermalink blog2 post_filename data_post
    = Packaged.genPermalink blog1 post_filename data_post /\
  ends_with_slash (rstrip_char "/"%char url) = false.
Proof.
  intros U1 U2. unfold Script.genPermalink, Packaged.genPermalink, getitem.
  rewrite U1, U2. cbn [Py.bind Shared.rstrip_value]. rewrite rstrip_snoc_slash.
  repeat split. apply rstrip_result_no_slash.
Qed.

(** X21.  The date in the permalink is the post's [date] as parsed, not the
    date in the file name: two file names with different dated prefixes
    and the same slug get the same permalink. *)
Theorem permalink_date_comes_from_the_post
    (data_blog data_post : dict) (f1 f2 pre1 pre2 slug : string) :
  stem f1 = pre1 ++ slug -> stem f2 = pre2 ++ slug ->
  dated_prefix pre1 -> dated_prefix pre2 ->
  Script.genPermalink data_blog f1 data_post = Script.genPermalink data_blog f2 data_post.
Proof.
  intros S1 S2 Q1 Q2. unfold Script.genPermalink.
  now rewrite S1, S2, !re_search_unfold, (date_prefix_accepts _ _ Q1),
    (date_prefix_accepts _ _ Q2).
Qed.

End PermalinkMore.

Lemma undated_file_name_witness :
  @Script.genPermalink Sample.externals Sample.blog "_posts/hello.md" Sample.post
    = Raise (AttributeError "'NoneType' object has no attribute 'group'") /\
  @Packaged.genPermalink Sample.externals Sample.blog "_posts/hello.md" Sample.post
    = Ok "https://blog.acme.com/2022/08/01/asf.html".
Proof.
  apply (@undated_file_name Sample.externals Sample.blog Sample.post "_posts/hello.md"
           "https://blog.acme.com" "2022-08-01" (mkDate 2022 8 1)); reflexivity.
Defined.

Lemma permalink_drops_text_before_the_date_witness :
  @Script.genPermalink Sample.externals
    Sample.blog "_posts/draft-2022-08-01-hello-world.md" Sample.post
  = Ok "https://blog.acme.com/2022/08/01/hello-world.html".
Proof.
  apply (@permalink_drops_text_before_the_date Sample.externals Sample.blog Sample.post
           "_posts/draft-2022-08-01-hello-world.md" "https://blog.acme.com" "2022-08-01"
           (mkDate 2022 8 1) "draft-" "2022-08-01-" "hello-world"); try reflexivity.
  exists "2022", "08", "01". repeat split; try reflexivity; right; reflexivity.
Defined.

Lemma permalink_ignores_trailing_slash_witness :
  @Script.genPermalink Sample.externals
    [("url", VStr "https://blog.acme.com/")] "2022-08-01-hello-world.md" Sample.post
  = @Script.genPermalink Sample.externals
      Sample.blog "2022-08-01-hello-world.md" Sample.post.
Proof.
  apply (@permalink_ignores_trailing_slash Sample.externals
           Sample.blog [("url", VStr "https://blog.acme.com/")] Sample.post
           "2022-08-01-hello-world.md" "https://blog.acme.com"); reflexivity.
Defined.

Lemma permalink_date_comes_from_the_post_witness :
  @Script.genPermalink Sample.externals
    Sample.blog "_posts/2021-1-5-hello-world.md" Sample.post
  = @Script.genPermalink Sample.externals
      Sample.blog "_posts/2022-08-01-hello-world.md" Sample.post.
Proof.
  apply (@permalink_date_comes_from_the_post Sample.externals Sample.blog Sample.post
           "_posts/2021-1-5-hello-world.md" "_posts/2022-08-01-hello-world.md"
           "2021-1-5-" "2022-08-01-" "hello-world"); try reflexivity.
  - exists "2021", "1", "5". repeat split; try reflexivity; left; reflexivity.
  - exists "2022", "08", "01". repeat split; try reflexivity; right; reflexivity.
Defined.

(* ===================================================================== *)
(** * Further properties of the workflow *)
(* ===================================================================== *)

Section WorkflowMore.
Context `{Externals}.

(** X22.  [collectBlogData] returns the mapping under [doi_jekyll] with the
    top-level [url] stored under [url], every other key as it was; it
    raises [KeyError] when the configuration lacks [doi_jekyll] or [url],
    and [TypeError] when the configuration file is empty. *)
Theorem collectBlogData_reads_block_and_url (top : dict) :
  (lookup "doi_jekyll" top = None ->
   Shared.collectBlogData (VDict top) = Raise (KeyError "doi_jekyll")) /\
  (forall d, lookup "doi_jekyll" top = Some (VDict d) -> lookup "url" top = None ->
   Shared.collectBlogData (VDict top) = Raise (KeyError "url")) /\
  (forall d u, lookup "doi_jekyll" top = Some (VDict d) -> lookup "url" top = Some u ->
   exists blog,
     Shared.collectBlogData (VDict top) = Ok blog /\
     lookup "url" blog = Some u /\
     (forall k, k <> "url" -> lookup k blog = lookup k d)) /\
  (exists msg, Shared.collectBlogData VNone = Raise (TypeError msg)).
Proof.
  unfold Shared.collectBlogData, Shared.subscript, getitem. repeat split.
  - now intros ->.
  - intros d -> ->. reflexivity.
  - intros d u -> ->. eexists. split; [reflexivity|]. split.
    + apply lookup_set_same.
    + intros k N. apply lookup_set_other. congruence.
  - eexists. reflexivity.
Qed.

(** X23.  An author file named on the command line is loaded whatever the
    post's [author] is; without one the file is found by the lower-cased
    author name, so names that differ in case only load the same file. *)
Theorem collectAuthorData_resolution (e : env) (a : args) :
  (forall f authorname, author_file a = Some f -> f <> "" ->
     Shared.collectAuthorData e authorname a = frontmatter_load e f) /\
  (forall n1 n2, author_file a = None -> lower n1 = lower n2 ->
     Shared.collectAuthorData e (VStr n1) a = Shared.collectAuthorData e (VStr n2) a) /\
  (forall authorname, author_file a = None -> (forall s, authorname <> VStr s) ->
     Shared.collectAuthorData e authorname a = Raise (AttributeError "lower")).
Proof.
  unfold Shared.collectAuthorData. repeat split.
  - intros f authorname -> N. destruct (String.eqb_spec f ""); [contradiction|reflexivity].
  - intros n1 n2 -> E. simpl. now rewrite E.
  - intros authorname -> N. destruct authorname; try reflexivity. now destruct (N s).
Qed.

(** X24.  Without a user name, or with a user name and no password, a run
    of either entry point prints the request for it and exits before any
    document is examined: whatever the configuration, the post and the
    registry are, nothing else happens. *)
Theorem missing_credentials_stop_the_run (e : env) (a : args) :
  (user a = None ->
   let stop := (Raise (SystemExit None),
                {| w_post := post_file e; w_requests := []; w_written := [];
                   w_stdout := ["Please provide DataCite username (--user or  $DJ_DATACITE_USER)"] |}) in
   Script.main e a (initial e) = stop /\ Packaged.main e a (initial e) = stop) /\
  (forall u, user a = Some u -> password a = None ->
   let stop := (Raise (SystemExit None),
                {| w_post := post_file e; w_requests := []; w_written := [];
                   w_stdout := ["Please provide DataCite password (--password or $DJ_DATACITE_PASSWORD)"] |}) in
   Script.main e a (initial e) = stop /\ Packaged.main e a (initial e) = stop).
Proof.
  split.
  - intros U stop.
    unfold Script.main, Packaged.main, Shared.prepare, Shared.parseCredentials.
    rewrite U. split; reflexivity.
  - intros u U P stop.
    unfold Script.main, Packaged.main, Shared.prepare, Shared.parseCredentials.
    rewrite U, P. split; reflexivity.
Qed.

(** What [assign_doi] does to the world. *)
Lemma assign_doi_effect (blog : dict) (w w' : world) (r : result unit) :
  Shared.assign_doi blog w = (r, w') ->
  (exists ex, r = Raise ex /\ w' = w) \/
  (exists title base prefix,
     r = Ok tt /\
     lookup "title" (w_post w) = Some (VStr title) /\
     lookup "suffix_base" blog = Some base /\
     lookup "prefix" blog = Some prefix /\
     w' = {| w_post := set_item "doi" (VStr (genDoi title (fmt base) (fmt prefix))) (w_post w);
             w_requests := w_requests w; w_written := w_written w;
             w_stdout := w_stdout w |}).
Proof.
  unfold Shared.assign_doi, bindM, read_post, lift, post_setitem, getitem,
    Shared.call_genDoi.
  destruct (lookup "title" (w_post w)) as [title|];
    [|intros E; injection E as <- <-; left; eauto].
  destruct (lookup "suffix_base" blog) as [base|];
    [|intros E; injection E as <- <-; left; eauto].
  destruct (lookup "prefix" blog) as [prefix|];
    [|intros E; injection E as <- <-; left; eauto].
  destruct title as [|t| |]; intros E; injection E as <- <-; try (left; eauto; fail).
  right. exists t, base, prefix. auto.
Qed.

(** X25.  Storing the generated identifier keeps every other key of the
    post and, when the post already had a [doi] (a forced run), keeps the
    order of its keys; the stored value depends on the title and the
    blog's [suffix_base] and [prefix] only. *)
Theorem assign_doi_keeps_the_post (blog : dict) (w w' : world) :
  Shared.assign_doi blog w = (Ok tt, w') ->
  (forall k, k <> "doi" -> lookup k (w_post w') = lookup k (w_post w)) /\
  (has_key "doi" (w_post w) = true -> map fst (w_post w') = map fst (w_post w)) /\
  (has_key "doi" (w_post w) = false ->
   map fst (w_post w') = (map fst (w_post w) ++ ["doi"])%list) /\
  (exists title base prefix,
     lookup "title" (w_post w) = Some (VStr title) /\
     lookup "suffix_base" blog = Some base /\ lookup "prefix" blog = Some prefix /\
     lookup "doi" (w_post w') = Some (VStr (genDoi title (fmt base) (fmt prefix)))).
Proof.
  intros E. apply assign_doi_effect in E as [(ex & E & _)|(t & b & p & _ & T & B & P & ->)];
    [discriminate|].
  cbn [w_post]. repeat split.
  - intros k N. apply lookup_set_other. congruence.
  - intros K. now rewrite keys_set_item, K.
  - intros K. now rewrite keys_set_item, K.
  - exists t, b, p. repeat split; try assumption. apply lookup_set_same.
Qed.



End WorkflowMore.

Section Runs.
Context `{Externals}.

(** The registration steps of a dry run. *)
Lemma register_dry gp (e : env) (a : args) (u p : string) (blog json : dict)
    (w w' : world) (r : result nat) :
  dry_run a = true ->
  Shared.register gp e a u p blog json w = (r, w') ->
  w_post w' = w_post w /\ w_requests w' = w_requests w /\ w_written w' = w_written w /\
  (forall n, r = Ok n ->
     n = 0 /\ exists doi, lookup "doi" (w_post w) = Some doi /\
       w_stdout w' =
         (w_stdout w ++ [("Successfully created " ++ fmt doi ++ " at DataCite!")%string])%list).
Proof.
  intros D. unfold Shared.register, bindM, lift, read_post, print, ret, getitem.
  rewrite D, orb_true_r.
  destruct (xmltodict_unparse json) as [xml|ex].
  2:{ intros E. injection E as <- <-.
      split; [|split; [|split]]; try reflexivity. intros n N. discriminate. }
  destruct (lookup "doi" (w_post w)) as [doi|].
  2:{ intros E. injection E as <- <-.
      split; [|split; [|split]]; try reflexivity. intros n N. discriminate. }
  intros E. injection E as <- <-. cbn [w_post w_requests w_written w_stdout].
  split; [|split; [|split]]; try reflexivity.
  intros n N. injection N as <-. split; [reflexivity|]. exists doi. auto.
Qed.

(** What a run of the registration steps can send and write. *)
Lemma register_traffic gp (e : env) (a : args) (u p : string) (blog json : dict)
    (w w' : world) (r : result nat) :
  Shared.register gp e a u p blog json w = (r, w') ->
  w_written w' = w_written w /\
  (forall n, r = Ok n -> dry_run a = true) /\
  (w_requests w' = w_requests w \/
   exists rq, w_requests w' = (w_requests w ++ [rq])%list /\
              req_content_type rq = "application/xml;charset=UTF-8").
Proof.
  destruct (dry_run a) eqn:D.
  - intros E. destruct (register_dry _ _ _ _ _ _ _ _ _ _ D E) as (_ & Q & W & _). auto.
  - unfold Shared.register, Shared.registerMetadata, bindM, lift, put, unbound,
      raise, read_post. rewrite D.
    destruct (xmltodict_unparse json) as [xml|ex].
    2:{ intros E. injection E as <- <-. split; [reflexivity|]; split; [discriminate | auto]. }
    destruct (getitem (w_post w) "doi") as [doi|ex].
    2:{ intros E. injection E as <- <-. split; [reflexivity|]; split; [discriminate | auto]. }
    destruct (getitem blog "provider_url") as [url|ex].
    2:{ intros E. injection E as <- <-. split; [reflexivity|]; split; [discriminate | auto]. }
    match goal with
    | |- context [requests_put e ?rq] => set (q := rq)
    end.
    destruct (requests_put e q) as [resp|ex] eqn:R; intros E; injection E as <- <-;
      (split; [reflexivity|]); (split; [discriminate|]);
      right; exists q; split; reflexivity.
Qed.

(** X28.  A dry run of the script sends no request and writes no file.
    When it returns, it returns 0; what it has printed by then is the note
    about the missing abstract, when the post has none, followed by the
    line that the identifier stored in the post record was successfully
    created. *)
Theorem dry_run_stays_local (e : env) (a : args) (r : result nat) (w : world) :
  dry_run a = true ->
  Script.main e a (initial e) = (r, w) ->
  w_requests w = [] /\ w_written w = [] /\
  (forall n, r = Ok n ->
     n = 0 /\ exists doi, lookup "doi" (w_post w) = Some doi /\
       w_stdout w =
         ((if has_key "abstract" (w_post w) then [] else ["Note: No abstract given!"])
          ++ [("Successfully created " ++ fmt doi ++ " at DataCite!")%string])%list).
Proof.
  intros D. unfold Script.main.
  destruct (Shared.prepare e a (initial e)) as [[[[[u p] blog] au]|ex] w1] eqn:P.
  2:{ destruct (quiet_prepare e a _ _ _ P) as (_ & Q2 & Q3).
      rewrite (bindM_Raise _ _ _ _ _ P). intros E. injection E as <- <-.
      split; [|split]; try assumption. intros n N. discriminate. }
  destruct (prepare_Ok _ _ _ _ _ P) as [-> _].
  rewrite (bindM_run _ _ _ _ _ P).
  destruct (Shared.assign_doi blog (initial e)) as [ra w2] eqn:A.
  destruct (assign_doi_effect _ _ _ _ A)
    as [(ex & -> & ->)|(t & b & px & -> & _ & _ & _ & ->)].
  { rewrite (bindM_Raise _ _ _ _ _ A). intros E. injection E as <- <-.
    split; [|split]; try reflexivity. intros n N. discriminate. }
  rewrite (bindM_run _ _ _ _ _ A). unfold bindM at 1, read_post at 1.
  unfold bindM at 1, print_lines at 1. unfold bindM at 1, lift at 1.
  unfold Script.assembleMetadata_stdout, Metadata.getMdDescriptions_stdout.
  cbn [w_post w_requests w_written w_stdout initial].
  destruct (Script.assembleMetadata blog _ au) as [json|ex].
  2:{ intros E. injection E as <- <-.
      split; [|split]; try reflexivity. intros n N. discriminate. }
  intros E. destruct (register_dry _ _ _ _ _ _ _ _ _ _ D E) as (R1 & R2 & R3 & R4).
  cbn [w_post w_requests w_written w_stdout initial app] in *.
  split; [|split]; try assumption.
  intros n N. destruct (R4 n N) as (-> & doi & L & S). split; [reflexivity|].
  exists doi. rewrite R1. split; [exact L|].
  rewrite S. now destruct (has_key "abstract" _).
Qed.

(** X29.  No run of the script writes the post file; the only request a run
    can send is one metadata request, never the URL mapping; and a run
    returns normally only when it is a dry run. *)
Theorem script_never_completes_a_registration (e : env) (a : args)
    (r : result nat) (w : world) :
  Script.main e a (initial e) = (r, w) ->
  w_written w = [] /\
  (forall n, r = Ok n -> dry_run a = true) /\
  (w_requests w = [] \/
   exists rq, w_requests w = [rq] /\
              req_content_type rq = "application/xml;charset=UTF-8").
Proof.
  unfold Script.main.
  destruct (Shared.prepare e a (initial e)) as [[[[[u p] blog] au]|ex] w1] eqn:P;
    destruct (quiet_prepare e a _ _ _ P) as (_ & Q2 & Q3);
    cbn [initial w_requests w_written] in Q2, Q3.
  2:{ rewrite (bindM_Raise _ _ _ _ _ P). intros E. injection E as <- <-.
      split; [assumption|]; split; [discriminate | auto]. }
  rewrite (bindM_run _ _ _ _ _ P).
  destruct (Shared.assign_doi blog w1) as [[[]|ex] w2] eqn:A;
    destruct (offline_assign_doi blog _ _ _ A) as (O2 & O3).
  2:{ rewrite (bindM_Raise _ _ _ _ _ A). intros E. injection E as <- <-.
      split; [congruence|]; split; [discriminate | left; congruence]. }
  rewrite (bindM_run _ _ _ _ _ A). unfold bindM at 1, read_post at 1.
  unfold bindM at 1, print_lines at 1.
  match goal with |- context [bindM (lift _) _ ?w0] => set (w3 := w0) end.
  assert (P2 : w_requests w3 = w_requests w2) by reflexivity.
  assert (P3 : w_written w3 = w_written w2) by reflexivity.
  clearbody w3.
  unfold bindM at 1, lift at 1.
  destruct (Script.assembleMetadata blog (w_post w2) au) as [json|ex].
  2:{ intros E. injection E as <- <-.
      split; [congruence|]; split; [discriminate | left; congruence]. }
  intros E. apply register_traffic in E as (R1 & R2 & R3).
  split; [congruence|]. split; [exact R2|].
  destruct R3 as [R3|(rq & R3 & R4)].
  - left. congruence.
  - right. exists rq. split; [|exact R4]. rewrite R3, P2, O2, Q2. reflexivity.
Qed.

End Runs.

Lemma dry_run_stays_local_witness :
  exists w,
    @Script.main Sample.externals
      (Sample.environment Sample.post true) (Sample.arguments false true)
      (initial (Sample.environment Sample.post true)) = (Ok 0, w) /\
    w_requests w = [] /\ w_written w = [] /\
    w_stdout w = ["Note: No abstract given!";
                  "Successfully created 10.1234/blog-SGVsbG at DataCite!"].
Proof.
  destruct (@Script.main Sample.externals
              (Sample.environment Sample.post true) (Sample.arguments false true)
              (initial (Sample.environment Sample.post true))) as [r w] eqn:E.
  destruct (@dry_run_stays_local Sample.externals
              (Sample.environment Sample.post true) (Sample.arguments false true)
              r w eq_refl E) as (Q & W & _).
  vm_compute in E. injection E as <- <-.
  eexists. repeat split.
Defined.

Lemma assign_doi_keeps_the_post_witness :
  exists w',
    @Shared.assign_doi Sample.externals Sample.blog
      (initial (Sample.environment Sample.post_with_doi true)) = (Ok tt, w') /\
    map fst (w_post w') = map fst Sample.post_with_doi.
Proof.
  destruct (@Shared.assign_doi Sample.externals Sample.blog
              (initial (Sample.environment Sample.post_with_doi true))) as [r w'] eqn:E.
  assert (R : r = Ok tt) by (vm_compute in E; now injection E as <- _).
  subst r. exists w'. split; [reflexivity|].
  now apply (proj1 (proj2 (@assign_doi_keeps_the_post Sample.externals Sample.blog _ _ E))).
Defined.

Lemma script_never_completes_a_registration_witness :
  exists r w,
    @Script.main Sample.externals
      (Sample.environment Sample.post false) (Sample.arguments false false)
      (initial (Sample.environment Sample.post false)) = (r, w) /\
    w_written w = [] /\ List.length (w_requests w) = 1 /\ r = Raise (NameError "debug").
Proof.
  destruct (@Script.main Sample.externals
              (Sample.environment Sample.post false) (Sample.arguments false false)
              (initial (Sample.environment Sample.post false))) as [r w] eqn:E.
  destruct (@script_never_completes_a_registration Sample.externals
              (Sample.environment Sample.post false) (Sample.arguments false false)
              r w E) as (W & _ & _).
  vm_compute in E. injection E as <- <-.
  eexists _, _. repeat split.
Defined.

Lemma collectBlogData_reads_block_and_url_witness :
  Shared.collectBlogData Sample.config = Ok Sample.blog.
Proof.
  destruct (proj1 (proj2 (proj2 (collectBlogData_reads_block_and_url
              [ ("url", VStr "https://blog.acme.com");
                ("doi_jekyll", VDict
                   [ ("prefix", VStr "10.1234"); ("suffix_base", VStr "blog");
                     ("provider_url", VStr "https://example.org");
                     ("publisher", VStr "Acme"); ("affiliation", VStr "Acme Labs") ]) ])))
              _ _ eq_refl eq_refl) as (blog & E & _).
  reflexivity.
Defined.

Lemma collectAuthorData_resolution_witness :
  @Shared.collectAuthorData Sample.externals
    (Sample.environment Sample.post true) (VStr "Stephen") (Sample.arguments false false)
  = @Shared.collectAuthorData Sample.externals
      (Sample.environment Sample.post true) (VStr "stephen") (Sample.arguments false false).
Proof.
  apply (proj1 (proj2 (@collectAuthorData_resolution Sample.externals
                         (Sample.environment Sample.post true)
                         (Sample.arguments false false)))); reflexivity.
Defined.

Lemma missing_credentials_stop_the_run_witness :
  let a := {| blogpost_name := "_posts/2022-08-01-hello-world.md";
              authors_dir := "_authors"; author_file := None; force := false;
              user := None; password := Some "secret";
              skip_url := false; dry_run := false |} in
  fst (@Script.main Sample.externals (Sample.environment Sample.post true) a
         (initial (Sample.environment Sample.post true)))
  = Raise (SystemExit None).
Proof.
  intros a.
  rewrite (proj1 (proj1 (@missing_credentials_stop_the_run Sample.externals
                           (Sample.environment Sample.post true) a) eq_refl)).
  reflexivity.
Defined.


